(** * UAPMP backend: registration, e-mail verification and login

    A shallow embedding of [backend/routes/auth.js], of the directory
    [backend/constants/universities.js] and of the Mongoose schema
    [backend/models/User.js], with the properties of the account life cycle
    proved over it.

    Conventions of the model.
    - A JavaScript string is a [string] of 8-bit characters; the case
      mappings act on the ASCII letters only, every other character is left
      alone.  Request fields are strings or absent.
    - Regular expressions are data ([regex]) run by a backtracking matcher
      ([exec]) that follows the ECMAScript rules for the constructs the
      source uses: greedy quantifiers, optional groups, captures, the
      anchors and the [i] flag.
    - The collaborators (MongoDB through Mongoose, bcrypt, jsonwebtoken,
      nodemailer, the clock) are reached through an environment [Env]
      which fixes the time, the pure primitives and, for every call, whether
      it rejects; the collection itself is a list of documents in insertion
      order.
    - A route handler is a computation in the monad [M] (state of the
      [World], exceptions of type [JsError]) that ends in a [Response]. *)

From Stdlib Require Import Bool Arith Lia ZArith List Ascii String.
Import ListNotations.
Local Open Scope string_scope.
Local Open Scope list_scope.
Local Open Scope nat_scope.

Set Implicit Arguments.

(* ================================================================== *)
(** * Strings *)

Module Str.

Definition code (c : ascii) : nat := nat_of_ascii c.

Definition between (lo hi c : ascii) : bool :=
  (code lo <=? code c) && (code c <=? code hi).

Definition isUpper (c : ascii) : bool := between "A" "Z" c.
Definition isLower (c : ascii) : bool := between "a" "z" c.
Definition isDigit (c : ascii) : bool := between "0" "9" c.

Definition lowerChar (c : ascii) : ascii :=
  if isUpper c then ascii_of_nat (code c + 32) else c.
Definition upperChar (c : ascii) : ascii :=
  if isLower c then ascii_of_nat (code c - 32) else c.

(** [s.toLowerCase()] *)
Fixpoint toLowerCase (s : string) : string :=
  match s with
  | EmptyString => EmptyString
  | String c s' => String (lowerChar c) (toLowerCase s')
  end.

(** [s.startsWith(p)] *)
Fixpoint startsWith (p s : string) : bool :=
  match p, s with
  | EmptyString, _ => true
  | String a p', String b s' => Ascii.eqb a b && startsWith p' s'
  | String _ _, EmptyString => false
  end.

(** [s.substr(start, len)] for [start] within the string. *)
Definition substr (s : string) (start len : nat) : string :=
  substring start len s.

Fixpoint forallb (p : ascii -> bool) (s : string) : bool :=
  match s with
  | EmptyString => true
  | String c s' => p c && forallb p s'
  end.

Fixpoint existsb (p : ascii -> bool) (s : string) : bool :=
  match s with
  | EmptyString => false
  | String c s' => p c || existsb p s'
  end.

(** JavaScript white space, as far as the 8-bit model goes: TAB, LF, VT,
    FF, CR, SPACE and NO-BREAK SPACE (U+00A0). *)
Definition isSpace (c : ascii) : bool :=
  ((9 <=? code c) && (code c <=? 13)) || (code c =? 32) || (code c =? 160).

Fixpoint trimStart (s : string) : string :=
  match s with
  | EmptyString => EmptyString
  | String c s' => if isSpace c then trimStart s' else s
  end.

Fixpoint rev_acc (s acc : string) : string :=
  match s with
  | EmptyString => acc
  | String c s' => rev_acc s' (String c acc)
  end.
Definition rev (s : string) : string := rev_acc s EmptyString.

(** [s.trim()] *)
Definition trim (s : string) : string := rev (trimStart (rev (trimStart s))).

(** Truthiness of a string value: only the empty string is falsy. *)
Definition truthy (s : string) : bool :=
  match s with EmptyString => false | String _ _ => true end.

End Str.

(* ================================================================== *)
(** * Regular expressions *)

Module RegExp.

(** One item of a character class: a single character or a range. *)
Inductive citem : Type :=
| One (c : ascii)
| Range (lo hi : ascii).

Inductive quant : Type :=
| Once                       (* [..]    *)
| OneOrMore                  (* [..]+   *)
| Exactly (n : nat).         (* [..]{n} *)

Inductive regex : Type :=
| Chars (negated : bool) (cls : list citem) (q : quant)
| Lit (s : string)
| Cat (r1 r2 : regex)
| Opt (r : regex)            (* (?: r )?  greedy *)
| Group (i : nat) (r : regex)
| Bol                        (* ^ *)
| Eol.                       (* $ , no multiline flag *)

Fixpoint seq (rs : list regex) : regex :=
  match rs with
  | [] => Lit ""
  | [r] => r
  | r :: rs' => Cat r (seq rs')
  end.

Definition item_has (it : citem) (c : ascii) : bool :=
  match it with
  | One a => Ascii.eqb a c
  | Range lo hi => Str.between lo hi c
  end.

Definition class_has (cls : list citem) (c : ascii) : bool :=
  List.existsb (fun it => item_has it c) cls.

(** Membership of a character in a class.  Under the [i] flag a member
    of the class may differ from the character by case; the negation is
    applied afterwards. *)
Definition accepts (ignoreCase negated : bool) (cls : list citem)
           (c : ascii) : bool :=
  let found :=
    if ignoreCase
    then class_has cls c || class_has cls (Str.upperChar c)
                         || class_has cls (Str.lowerChar c)
    else class_has cls c in
  if negated then negb found else found.

Definition char_eq (ignoreCase : bool) (a b : ascii) : bool :=
  if ignoreCase then Ascii.eqb (Str.upperChar a) (Str.upperChar b)
  else Ascii.eqb a b.

(** Consume the literal [l] at the head of [s]. *)
Fixpoint strip (ignoreCase : bool) (l s : string) : option string :=
  match l, s with
  | EmptyString, _ => Some s
  | String a l', String b s' =>
      if char_eq ignoreCase a b then strip ignoreCase l' s' else None
  | String _ _, EmptyString => None
  end.

Section Matcher.
Variable A : Type.

(** [p+], greedy: take one character, try to take more, and only then
    hand over to the continuation. *)
Fixpoint plus (p : ascii -> bool) (s : string)
         (k : string -> option A) : option A :=
  match s with
  | EmptyString => None
  | String c s' =>
      if p c then
        match plus p s' k with
        | Some r => Some r
        | None => k s'
        end
      else None
  end.

(** [p{n}] *)
Fixpoint exactly (p : ascii -> bool) (n : nat) (s : string)
         (k : string -> option A) : option A :=
  match n with
  | O => k s
  | S n' =>
      match s with
      | EmptyString => None
      | String c s' => if p c then exactly p n' s' k else None
      end
  end.
End Matcher.

(** The captures of a match: group number and captured text.  A group
    that took no part in the match has no entry ([undefined]). *)
Definition captures : Type := list (nat * string).

Fixpoint capture (i : nat) (cs : captures) : option string :=
  match cs with
  | [] => None
  | (j, t) :: cs' => if Nat.eqb i j then Some t else capture i cs'
  end.

(** The backtracking matcher, in continuation-passing style.  [input]
    is the whole subject, [s] what is left of it. *)
Fixpoint exec (ic : bool) (input : string) (r : regex) (s : string)
         (cs : captures) (k : string -> captures -> option captures)
  : option captures :=
  match r with
  | Chars neg cls Once =>
      match s with
      | String c s' => if accepts ic neg cls c then k s' cs else None
      | EmptyString => None
      end
  | Chars neg cls OneOrMore =>
      plus (accepts ic neg cls) s (fun s' => k s' cs)
  | Chars neg cls (Exactly n) =>
      exactly (accepts ic neg cls) n s (fun s' => k s' cs)
  | Lit l =>
      match strip ic l s with
      | Some s' => k s' cs
      | None => None
      end
  | Cat r1 r2 =>
      exec ic input r1 s cs (fun s1 cs1 => exec ic input r2 s1 cs1 k)
  | Opt r1 =>
      match exec ic input r1 s cs k with
      | Some res => Some res
      | None => k s cs
      end
  | Group i r1 =>
      exec ic input r1 s cs
           (fun s' cs' =>
              k s' ((i, substring 0 (String.length s - String.length s') s)
                      :: cs'))
  | Bol =>
      if String.length s =? String.length input then k s cs else None
  | Eol =>
      match s with
      | EmptyString => k s cs
      | String _ _ => None
      end
  end.

Definition exec_at (ic : bool) (r : regex) (input s : string)
  : option captures :=
  exec ic input r s [] (fun _ cs => Some cs).

(** The search of [RegExp.prototype.exec]: the first start position, from
    the left, at which the pattern matches. *)
Fixpoint search (ic : bool) (r : regex) (input s : string)
  : option captures :=
  match exec_at ic r input s with
  | Some cs => Some cs
  | None =>
      match s with
      | EmptyString => None
      | String _ s' => search ic r input s'
      end
  end.

(** [s.match(/r/)] and [s.match(/r/i)] *)
Definition match_ (ic : bool) (r : regex) (s : string) : option captures :=
  search ic r s s.

(** [/r/.test(s)] *)
Definition test (ic : bool) (r : regex) (s : string) : bool :=
  match match_ ic r s with Some _ => true | None => false end.

End RegExp.

(* ================================================================== *)
(** * Helper functions of [routes/auth.js] *)

Import RegExp.

(** ** [validatePasswordStrength] *)

(** [/[a-zA-Z]/] *)
Definition re_letter : regex := Chars false [Range "a" "z"; Range "A" "Z"] Once.
(** [/\d/] *)
Definition re_digit : regex := Chars false [Range "0" "9"] Once.
(** The class of [hasSpecial]: the characters ! @ # $ % ^ & * ( ) , . ?
    : { } | < > and the double quote (character 34). *)
Definition special_chars : list citem :=
  [One "!"; One "@"; One "#"; One "$"; One "%"; One "^"; One "&"; One "*";
   One "("; One ")"; One ","; One "."; One "?"; One "034"; One ":"; One "{";
   One "}"; One "|"; One "<"; One ">"]%char.
Definition re_special : regex := Chars false special_chars Once.

Record Requirements : Type := mkRequirements {
  req_length : bool;
  hasLetter : bool;
  hasDigit : bool;
  hasSpecial : bool
}.

Record PasswordStrength : Type := mkPasswordStrength {
  isStrong : bool;
  requirements : Requirements
}.

(** [Object.values(requirements)] *)
Definition requirement_values (r : Requirements) : list bool :=
  [req_length r; hasLetter r; hasDigit r; hasSpecial r].

Definition validatePasswordStrength (password : string) : PasswordStrength :=
  let requirements :=
    {| req_length := 6 <=? String.length password;
       hasLetter := test false re_letter password;
       hasDigit := test false re_digit password;
       hasSpecial := test false re_special password |} in
  let isStrong :=
    List.forallb (fun req => Bool.eqb req true)
                 (requirement_values requirements) in
  {| isStrong := isStrong; requirements := requirements |}.

(** ** Errors *)

(** The exceptions the handlers can see.  [MongoServerError] carries the
    server's [code] and the keys of its [keyPattern]; [ValidationError]
    the messages of its [errors]. *)
Inductive JsError : Type :=
| Error_ (message : string)
| TypeError_ (message : string)
| MongoServerError (code : Z) (keyPattern : list string) (message : string)
| ValidationError (messages : list string) (message : string).

Definition err_message (e : JsError) : string :=
  match e with
  | Error_ m | TypeError_ m | MongoServerError _ _ m | ValidationError _ m => m
  end.

Definition err_name (e : JsError) : string :=
  match e with
  | Error_ _ => "Error"
  | TypeError_ _ => "TypeError"
  | MongoServerError _ _ _ => "MongoServerError"
  | ValidationError _ _ => "ValidationError"
  end.

Definition err_code (e : JsError) : option Z :=
  match e with
  | MongoServerError c _ _ => Some c
  | _ => None
  end.

(** ** The directory, [constants/universities.js] *)

Module Obj.
(** A plain object literal: its own properties in source order. *)
Definition t (V : Type) : Type := list (string * V).

Fixpoint own {V : Type} (o : t V) (key : string) : option V :=
  match o with
  | [] => None
  | (k, v) :: o' => if String.eqb k key then Some v else own o' key
  end.

(** The properties every plain object inherits from [Object.prototype]. *)
Definition prototype_keys : list string :=
  ["constructor"; "__defineGetter__"; "__defineSetter__"; "hasOwnProperty";
   "__lookupGetter__"; "__lookupSetter__"; "isPrototypeOf";
   "propertyIsEnumerable"; "toString"; "valueOf"; "__proto__";
   "toLocaleString"].

Definition in_prototype (key : string) : bool :=
  List.existsb (String.eqb key) prototype_keys.

(** The result of the property read [o[key]]: an own property, a member
    inherited from [Object.prototype] (a function or an object, truthy),
    or [undefined]. *)
Inductive lookup (V : Type) : Type :=
| Own (v : V)
| Inherited (key : string)
| Undefined.
Arguments Own {V} v.
Arguments Inherited {V} key.
Arguments Undefined {V}.

Definition get {V : Type} (o : t V) (key : string) : lookup V :=
  match own o key with
  | Some v => Own v
  | None => if in_prototype key then Inherited key else Undefined
  end.
End Obj.

Record University : Type := mkUniversity {
  name : string;
  subdomains : Obj.t string
}.

Definition cairo_university : University :=
  {| name := "Cairo University";
     subdomains :=
       [("sca", "Faculty of Arts");
        ("sci", "Faculty of Science");
        ("eng", "Faculty of Engineering");
        ("med", "Faculty of Medicine");
        ("dentistry", "Faculty of Dentistry");
        ("pharma", "Faculty of Pharmacy");
        ("law", "Faculty of Law");
        ("foc", "Faculty of Commerce");
        ("edu", "Faculty of Education");
        ("agr", "Faculty of Agriculture");
        ("vet", "Faculty of Veterinary Medicine");
        ("pt", "Faculty of Physical Therapy");
        ("fci", "Faculty of Computers & AI");
        ("nursing", "Faculty of Nursing");
        ("masscomm", "Faculty of Mass Communication");
        ("feps", "Faculty of Economics & Political Science");
        ("dar", "Faculty of Dar Al‑Ulum");
        ("arch", "Faculty of Archaeology");
        ("rup", "Faculty of Regional & Urban Planning")] |}.

Definition Universities : Obj.t University :=
  [("cu.edu.eg", cairo_university)].

(** ** [extractUserDataFromEmail] *)

Inductive Role : Type := student | instructor.

Definition role_name (r : Role) : string :=
  match r with student => "student" | instructor => "instructor" end.

(** What [subdomains[subdomain]] yields when it is truthy: the faculty name
    of the directory, or a member of [Object.prototype]. *)
Inductive Faculty : Type :=
| FacultyName (s : string)
| ProtoMember (key : string).

Record EmailData : Type := mkEmailData {
  ed_university : string;
  ed_faculty : Faculty;
  ed_role : Role;
  ed_studentId : option string
}.

Definition email_local_class : list citem :=
  [Range "a" "z"; Range "A" "Z"; Range "0" "9";
   One "."; One "_"; One "%"; One "+"; One "-"]%char.

(** [/^([a-zA-Z0-9._%+-]+)@(?:(std)\.)?([^.]+)\.(cu\.edu\.eg)$/i] *)
Definition re_email : regex :=
  seq [Bol;
       Group 1 (Chars false email_local_class OneOrMore);
       Lit "@";
       Opt (Cat (Group 2 (Lit "std")) (Lit "."));
       Group 3 (Chars true [One "."%char] OneOrMore);
       Lit ".";
       Group 4 (Lit "cu.edu.eg");
       Eol].

(** [/^\d{9}$/] and [/^\d{7}$/] *)
Definition re_digits (n : nat) : regex :=
  seq [Bol; Chars false [Range "0" "9"] (Exactly n); Eol].

(** [match[i]] of a group that took part in the match. *)
Definition group (i : nat) (m : captures) : string :=
  match capture i m with Some t => t | None => "" end.

(** [!!match[i]] *)
Definition has_group (i : nat) (m : captures) : bool :=
  match capture i m with Some t => Str.truthy t | None => false end.

Definition msg_invalid_format : string :=
  "Invalid Cairo University email format".
Definition msg_unsupported_university (domain : string) : string :=
  "University '" ++ domain ++ "' is not supported yet".
Definition msg_unrecognized_faculty (subdomain uni : string) : string :=
  "Faculty '" ++ subdomain ++ "' is not recognized at " ++ uni.
Definition msg_student_prefix : string :=
  "Student email must have a 9-digit prefix (new) or 7-digit prefix (legacy) as student ID".

Definition extractUserDataFromEmail (email : string) : JsError + EmailData :=
  match match_ true re_email email with
  | None => inl (Error_ msg_invalid_format)
  | Some m =>
      let emailPrefix := group 1 m in
      let isStudent := has_group 2 m in
      let subdomain := Str.toLowerCase (group 3 m) in
      let domain := Str.toLowerCase (group 4 m) in
      match Obj.get Universities domain with
      | Obj.Undefined => inl (Error_ (msg_unsupported_university domain))
      | Obj.Inherited _ =>
          (* [universityData.subdomains] is [undefined] *)
          inl (TypeError_ "Cannot read properties of undefined")
      | Obj.Own universityData =>
          let finish (faculty : Faculty) : JsError + EmailData :=
            let ret (studentId : option string) :=
              inr {| ed_university := name universityData;
                     ed_faculty := faculty;
                     ed_role := if isStudent then student else instructor;
                     ed_studentId := studentId |} in
            if isStudent then
              if test false (re_digits 9) emailPrefix then
                ret (Some (Str.substr emailPrefix 2 7))
              else if test false (re_digits 7) emailPrefix then
                ret (Some emailPrefix)
              else inl (Error_ msg_student_prefix)
            else ret None in
          match Obj.get (subdomains universityData) subdomain with
          | Obj.Undefined =>
              inl (Error_ (msg_unrecognized_faculty subdomain
                                                    (name universityData)))
          | Obj.Own f => finish (FacultyName f)
          | Obj.Inherited key => finish (ProtoMember key)
          end
      end
  end.

(* ================================================================== *)
(** * The collaborators *)

(** A MongoDB [ObjectId]: the creation time in seconds, then the bytes
    that make it unique. *)
Record ObjectId : Type := mkObjectId {
  oid_seconds : Z;
  oid_unique : nat
}.

Definition oid_eqb (a b : ObjectId) : bool :=
  Z.eqb (oid_seconds a) (oid_seconds b)
  && Nat.eqb (oid_unique a) (oid_unique b).

(** [id.getTimestamp().getTime()] *)
Definition getTimestamp (i : ObjectId) : Z := (oid_seconds i * 1000)%Z.

(** A document of the [User] collection ([models/User.js], with
    [timestamps: true]).  [createdAt] is optional only because the handlers
    provide for documents that lack it. *)
Record User : Type := mkUser {
  _id : ObjectId;
  fullName : string;
  email : string;
  studentId : option string;
  password : string;
  role : Role;
  university : string;
  college : string;
  isEmailVerified : bool;
  createdAt : option Z;
  updatedAt : Z
}.

(** The object handed to [User.create]. *)
Record UserPayload : Type := mkUserPayload {
  p_fullName : string;
  p_email : string;
  p_password : string;
  p_role : Role;
  p_university : string;
  p_college : Faculty;
  p_isEmailVerified : bool;
  p_studentId : option string
}.

Record Mail : Type := mkMail {
  mail_to : string;
  mail_userId : ObjectId;
  mail_userName : string
}.

(** What a request can change: the collection (in insertion order), the
    lines written with [console.error], the messages handed to the mail
    transport. *)
Record World : Type := mkWorld {
  users : list User;
  console : list string;
  outbox : list Mail
}.

(** The calls that leave the process. *)
Inductive Op : Type :=
| OpCreate | OpFindById | OpFindOne | OpDeleteOne | OpSave
| OpGenSalt | OpHash | OpCompare | OpSign | OpSendMail.

Record Env : Type := mkEnv {
  now : Z;                                   (* Date.now() *)
  newObjectId : ObjectId;                    (* the id of the next insert *)
  salt : string;                             (* bcrypt.genSalt(10) *)
  hash : string -> string -> string;         (* bcrypt.hash(password, salt) *)
  compare : string -> string -> bool;        (* bcrypt.compare(password, hash) *)
  sign : ObjectId -> Role -> string -> string;  (* jwt.sign({id, role, email}) *)
  castMember : string -> option string;      (* Mongoose's cast to String of a
                                                member of Object.prototype *)
  castError : string -> string;              (* the message of the CastError
                                                when that cast fails *)
  rejects : Op -> option JsError             (* the calls that fail, and how *)
}.

(** ** The monad of the handlers *)

Definition M (A : Type) : Type := World -> (JsError + A) * World.

Definition ret {A : Type} (a : A) : M A := fun w => (inr a, w).
Definition throw {A : Type} (e : JsError) : M A := fun w => (inl e, w).
Definition bind {A B : Type} (m : M A) (k : A -> M B) : M B :=
  fun w => match m w with
           | (inr a, w') => k a w'
           | (inl e, w') => (inl e, w')
           end.
(** [try { m } catch (e) { h }] *)
Definition try_catch {A : Type} (m : M A) (h : JsError -> M A) : M A :=
  fun w => match m w with
           | (inr a, w') => (inr a, w')
           | (inl e, w') => h e w'
           end.

Notation "x <- m ;; k" := (bind m (fun x => k))
  (at level 61, m at next level, right associativity).
Notation "m ;;; k" := (bind m (fun _ => k))
  (at level 61, right associativity).

(** An awaited call to a collaborator: rejected if the environment says so. *)
Definition call {A : Type} (env : Env) (op : Op) (m : M A) : M A :=
  match rejects env op with
  | Some e => throw e
  | None => m
  end.

(** [console.error(prefix, message)] *)
Definition console_error (prefix message : string) : M unit :=
  fun w => (inr tt, {| users := users w;
                       console := console w ++ [(prefix ++ " " ++ message)%string];
                       outbox := outbox w |}).

Definition get_users : M (list User) := fun w => (inr (users w), w).
Definition put_users (us : list User) : M unit :=
  fun w => (inr tt, {| users := us; console := console w; outbox := outbox w |}).

(** ** Mongoose: the model [User] *)

Definition by_id (i : ObjectId) (u : User) : bool := oid_eqb (_id u) i.
Definition by_email (e : string) (u : User) : bool := String.eqb (email u) e.
Definition by_studentId (s : string) (u : User) : bool :=
  match studentId u with Some t => String.eqb t s | None => false end.

(** [User.findById(uid)] *)
Definition User_findById (env : Env) (uid : ObjectId) : M (option User) :=
  call env OpFindById (us <- get_users ;; ret (List.find (by_id uid) us)).

(** [User.findOne({ email })] *)
Definition User_findOne (env : Env) (e : string) : M (option User) :=
  call env OpFindOne (us <- get_users ;; ret (List.find (by_email e) us)).

(** [User.deleteOne({ _id })] *)
Definition User_deleteOne (env : Env) (i : ObjectId) : M unit :=
  call env OpDeleteOne
       (us <- get_users ;;
        put_users (List.filter (fun u => negb (by_id i u)) us)).

(** [user.save()] after [user.isEmailVerified = true]: the modified path
    and [updatedAt] are written to the stored document. *)
Definition User_save (env : Env) (user : User) : M unit :=
  call env OpSave
       (us <- get_users ;;
        if List.existsb (by_id (_id user)) us then
          put_users
            (List.map (fun u => if by_id (_id user) u then user else u) us)
        else throw (Error_ "No document found for query")).

(** The [required] validator of a path: its failure, as the path and the
    message of the error. *)
Definition required (path value : string) : list (string * string) :=
  if Str.truthy value then []
  else [(path, ("Path `" ++ path ++ "` is required.")%string)].

(** The [required] validators of the paths before [college], in the order
    of the payload, which is the order in which the errors are recorded. *)
Definition required_failures (fullName email password university : string)
  : list (string * string) :=
  required "fullName" fullName ++ required "email" email
  ++ required "password" password ++ required "university" university.

(** Mongoose's [ValidationError] of the model [User]: the messages of its
    [errors], and its own message, which lists them with their paths. *)
Definition User_validation_failed (errors : list (string * string))
  : JsError :=
  ValidationError
    (List.map snd errors)
    ("User validation failed: "
       ++ String.concat ", "
            (List.map (fun e => (fst e ++ ": " ++ snd e)%string) errors)).

(** [User.create(payload)]: casting and setters ([trim], [lowercase]),
    validation, then the insert, which the unique indexes on [_id],
    [email] and (sparse) [studentId] can refuse with error 11000.  A cast
    error is recorded when the document is built, before the validators
    run, and its path is not validated again. *)
Definition User_create (env : Env) (p : UserPayload) : M User :=
  call env OpCreate
    (let fullName := Str.trim (p_fullName p) in
     let email := Str.toLowerCase (p_email p) in
     let failures :=
       required_failures fullName email (p_password p) (p_university p) in
     match (match p_college p with
            | FacultyName s => inr s
            | ProtoMember key =>
                match castMember env key with
                | Some s => inr s
                | None => inl (castError env key)
                end
            end) with
     | inl castMessage =>
         throw (User_validation_failed (("college", castMessage) :: failures))
     | inr college =>
         match failures ++ required "college" college with
         | (_ :: _) as errors => throw (User_validation_failed errors)
         | [] =>
             let doc :=
               {| _id := newObjectId env;
                  fullName := fullName;
                  email := email;
                  studentId := p_studentId p;
                  password := p_password p;
                  role := p_role p;
                  university := p_university p;
                  college := college;
                  isEmailVerified := p_isEmailVerified p;
                  createdAt := Some (now env);
                  updatedAt := now env |} in
             us <- get_users ;;
             if List.existsb (by_id (_id doc)) us then
               throw (MongoServerError 11000 ["_id"]
                                       "E11000 duplicate key error")
             else if List.existsb (by_email email) us then
               throw (MongoServerError 11000 ["email"]
                                       "E11000 duplicate key error")
             else if match p_studentId p with
                     | Some s => List.existsb (by_studentId s) us
                     | None => false
                     end then
               throw (MongoServerError 11000 ["studentId"]
                                       "E11000 duplicate key error")
             else put_users (us ++ [doc]) ;;; ret doc
         end
     end).

(** ** bcrypt, jsonwebtoken, nodemailer *)

Definition bcrypt_genSalt (env : Env) : M string :=
  call env OpGenSalt (ret (salt env)).
Definition bcrypt_hash (env : Env) (password salt : string) : M string :=
  call env OpHash (ret (hash env password salt)).
Definition bcrypt_compare (env : Env) (password hashed : string) : M bool :=
  call env OpCompare (ret (compare env password hashed)).

(** [jwt.sign({ id, role, email }, secret, { expiresIn })] *)
Definition jwt_sign (env : Env) (u : User) : M string :=
  call env OpSign (ret (sign env (_id u) (role u) (email u))).

(** [sendVerificationEmail(email, userId, userName)] *)
Definition sendVerificationEmail (env : Env) (to : string) (userId : ObjectId)
           (userName : string) : M unit :=
  call env OpSendMail
       (fun w => (inr tt,
                  {| users := users w; console := console w;
                     outbox := outbox w ++ [{| mail_to := to;
                                               mail_userId := userId;
                                               mail_userName := userName |}] |})).

(* ================================================================== *)
(** * The routes *)

(** ** Requests and responses *)

#[local] Set Warnings "-register-all".
Inductive Json : Type :=
| JUndefined
| JBool (b : bool)
| JStr (s : string)
| JId (i : ObjectId)
| JArr (items : list Json)
| JObj (fields : list (string * Json)).

Inductive Response : Type :=
| Reply (status : nat) (body : Json)             (* res.status(n).json(body) *)
| Page (status : nat) (html : string)            (* res.status(n).send(html) *)
| Redirect (url token : string) (user : Json).   (* res.redirect(url?token=..&user=..) *)

Record RegisterBody : Type := mkRegisterBody {
  rb_fullName : option string;
  rb_email : option string;
  rb_password : option string;
  rb_confirmPassword : option string
}.

Record LoginBody : Type := mkLoginBody {
  lb_email : option string;
  lb_password : option string
}.

Definition str (x : option string) : string :=
  match x with Some s => s | None => "" end.

(** [!x] for a field that is a string or absent. *)
Definition falsy (x : option string) : bool := negb (Str.truthy (str x)).

Definition opt_str (x : option string) : Json :=
  match x with Some s => JStr s | None => JUndefined end.

Definition failure (status : nat) (message code : string) : Response :=
  Reply status (JObj [("message", JStr message); ("code", JStr code)]).

(** ** POST /register *)

Definition weak_password_body (r : Requirements) : Json :=
  let item (status : bool) (message : string) : Json :=
    JObj [("status", JBool status); ("message", JStr message)] in
  JObj [("message", JStr "Password does not meet security requirements");
        ("code", JStr "WEAK_PASSWORD");
        ("requirements",
         JObj [("minLength", item (req_length r) "Minimum 6 characters");
               ("hasLetters",
                item (hasLetter r) "Must contain letters (a-z, A-Z)");
               ("hasNumbers",
                item (hasDigit r) "Must contain numbers (0-9)");
               ("hasSpecialChar",
                item (hasSpecial r)
                     "Must contain special character (!@#$%^&*)")])].

Definition registered_user (u : User) : Json :=
  JObj [("id", JId (_id u));
        ("fullName", JStr (fullName u));
        ("email", JStr (email u));
        ("studentId", opt_str (studentId u));
        ("role", JStr (role_name (role u)));
        ("university", JStr (university u));
        ("college", JStr (college u));
        ("isEmailVerified", JBool (isEmailVerified u))].

Definition registration_success (u : User) : Response :=
  Reply 201
    (JObj [("message",
            JStr "Account created successfully. Please verify your email to activate your account.");
           ("code", JStr "REGISTRATION_SUCCESS_VERIFY_EMAIL");
           ("user", registered_user u);
           ("details",
            JStr "A verification link has been sent to your email. Please check your inbox (and spam folder).")]).

Definition duplicate_entry (field : option string) : Response :=
  Reply 409
    (JObj [("message",
            JStr ("Account with this "
                    ++ match field with Some f => f | None => "undefined" end
                    ++ " already exists")%string);
           ("code", JStr "DUPLICATE_ENTRY");
           ("field", opt_str field)]).

(** The [catch] of the route. *)
Definition register_failed (error : JsError) : M Response :=
  console_error "[ERROR] Registration process failed:" (err_message error) ;;;
  match error with
  | MongoServerError 11000 keyPattern _ =>
      let field := List.hd_error keyPattern in
      ret (duplicate_entry field)
  | ValidationError messages _ =>
      ret (Reply 400
             (JObj [("message", JStr "Validation failed");
                    ("code", JStr "VALIDATION_ERROR");
                    ("details", JArr (List.map JStr messages))]))
  | _ =>
      ret (failure 500 "An unexpected error occurred during registration"
                   "INTERNAL_SERVER_ERROR")
  end.

Definition post_register (env : Env) (body : RegisterBody) : M Response :=
  try_catch
    (if falsy (rb_fullName body) || falsy (rb_email body)
        || falsy (rb_password body) || falsy (rb_confirmPassword body)
     then ret (failure 400 "Invalid request: all fields are required"
                       "MISSING_FIELDS")
     else
       let fullName := str (rb_fullName body) in
       let email := str (rb_email body) in
       let password := str (rb_password body) in
       let confirmPassword := str (rb_confirmPassword body) in
       if negb (String.eqb password confirmPassword)
       then ret (failure 400 "Password confirmation does not match"
                         "PASSWORD_MISMATCH")
       else
         let strength := validatePasswordStrength password in
         if negb (isStrong strength)
         then ret (Reply 400 (weak_password_body (requirements strength)))
         else
           let emailLower := Str.toLowerCase email in
           match extractUserDataFromEmail emailLower with
           | inl emailError =>
               ret (Reply 400
                      (JObj [("message", JStr "Invalid email format");
                             ("code", JStr "INVALID_EMAIL_FORMAT");
                             ("details", JStr (err_message emailError))]))
           | inr emailData =>
               let role := ed_role emailData in
               let university := ed_university emailData in
               let college := ed_faculty emailData in
               let studentId := ed_studentId emailData in
               let displayName :=
                 match role with
                 | instructor =>
                     if negb (Str.startsWith "dr." (Str.toLowerCase fullName))
                     then ("Dr. " ++ fullName)%string
                     else fullName
                 | student => fullName
                 end in
               salt <- bcrypt_genSalt env ;;
               hashedPassword <- bcrypt_hash env password salt ;;
               let userPayload :=
                 {| p_fullName := displayName;
                    p_email := emailLower;
                    p_password := hashedPassword;
                    p_role := role;
                    p_university := university;
                    p_college := college;
                    p_isEmailVerified := false;
                    p_studentId :=
                      match role, studentId with
                      | student, Some s =>
                          if Str.truthy s then Some s else None
                      | _, _ => None
                      end |} in
               newUser <- User_create env userPayload ;;
               try_catch
                 (sendVerificationEmail env emailLower (_id newUser)
                                        displayName)
                 (fun emailError =>
                    console_error
                      "[WARNING] Failed to send verification email:"
                      (err_message emailError)) ;;;
               ret (registration_success newUser)
           end)
    register_failed.

(** ** POST /verify-email and GET /verify-email/:uid *)

(** [24 * 60 * 60 * 1000] *)
Definition maxAgeMs : Z := (24 * 60 * 60 * 1000)%Z.

(** [user.createdAt || user._id.getTimestamp()], as milliseconds. *)
Definition creationTime (u : User) : Z :=
  match createdAt u with
  | Some t => t
  | None => getTimestamp (_id u)
  end.

(** [Date.now() - new Date(createdAt).getTime()] *)
Definition ageMs (env : Env) (u : User) : Z := (now env - creationTime u)%Z.

(** The document after [user.isEmailVerified = true], as [save] writes it. *)
Definition verified (env : Env) (u : User) : User :=
  {| _id := _id u; fullName := fullName u; email := email u;
     studentId := studentId u; password := password u; role := role u;
     university := university u; college := college u;
     isEmailVerified := true;
     createdAt := createdAt u; updatedAt := now env |}.

(** The [try]/[catch] around the removal of an expired account. *)
Definition remove_expired (env : Env) (user : User) : M unit :=
  try_catch
    (User_deleteOne env (_id user))
    (fun delError =>
       console_error "[WARNING] Failed to delete expired unverified user:"
                     (err_message delError)).

Definition verified_user (u : User) : Json :=
  JObj [("id", JId (_id u));
        ("fullName", JStr (fullName u));
        ("email", JStr (email u));
        ("role", JStr (role_name (role u)));
        ("university", JStr (university u));
        ("college", JStr (college u));
        ("isEmailVerified", JBool (isEmailVerified u))].

Definition post_verify_email (env : Env) (uid : option ObjectId) : M Response :=
  try_catch
    (match uid with
     | None =>
         ret (failure 400 "Verification uid is required" "MISSING_UID")
     | Some uid =>
         found <- User_findById env uid ;;
         match found with
         | None =>
             ret (failure 400 "Invalid verification link or user not found"
                          "INVALID_UID")
         | Some user =>
             if isEmailVerified user
             then ret (failure 400 "Email is already verified"
                               "ALREADY_VERIFIED")
             else if (maxAgeMs <? ageMs env user)%Z
             then
               remove_expired env user ;;;
               ret (failure 400
                            "Verification link has expired and the unverified account has been removed. Please register again."
                            "TOKEN_EXPIRED_ACCOUNT_REMOVED")
             else
               let user := verified env user in
               User_save env user ;;;
               ret (Reply 200
                      (JObj [("message",
                              JStr "Email verified successfully. You can now login.");
                             ("code", JStr "EMAIL_VERIFIED_SUCCESS");
                             ("user", verified_user user)]))
         end
     end)
    (fun error =>
       console_error "[ERROR] Email verification failed:" (err_message error) ;;;
       ret (failure 500
                    "An unexpected error occurred during email verification"
                    "INTERNAL_SERVER_ERROR")).

(** The user object of the login response and of the dashboard redirect. *)
Definition session_user (u : User) : Json :=
  JObj [("id", JId (_id u));
        ("fullName", JStr (fullName u));
        ("email", JStr (email u));
        ("role", JStr (role_name (role u)));
        ("university", JStr (university u));
        ("college", JStr (college u));
        ("studentId", opt_str (studentId u))].

Definition dashboardUrl (u : User) : string :=
  match role u with
  | student => "http://127.0.0.1:5501/frontend/html/student-profile.html"
  | instructor => "http://127.0.0.1:5501/frontend/html/instructor-profile.html"
  end.

(** Sign a token and redirect to the dashboard of the user's role. *)
Definition login_redirect (env : Env) (user : User) : M Response :=
  token <- jwt_sign env user ;;
  ret (Redirect (dashboardUrl user) token (session_user user)).

Definition get_verify_email (env : Env) (uid : option ObjectId) : M Response :=
  try_catch
    (match uid with
     | None =>
         ret (Page 400
                   "<html><body><h1>❌ Invalid Verification Link</h1><p>User ID is missing.</p></body></html>")
     | Some uid =>
         found <- User_findById env uid ;;
         match found with
         | None =>
             ret (Page 400
                       "<html><body><h1>❌ Invalid Verification Link</h1><p>User not found.</p></body></html>")
         | Some user =>
             if isEmailVerified user
             then login_redirect env user
             else if (maxAgeMs <? ageMs env user)%Z
             then
               remove_expired env user ;;;
               ret (Page 400
                         "<html><body><h1>⏰ Verification Link Expired</h1><p>The verification link has expired. Please register again.</p></body></html>")
             else
               let user := verified env user in
               User_save env user ;;;
               login_redirect env user
         end
     end)
    (fun error =>
       console_error "[ERROR] Direct email verification failed:"
                     (err_message error) ;;;
       ret (Page 500
                 "<html><body><h1>❌ Verification Failed</h1><p>An error occurred.</p></body></html>")).

(** ** POST /login *)

Definition invalid_credentials : Response :=
  failure 401 "Invalid email or password" "INVALID_CREDENTIALS".

Definition email_not_verified : Response :=
  failure 403 "Please verify your email first" "EMAIL_NOT_VERIFIED".

Definition post_login (env : Env) (body : LoginBody) : M Response :=
  try_catch
    (if falsy (lb_email body) || falsy (lb_password body)
     then ret (failure 400 "Email and password are required" "MISSING_FIELDS")
     else
       let email := str (lb_email body) in
       let plain := str (lb_password body) in   (* [password] of the body *)
       let emailLower := Str.toLowerCase email in
       found <- User_findOne env emailLower ;;
       match found with
       | None => ret invalid_credentials
       | Some user =>
           if negb (isEmailVerified user)
           then ret email_not_verified
           else
             isMatch <- bcrypt_compare env plain (password user) ;;
             if negb isMatch
             then ret invalid_credentials
             else
               token <- jwt_sign env user ;;
               ret (Reply 200
                      (JObj [("message", JStr "Login successful");
                             ("token", JStr token);
                             ("user", session_user user)]))
       end)
    (fun err =>
       console_error "[ERROR] Login failed:" (err_message err) ;;;
       ret (failure 500 "Internal server error" "INTERNAL_SERVER_ERROR")).

(* ================================================================== *)
(** * Vocabulary of the properties *)

Unset Implicit Arguments.

(** ** Strings and patterns *)

(** The 256 characters. *)
Definition all_ascii : list ascii := List.map ascii_of_nat (List.seq 0 256).

(** The string has a character with the property. *)
Definition contains (p : ascii -> bool) (s : string) : Prop :=
  exists pre c post, s = (pre ++ String c post)%string /\ p c = true.

(** Equality of a literal and a text as the matcher compares them, up to
    the case of ASCII letters under the [i] flag. *)
Fixpoint lit_eq (ic : bool) (l t : string) : bool :=
  match l, t with
  | EmptyString, EmptyString => true
  | String a l', String b t' => char_eq ic a b && lit_eq ic l' t'
  | _, _ => false
  end.

(** The rest of the subject does not start with a character of the class,
    so that a greedy run stops there. *)
Definition stops (p : ascii -> bool) (rest : string) : Prop :=
  match rest with
  | EmptyString => True
  | String c _ => p c = false
  end.

(** ** The password policy *)

Definition is_letter (c : ascii) : bool := Str.isLower c || Str.isUpper c.

Definition is_special (c : ascii) : bool :=
  List.existsb (Ascii.eqb c)
    ["!"; "@"; "#"; "$"; "%"; "^"; "&"; "*"; "("; ")"; ","; "."; "?"; "034";
     ":"; "{"; "}"; "|"; "<"; ">"]%char.

(** ** The shape of an institutional address *)

(** The characters of a local part, [[a-zA-Z0-9._%+-]]. *)
Definition local_char (c : ascii) : bool := class_has email_local_class c.

Definition not_dot (c : ascii) : bool := negb (Ascii.eqb c ".").

(** The final continuation of a match: keep the captures. *)
Definition k0 : string -> captures -> option captures := fun _ cs => Some cs.

(** The pieces of [re_email]: [([^.]+)\.(cu\.edu\.eg)$], the optional
    marker [(std)\.], and what follows the [@]. *)
Definition re_tail : regex :=
  seq [Group 3 (Chars true [One "."%char] OneOrMore);
       Lit "."; Group 4 (Lit "cu.edu.eg"); Eol].
Definition re_marker : regex := Cat (Group 2 (Lit "std")) (Lit ".").
Definition re_rest : regex := Cat (Opt re_marker) re_tail.

(** The text of the optional marker, with its dot. *)
Definition marker_text (marker : option string) : string :=
  match marker with
  | Some t => (t ++ ".")%string
  | None => ""%string
  end.

(** [email] has the shape the pattern asks for,
    [local @ (marker .)? sub . dom]: a local part over the alphabet of
    local parts, the marker [std] if any, a faculty token without a dot and
    the domain [cu.edu.eg], the last two in any case. *)
Definition shaped (email local : string) (marker : option string)
           (sub dom : string) : Prop :=
  email = (local ++ "@" ++ marker_text marker ++ sub ++ "." ++ dom)%string
  /\ local <> ""%string /\ Str.forallb local_char local = true
  /\ match marker with
     | Some t => Str.toLowerCase t = "std"%string
     | None => True
     end
  /\ sub <> ""%string /\ Str.forallb not_dot sub = true
  /\ Str.toLowerCase dom = "cu.edu.eg"%string.

(** The address ends with [.cu.edu.eg], in any case of the letters. *)
Definition cairo_address (email : string) : bool :=
  lit_eq true ".cu.edu.eg" (substring (String.length email - 10) 10 email).

Definition marker_groups (marker : option string) : captures :=
  match marker with Some t => [(2, t)] | None => [] end.

(** The captures of a match of [re_email]. *)
Definition groups (local : string) (marker : option string)
           (sub dom : string) : captures :=
  (4, dom) :: (3, sub) :: marker_groups marker ++ [(1, local)].

(** What the resolver answers once the shape is known and the faculty
    looked up. *)
Definition resolve_role (local : string) (marker : option string)
           (faculty : Faculty) : JsError + EmailData :=
  match marker with
  | None =>
      inr {| ed_university := "Cairo University"; ed_faculty := faculty;
             ed_role := instructor; ed_studentId := None |}
  | Some _ =>
      if (String.length local =? 9) && Str.forallb Str.isDigit local then
        inr {| ed_university := "Cairo University"; ed_faculty := faculty;
               ed_role := student;
               ed_studentId := Some (Str.substr local 2 7) |}
      else if (String.length local =? 7) && Str.forallb Str.isDigit local then
        inr {| ed_university := "Cairo University"; ed_faculty := faculty;
               ed_role := student; ed_studentId := Some local |}
      else inl (Error_ msg_student_prefix)
  end.

(** The answer for a student address of a listed faculty. *)
Definition student_of (faculty studentId : string) : JsError + EmailData :=
  inr {| ed_university := "Cairo University";
         ed_faculty := FacultyName faculty;
         ed_role := student;
         ed_studentId := Some studentId |}.

(** ** Worlds and responses *)

(** The world with another collection, and with one more console line. *)
Definition with_users (w : World) (us : list User) : World :=
  {| users := us; console := console w; outbox := outbox w |}.
Definition with_line (w : World) (prefix message : string) : World :=
  {| users := users w;
     console := console w ++ [(prefix ++ " " ++ message)%string];
     outbox := outbox w |}.

Definition expired_reply : Response :=
  failure 400
    "Verification link has expired and the unverified account has been removed. Please register again."
    "TOKEN_EXPIRED_ACCOUNT_REMOVED".

Definition expired_page : Response :=
  Page 400
    "<html><body><h1>⏰ Verification Link Expired</h1><p>The verification link has expired. Please register again.</p></body></html>".

Definition failed_page : Response :=
  Page 500
    "<html><body><h1>❌ Verification Failed</h1><p>An error occurred.</p></body></html>".

Definition already_verified : Response :=
  failure 400 "Email is already verified" "ALREADY_VERIFIED".

Definition invalid_uid : Response :=
  failure 400 "Invalid verification link or user not found" "INVALID_UID".

Definition verified_reply (u : User) : Response :=
  Reply 200
    (JObj [("message", JStr "Email verified successfully. You can now login.");
           ("code", JStr "EMAIL_VERIFIED_SUCCESS");
           ("user", verified_user u)]).

Definition internal_error : Response :=
  failure 500 "An unexpected error occurred during registration"
          "INTERNAL_SERVER_ERROR".

(** The collection after [deleteOne({ _id: uid })] and after the [save] of
    [v]. *)
Definition without (uid : ObjectId) (us : list User) : list User :=
  List.filter (fun x => negb (by_id uid x)) us.
Definition saved (v : User) (us : list User) : list User :=
  List.map (fun x => if by_id (_id v) x then v else x) us.

(** ** Registration *)

(** The name stored and mailed: instructors get the title [Dr.] unless the
    name already starts with it. *)
Definition display_name (role : Role) (fullName : string) : string :=
  match role with
  | instructor =>
      if negb (Str.startsWith "dr." (Str.toLowerCase fullName))
      then ("Dr. " ++ fullName)%string
      else fullName
  | student => fullName
  end.

(** The payload [POST /register] hands to [User.create] once the request
    is validated, the e-mail resolved to [emailData] and the password
    hashed. *)
Definition registration_payload (env : Env) (body : RegisterBody)
           (emailData : EmailData) : UserPayload :=
  {| p_fullName := display_name (ed_role emailData) (str (rb_fullName body));
     p_email := Str.toLowerCase (str (rb_email body));
     p_password := hash env (str (rb_password body)) (salt env);
     p_role := ed_role emailData;
     p_university := ed_university emailData;
     p_college := ed_faculty emailData;
     p_isEmailVerified := false;
     p_studentId :=
       match ed_role emailData, ed_studentId emailData with
       | student, Some s => if Str.truthy s then Some s else None
       | _, _ => None
       end |}.

(** The verification message of a registration. *)
Definition verification_mail (body : RegisterBody) (emailData : EmailData)
           (newUser : User) : Mail :=
  {| mail_to := Str.toLowerCase (str (rb_email body));
     mail_userId := _id newUser;
     mail_userName :=
       display_name (ed_role emailData) (str (rb_fullName body)) |}.

(** The request passes every check made before the store is touched. *)
Definition validated (body : RegisterBody) (emailData : EmailData) : Prop :=
  falsy (rb_fullName body) = false /\ falsy (rb_email body) = false
  /\ falsy (rb_password body) = false
  /\ falsy (rb_confirmPassword body) = false
  /\ str (rb_password body) = str (rb_confirmPassword body)
  /\ isStrong (validatePasswordStrength (str (rb_password body))) = true
  /\ extractUserDataFromEmail (Str.toLowerCase (str (rb_email body)))
     = inr emailData.

(** ** Environments *)

Definition op_eqb (a b : Op) : bool :=
  match a, b with
  | OpCreate, OpCreate | OpFindById, OpFindById | OpFindOne, OpFindOne
  | OpDeleteOne, OpDeleteOne | OpSave, OpSave | OpGenSalt, OpGenSalt
  | OpHash, OpHash | OpCompare, OpCompare | OpSign, OpSign
  | OpSendMail, OpSendMail => true
  | _, _ => false
  end.

(** [env], except that the call [op] is rejected with [e]. *)
Definition failing (env : Env) (op : Op) (e : JsError) : Env :=
  {| now := now env; newObjectId := newObjectId env; salt := salt env;
     hash := hash env; compare := compare env; sign := sign env;
     castMember := castMember env; castError := castError env;
     rejects := fun o => if op_eqb o op then Some e else rejects env o |}.

(** ** Sample data *)

(** An environment in which every call succeeds, at time [t]. *)
Definition sample_env (t : Z) : Env :=
  {| now := t;
     newObjectId := mkObjectId 1700000500 2;
     salt := "$2a$10$N9qo8uLOickgx2ZMRZoMye";
     hash := fun p s => (s ++ p)%string;
     compare := fun p h => String.eqb ("$2a$10$N9qo8uLOickgx2ZMRZoMye" ++ p) h;
     sign := fun i r e => ("jwt." ++ role_name r ++ "." ++ e)%string;
     castMember := fun _ => None;
     castError := fun _ => "Cast to string failed";
     rejects := fun _ => None |}.

(** A student registered at 1700000000000 ms with the password [abc123!]. *)
Definition sample_student (isVerified : bool) : User :=
  {| _id := mkObjectId 1700000000 1;
     fullName := "Mona Adel";
     email := "123456789@std.sci.cu.edu.eg";
     studentId := Some "3456789";
     password := "$2a$10$N9qo8uLOickgx2ZMRZoMyeabc123!";
     role := student;
     university := "Cairo University";
     college := "Faculty of Science";
     isEmailVerified := isVerified;
     createdAt := Some 1700000000000%Z;
     updatedAt := 1700000000000%Z |}.

Definition sample_world (isVerified : bool) : World :=
  {| users := [sample_student isVerified]; console := []; outbox := [] |}.

Definition empty_world : World :=
  {| users := []; console := []; outbox := [] |}.

Definition sample_login (password : string) : LoginBody :=
  {| lb_email := Some "123456789@STD.sci.cu.edu.eg";
     lb_password := Some password |}.

Definition sample_registration (password : string) : RegisterBody :=
  {| rb_fullName := Some "Mona Adel";
     rb_email := Some "123456789@std.SCI.cu.edu.eg";
     rb_password := Some password;
     rb_confirmPassword := Some password |}.

Definition sample_emailData : EmailData :=
  {| ed_university := "Cairo University";
     ed_faculty := FacultyName "Faculty of Science";
     ed_role := student;
     ed_studentId := Some "3456789" |}.

(** One hour and two days, in milliseconds after the sample registration. *)
Definition an_hour_later : Z := (1700000000000 + 3600000)%Z.
Definition two_days_later : Z := (1700000000000 + 172800000)%Z.

(* ================================================================== *)
(** * The rest of the code *)

(** ** [middleware/auth.js] *)

(** [s.split(sep)] for a separator of one character. *)
Fixpoint split_on (sep : ascii) (s : string) : list string :=
  match s with
  | EmptyString => [EmptyString]
  | String c s' =>
      if Ascii.eqb c sep then EmptyString :: split_on sep s'
      else match split_on sep s' with
           | piece :: pieces => String c piece :: pieces
           | [] => [String c EmptyString]
           end
  end.

(** What [authenticateToken] reads of a request: the [authorization]
    header and the [token] of the query string. *)
Record AuthRequest : Type := mkAuthRequest {
  authorization : option string;
  query_token : option string
}.

(** A document read with [.select("-password")]: every field of [User] but
    the hash. *)
Record Principal : Type := mkPrincipal {
  pr_id : ObjectId;
  pr_fullName : string;
  pr_email : string;
  pr_studentId : option string;
  pr_role : Role;
  pr_university : string;
  pr_college : string;
  pr_isEmailVerified : bool;
  pr_createdAt : option Z;
  pr_updatedAt : Z
}.

Definition select_without_password (u : User) : Principal :=
  {| pr_id := _id u; pr_fullName := fullName u; pr_email := email u;
     pr_studentId := studentId u; pr_role := role u;
     pr_university := university u; pr_college := college u;
     pr_isEmailVerified := isEmailVerified u;
     pr_createdAt := createdAt u; pr_updatedAt := updatedAt u |}.

(** The token of the request: the second piece of a header that starts with
    [Bearer ], otherwise the query's token if it is truthy, otherwise
    [null]. *)
Definition request_token (req : AuthRequest) : option string :=
  let authHeader := str (authorization req) in
  if Str.startsWith "Bearer " authHeader
  then List.nth_error (split_on " " authHeader) 1
  else if negb (falsy (query_token req)) then query_token req
  else None.

(** [authenticateToken(req, res, next)]: a response, or [next()] with
    [req.user] set.  [jwt_verify] stands for [jwt.verify(token, secret)]:
    the [id] of the payload, or the error it throws. *)
Definition authenticateToken (env : Env)
           (jwt_verify : string -> JsError + ObjectId) (req : AuthRequest)
  : M (Response + Principal) :=
  try_catch
    (let token := request_token req in
     if falsy token
     then ret (inl (failure 401 "Authentication token required" "NO_TOKEN"))
     else
       match jwt_verify (str token) with
       | inl _ =>
           ret (inl (failure 401 "Invalid or expired token" "INVALID_TOKEN"))
       | inr id =>
           found <- User_findById env id ;;
           match found with
           | None =>
               ret (inl (failure 401 "User not found" "USER_NOT_FOUND"))
           | Some user => ret (inr (select_without_password user))
           end
       end)
    (fun error =>
       console_error "[ERROR] authenticateToken:" (err_message error) ;;;
       ret (inl (failure 500 "Internal server error" "INTERNAL_SERVER_ERROR"))).

(** [authorizeRole(role)(req, res, next)]: a response, or [next()]. *)
Definition authorizeRole (role : string) (user : option Principal)
  : Response + unit :=
  match user with
  | None => inl (failure 401 "Not authenticated" "NOT_AUTHENTICATED")
  | Some user =>
      if negb (String.eqb (role_name (pr_role user)) role)
      then inl (failure 403 "Forbidden: insufficient role" "FORBIDDEN")
      else inr tt
  end.

(** ** GET /me *)

Definition me_user (u : User) : Json :=
  JObj [("id", JId (_id u));
        ("fullName", JStr (fullName u));
        ("email", JStr (email u));
        ("role", JStr (role_name (role u)));
        ("university", JStr (university u));
        ("college", JStr (college u));
        ("studentId", opt_str (studentId u));
        ("isEmailVerified", JBool (isEmailVerified u))].

(** The handler of the route, run once [authenticateToken] has set
    [req.user]. *)
Definition me_handler (env : Env) (user : Principal) : M Response :=
  try_catch
    (let userId := pr_id user in
     found <- User_findById env userId ;;
     match found with
     | None => ret (failure 404 "User not found" "USER_NOT_FOUND")
     | Some user =>
         ret (Reply 200
                (JObj [("message", JStr "User authenticated successfully");
                       ("code", JStr "AUTH_VERIFIED");
                       ("user", me_user user)]))
     end)
    (fun err =>
       console_error "[ERROR] Token verification failed:" (err_message err) ;;;
       ret (failure 401 "Invalid or expired token" "INVALID_TOKEN")).

(** [router.get("/me", authenticateToken, handler)] *)
Definition get_me (env : Env) (jwt_verify : string -> JsError + ObjectId)
           (req : AuthRequest) : M Response :=
  outcome <- authenticateToken env jwt_verify req ;;
  match outcome with
  | inl response => ret response
  | inr user => me_handler env user
  end.

(** ** The development server, [frontend/project/server/index.js] *)

Module DevServer.

(** An entry of the array [users]; a field the request did not carry is
    [undefined]. *)
Record Account : Type := mkAccount {
  acc_fullName : option string;
  acc_email : option string;
  acc_password : option string
}.

(** [a === b] for values that are strings or [undefined]. *)
Definition same (a b : option string) : bool :=
  match a, b with
  | Some x, Some y => String.eqb x y
  | None, None => true
  | _, _ => false
  end.

Definition say (status : nat) (message : string) : Response :=
  Reply status (JObj [("message", JStr message)]).

(** [app.post("/api/signup", ...)] *)
Definition signup (body : Account) (users : list Account)
  : Response * list Account :=
  let exists_ :=
    List.find (fun u => same (acc_email u) (acc_email body)) users in
  match exists_ with
  | Some _ => (say 400 "Email already exists", users)
  | None =>
      (say 200 "Account created successfully!",
       users ++ [{| acc_fullName := acc_fullName body;
                    acc_email := acc_email body;
                    acc_password := acc_password body |}])
  end.

(** [app.post("/api/signin", ...)] *)
Definition signin (email password : option string) (users : list Account)
  : Response * list Account :=
  let user :=
    List.find (fun u => same (acc_email u) email
                        && same (acc_password u) password) users in
  match user with
  | None => (say 400 "Invalid email or password", users)
  | Some _ => (say 200 "Login successful", users)
  end.

End DevServer.

(** ** The first version of the registration route *)

Module Legacy.

(** [/^(\d{7})@std\.sci\.cu\.edu\.eg$/i] *)
Definition studentEmailRegex : regex :=
  seq [Bol; Group 1 (Chars false [Range "0" "9"] (Exactly 7));
       Lit "@std.sci.cu.edu.eg"; Eol].

(** [/^[a-zA-Z0-9._-]+@sci\.cu\.edu\.eg$/i] *)
Definition instructorEmailRegex : regex :=
  seq [Bol;
       Chars false [Range "a" "z"; Range "A" "Z"; Range "0" "9";
                    One "."; One "_"; One "-"]%char OneOrMore;
       Lit "@sci.cu.edu.eg"; Eol].

(** The role detection of the first [POST /register]: the role and the
    student id read off [emailLower], or [None] where the route answers
    [INVALID_EMAIL_FORMAT]. *)
Definition detect_role (emailLower : string) : option (Role * option string) :=
  match match_ true studentEmailRegex emailLower with
  | Some studentMatch => Some (student, Some (group 1 studentMatch))
  | None =>
      if test true instructorEmailRegex emailLower
      then Some (instructor, None)
      else None
  end.

End Legacy.

(** ** Vocabulary of the further properties *)

(** The captures of a match, their texts in lower case. *)
Definition lower_captures (cs : captures) : captures :=
  List.map (fun it => (fst it, Str.toLowerCase (snd it))) cs.

(** The account a registration stores: the name with its title, trimmed,
    the address in lower case, the hash, what the resolver found, and the
    time of the insert. *)
Definition created (env : Env) (body : RegisterBody) (emailData : EmailData)
  : User :=
  let payload := registration_payload env body emailData in
  {| _id := newObjectId env;
     fullName := Str.trim (p_fullName payload);
     email := Str.toLowerCase (str (rb_email body));
     studentId := p_studentId payload;
     password := p_password payload;
     role := ed_role emailData;
     university := ed_university emailData;
     college := match ed_faculty emailData with
                | FacultyName s => s
                | ProtoMember key => str (castMember env key)
                end;
     isEmailVerified := false;
     createdAt := Some (now env);
     updatedAt := now env |}.

(** The schema accepts the registration: the store is reached, the name is
    not blank, the hash is not empty and the faculty is one of the
    directory. *)
Definition storable (env : Env) (body : RegisterBody) (emailData : EmailData)
  : Prop :=
  rejects env OpCreate = None
  /\ Str.trim (display_name (ed_role emailData) (str (rb_fullName body)))
     <> ""%string
  /\ hash env (str (rb_password body)) (salt env) <> ""%string
  /\ exists faculty, ed_faculty emailData = FacultyName faculty.

(** No stored account has the id, the address or the student id of the
    registration. *)
Definition vacant (env : Env) (body : RegisterBody) (emailData : EmailData)
           (w : World) : Prop :=
  List.existsb (by_id (newObjectId env)) (users w) = false
  /\ List.existsb (by_email (Str.toLowerCase (str (rb_email body)))) (users w)
     = false
  /\ match p_studentId (registration_payload env body emailData) with
     | Some s => List.existsb (by_studentId s) (users w) = false
     | None => True
     end.

(** The world after a registration stored [newUser]: with the verification
    message in the outbox, or with a warning on the console when the
    message could not be sent. *)
Definition registered (env : Env) (body : RegisterBody) (emailData : EmailData)
           (newUser : User) (w : World) : World :=
  match rejects env OpSendMail with
  | Some e =>
      with_line (with_users w (users w ++ [newUser]))
                "[WARNING] Failed to send verification email:"
                (err_message e)
  | None =>
      {| users := users w ++ [newUser]; console := console w;
         outbox := outbox w ++ [verification_mail body emailData newUser] |}
  end.

(** The answer of a successful login. *)
Definition login_success (token : string) (u : User) : Response :=
  Reply 200
    (JObj [("message", JStr "Login successful");
           ("token", JStr token);
           ("user", session_user u)]).

(** The answer of [GET /me]. *)
Definition me_reply (u : User) : Response :=
  Reply 200
    (JObj [("message", JStr "User authenticated successfully");
           ("code", JStr "AUTH_VERIFIED");
           ("user", me_user u)]).

(** The student ids of a collection, in order. *)
Fixpoint student_ids (us : list User) : list string :=
  match us with
  | [] => []
  | u :: us' =>
      match studentId u with
      | Some s => s :: student_ids us'
      | None => student_ids us'
      end
  end.

(** The keys of the collection: ids, addresses and student ids occur once,
    and addresses are in lower case. *)
Definition store_ok (us : list User) : Prop :=
  NoDup (List.map _id us)
  /\ NoDup (List.map email us)
  /\ NoDup (student_ids us)
  /\ Forall (fun u => Str.toLowerCase (email u) = email u) us.

(** The login request with the credentials of a registration. *)
Definition login_of (body : RegisterBody) : LoginBody :=
  {| lb_email := rb_email body; lb_password := rb_password body |}.

(** The answer of [POST /verify-email] to a failure of the store. *)
Definition verify_500 : Response :=
  failure 500 "An unexpected error occurred during email verification"
          "INTERNAL_SERVER_ERROR".

(** A token as it travels in a header: not empty and without a space. *)
Definition header_safe (token : string) : Prop :=
  token <> ""%string
  /\ Str.forallb (fun c => negb (Ascii.eqb c " ")) token = true.

(** The array [users] of the development server after the signup requests
    [bodies], served in order from the array [users]; the server starts
    with the empty array. *)
Definition signups (bodies users : list DevServer.Account)
  : list DevServer.Account :=
  List.fold_left (fun us body => snd (DevServer.signup body us)) bodies users.

(** The test of [users.find] in the signup route. *)
Definition has_email (e : option string) (u : DevServer.Account) : bool :=
  DevServer.same (DevServer.acc_email u) e.

(* ================================================================== *)
(** * Facts about strings and characters *)

Module StrFacts.

Lemma length_app (a b : string) :
  String.length (a ++ b) = String.length a + String.length b.
Proof. induction a as [|c a IH]; simpl; [reflexivity | now rewrite IH]. Qed.

Lemma app_nil_r (a : string) : (a ++ "")%string = a.
Proof. induction a as [|c a IH]; simpl; [reflexivity | now rewrite IH]. Qed.

Lemma app_assoc (a b c : string) : ((a ++ b) ++ c = a ++ (b ++ c))%string.
Proof. induction a as [|x a IH]; simpl; [reflexivity | now rewrite IH]. Qed.

Lemma substring_all (a : string) : substring 0 (String.length a) a = a.
Proof. induction a as [|c a IH]; simpl; [reflexivity | now rewrite IH]. Qed.

Lemma substring_head (pre rest : string) :
  substring 0 (String.length pre) (pre ++ rest) = pre.
Proof.
  induction pre as [|c pre IH]; simpl.
  - destruct rest; reflexivity.
  - now rewrite IH.
Qed.

(** The text a group captures: what was consumed between [pre ++ rest]
    and [rest]. *)
Lemma consumed (pre rest : string) :
  substring 0 (String.length (pre ++ rest) - String.length rest)
            (pre ++ rest) = pre.
Proof.
  rewrite length_app.
  replace (String.length pre + String.length rest - String.length rest)
    with (String.length pre) by lia.
  apply substring_head.
Qed.

Lemma forallb_app (p : ascii -> bool) (a b : string) :
  Str.forallb p (a ++ b) = Str.forallb p a && Str.forallb p b.
Proof.
  induction a as [|c a IH]; simpl; [reflexivity|].
  now rewrite IH, andb_assoc.
Qed.

Lemma forallb_impl (p q : ascii -> bool) (s : string) :
  (forall c, p c = true -> q c = true) ->
  Str.forallb p s = true -> Str.forallb q s = true.
Proof.
  intros Hpq. induction s as [|c s IH]; simpl; [reflexivity|].
  intros H. apply andb_prop in H as [Hc Hs].
  now rewrite (Hpq _ Hc), IH.
Qed.

Lemma toLowerCase_length (s : string) :
  String.length (Str.toLowerCase s) = String.length s.
Proof. induction s as [|c s IH]; simpl; [reflexivity | now rewrite IH]. Qed.

Lemma toLowerCase_app (a b : string) :
  Str.toLowerCase (a ++ b)
  = (Str.toLowerCase a ++ Str.toLowerCase b)%string.
Proof. induction a as [|c a IH]; simpl; [reflexivity | now rewrite IH]. Qed.

(** *** Every character is one of 256 *)

Lemma in_all_ascii (c : ascii) : In c all_ascii.
Proof.
  unfold all_ascii. rewrite <- (ascii_nat_embedding c).
  apply in_map, in_seq. pose proof (nat_ascii_bounded c). lia.
Qed.

Lemma for_all_ascii (P : ascii -> bool) :
  List.forallb P all_ascii = true -> forall c, P c = true.
Proof.
  intros H c. rewrite forallb_forall in H. apply H, in_all_ascii.
Qed.

Lemma for_all_ascii2 (P : ascii -> ascii -> bool) :
  List.forallb (fun a => List.forallb (P a) all_ascii) all_ascii = true ->
  forall a b, P a b = true.
Proof.
  intros H a b.
  apply (for_all_ascii (P a)), (for_all_ascii _ H).
Qed.

Lemma lowerChar_idem (c : ascii) :
  Str.lowerChar (Str.lowerChar c) = Str.lowerChar c.
Proof.
  apply Ascii.eqb_eq. revert c. apply for_all_ascii. vm_compute. reflexivity.
Qed.

Lemma toLowerCase_idem (s : string) :
  Str.toLowerCase (Str.toLowerCase s) = Str.toLowerCase s.
Proof.
  induction s as [|c s IH]; simpl; [reflexivity|].
  now rewrite lowerChar_idem, IH.
Qed.

End StrFacts.

(** * Facts about the matcher *)

Module RegExpFacts.
Import StrFacts.

Lemma char_eq_lower (a b : ascii) :
  char_eq true a b = Ascii.eqb (Str.lowerChar a) (Str.lowerChar b).
Proof.
  apply eqb_prop. revert a b. apply for_all_ascii2.
  vm_compute. reflexivity.
Qed.

Lemma lit_eq_lower (l t : string) :
  lit_eq true l t = true <-> Str.toLowerCase l = Str.toLowerCase t.
Proof.
  revert t. induction l as [|a l IH]; intros [|b t];
    cbn [lit_eq Str.toLowerCase];
    try (split; [discriminate | discriminate]); [tauto|].
  rewrite char_eq_lower, andb_true_iff, Ascii.eqb_eq, IH.
  split; [intros [-> ->]; reflexivity | intros H; now inversion H].
Qed.

Lemma lit_eq_length (ic : bool) (l t : string) :
  lit_eq ic l t = true -> String.length t = String.length l.
Proof.
  revert t. induction l as [|a l IH]; intros [|b t]; simpl;
    try discriminate; [reflexivity|].
  intros H. apply andb_prop in H as [_ H]. now rewrite (IH _ H).
Qed.

Lemma strip_complete (ic : bool) (l pre rest : string) :
  lit_eq ic l pre = true -> strip ic l (pre ++ rest) = Some rest.
Proof.
  revert pre. induction l as [|a l IH]; intros [|b pre]; simpl;
    try discriminate; [reflexivity|].
  intros H. apply andb_prop in H as [Hc H]. rewrite Hc. now apply IH.
Qed.

Lemma strip_sound (ic : bool) (l s rest : string) :
  strip ic l s = Some rest ->
  exists pre, s = (pre ++ rest)%string /\ lit_eq ic l pre = true.
Proof.
  revert s. induction l as [|a l IH]; intros s; simpl.
  - intros [= ->]. exists ""%string. split; reflexivity.
  - destruct s as [|b s]; [discriminate|].
    destruct (char_eq ic a b) eqn:Hc; [|discriminate].
    intros H. destruct (IH _ H) as (pre & -> & Hpre).
    exists (String b pre). simpl. rewrite Hc. now split.
Qed.

Section Runs.
Variable A : Type.
Variable p : ascii -> bool.
Variable k : string -> option A.

Lemma plus_sound (s : string) (r : A) :
  plus p s k = Some r ->
  exists pre rest,
    s = (pre ++ rest)%string /\ pre <> ""%string
    /\ Str.forallb p pre = true /\ k rest = Some r.
Proof.
  induction s as [|c s IH]; simpl; [discriminate|].
  destruct (p c) eqn:Hc; [|discriminate].
  destruct (plus p s k) as [r'|] eqn:Hs.
  - intros [= ->]. destruct (IH eq_refl) as (pre & rest & -> & _ & Hp & Hk).
    exists (String c pre), rest. simpl. rewrite Hc, Hp.
    repeat split; [discriminate | assumption].
  - intros Hk. exists (String c ""), s. simpl. rewrite Hc.
    repeat split; [discriminate | assumption].
Qed.

(** When the continuation refuses whatever starts with a character of
    the class, backtracking into the run never helps: the run is the
    longest one. *)
Hypothesis k_refuses : forall c t, p c = true -> k (String c t) = None.

Lemma plus_none (rest : string) : stops p rest -> plus p rest k = None.
Proof.
  destruct rest as [|c t]; simpl; [reflexivity|]. now intros ->.
Qed.

Lemma plus_complete (pre rest : string) :
  pre <> ""%string -> Str.forallb p pre = true -> stops p rest ->
  plus p (pre ++ rest) k = k rest.
Proof.
  intros Hne Hp Hstop. induction pre as [|c pre IH]; [congruence|].
  simpl in Hp |- *. apply andb_prop in Hp as [Hc Hp]. rewrite Hc.
  destruct pre as [|c' pre'].
  - simpl. now rewrite (plus_none _ Hstop).
  - rewrite IH by (discriminate || assumption).
    destruct (k rest) eqn:Hk; [reflexivity|].
    simpl in Hp. apply andb_prop in Hp as [Hc' _].
    simpl. now rewrite k_refuses.
Qed.
End Runs.

(** [p{n}] followed by the end of the subject. *)
Lemma exactly_end (A : Type) (p : ascii -> bool) (x : A) (n : nat) (s : string) :
  exactly p n s (fun s' => match s' with
                           | EmptyString => Some x
                           | String _ _ => None
                           end)
  = if (String.length s =? n) && Str.forallb p s then Some x else None.
Proof.
  revert s. induction n as [|n IH]; intros [|c s]; simpl; try reflexivity.
  rewrite IH. destruct (p c); simpl; [reflexivity|].
  now rewrite andb_false_r.
Qed.

(** A pattern that starts with [^] matches at the first position or not
    at all. *)
Lemma exec_at_bol_later (ic : bool) (r : regex) (input s : string) :
  String.length s <> String.length input ->
  exec_at ic (Cat Bol r) input s = None.
Proof.
  intros Hne. unfold exec_at. cbn [exec].
  now rewrite (proj2 (Nat.eqb_neq _ _) Hne).
Qed.

Lemma search_bol (ic : bool) (r : regex) (input s : string) :
  String.length s < String.length input ->
  search ic (Cat Bol r) input s = None.
Proof.
  induction s as [|c s IH]; intros Hlt; cbn [search];
    rewrite exec_at_bol_later by lia; [reflexivity|].
  apply IH. cbn [String.length] in Hlt. lia.
Qed.

Lemma match_bol (ic : bool) (r : regex) (s : string) :
  match_ ic (Cat Bol r) s = exec ic s r s [] (fun _ cs => Some cs).
Proof.
  unfold match_.
  assert (Hat : exec_at ic (Cat Bol r) s s
                = exec ic s r s [] (fun _ cs => Some cs)).
  { unfold exec_at. cbn [exec]. now rewrite Nat.eqb_refl. }
  destruct s as [|c s]; cbn [search]; rewrite Hat;
    destruct (exec ic _ r _ [] _); try reflexivity.
  apply search_bol. cbn [String.length]. lia.
Qed.

(** A one-character pattern without anchors: [test] looks for a
    character of the class anywhere in the subject. *)
Lemma test_chars (cls : list citem) (s : string) :
  test false (Chars false cls Once) s = Str.existsb (class_has cls) s.
Proof.
  unfold test, match_. generalize s at 1. intros input.
  induction s as [|c s IH]; simpl; [reflexivity|].
  unfold exec_at. simpl. unfold accepts.
  destruct (class_has cls c); simpl; [reflexivity | exact IH].
Qed.

Lemma forallb_ext (p q : ascii -> bool) (s : string) :
  (forall c, p c = q c) -> Str.forallb p s = Str.forallb q s.
Proof.
  intros H. induction s as [|c s IH]; simpl; [reflexivity|].
  now rewrite H, IH.
Qed.

Lemma accepts_digit (c : ascii) :
  accepts false false [Range "0" "9"] c = Str.isDigit c.
Proof. unfold accepts, class_has. simpl. apply orb_false_r. Qed.

(** [/^\d{n}$/]: exactly [n] characters, all of them digits. *)
Lemma test_digits (n : nat) (s : string) :
  test false (re_digits n) s
  = (String.length s =? n) && Str.forallb Str.isDigit s.
Proof.
  unfold test, re_digits. cbn [seq]. rewrite match_bol. cbn [exec].
  rewrite exactly_end, (forallb_ext _ _ s accepts_digit).
  now destruct ((String.length s =? n) && Str.forallb Str.isDigit s).
Qed.

End RegExpFacts.

Module EmailFacts.
Import StrFacts RegExpFacts.

Lemma accepts_local (c : ascii) :
  accepts true false email_local_class c = local_char c.
Proof.
  apply eqb_prop. revert c. apply for_all_ascii. vm_compute. reflexivity.
Qed.

Lemma accepts_not_dot (c : ascii) :
  accepts true true [One "."%char] c = not_dot c.
Proof.
  apply eqb_prop. revert c. apply for_all_ascii. vm_compute. reflexivity.
Qed.

Lemma char_eq_at (c : ascii) : char_eq true "@" c = Ascii.eqb c "@".
Proof.
  apply eqb_prop. revert c. apply for_all_ascii. vm_compute. reflexivity.
Qed.

Lemma char_eq_dot (c : ascii) : char_eq true "." c = Ascii.eqb c ".".
Proof.
  apply eqb_prop. revert c. apply for_all_ascii. vm_compute. reflexivity.
Qed.

Lemma local_char_not_at (c : ascii) :
  local_char c = true -> Ascii.eqb c "@" = false.
Proof.
  intros H. destruct (Ascii.eqb_spec c "@") as [->|]; [|reflexivity].
  discriminate H.
Qed.

Lemma lit_dot (t : string) : lit_eq true "." t = true -> t = "."%string.
Proof.
  destruct t as [|c [|d t]]; cbn [lit_eq]; try discriminate.
  - rewrite char_eq_dot, andb_true_r. now intros ->%Ascii.eqb_eq.
  - now rewrite andb_false_r.
Qed.

Lemma lit_at (t : string) : lit_eq true "@" t = true -> t = "@"%string.
Proof.
  destruct t as [|c [|d t]]; cbn [lit_eq]; try discriminate.
  - rewrite char_eq_at, andb_true_r. now intros ->%Ascii.eqb_eq.
  - now rewrite andb_false_r.
Qed.

Lemma lit_std (t : string) :
  lit_eq true "std" t = true <-> Str.toLowerCase t = "std"%string.
Proof.
  rewrite lit_eq_lower. change (Str.toLowerCase "std") with "std"%string.
  split; intros H; now symmetry.
Qed.

Lemma lit_domain (t : string) :
  lit_eq true "cu.edu.eg" t = true <-> Str.toLowerCase t = "cu.edu.eg"%string.
Proof.
  rewrite lit_eq_lower.
  change (Str.toLowerCase "cu.edu.eg") with "cu.edu.eg"%string.
  split; intros H; now symmetry.
Qed.

Lemma strip_dot (s : string) : strip true "." (String "." s) = Some s.
Proof. reflexivity. Qed.

Lemma strip_all (ic : bool) (l t : string) :
  lit_eq ic l t = true -> strip ic l t = Some ""%string.
Proof.
  intros H. rewrite <- (app_nil_r t) at 1. now apply strip_complete.
Qed.

Lemma strip_at (s : string) : strip true "@" ("@" ++ s) = Some s.
Proof. reflexivity. Qed.

Lemma tail_sound (input s : string) (cs m : captures) :
  exec true input re_tail s cs k0 = Some m ->
  exists sub dom,
    s = (sub ++ "." ++ dom)%string /\ sub <> ""%string
    /\ Str.forallb not_dot sub = true
    /\ Str.toLowerCase dom = "cu.edu.eg"%string
    /\ m = (4, dom) :: (3, sub) :: cs.
Proof.
  unfold re_tail. cbn [seq exec]. intros H.
  apply plus_sound in H as (sub & rest & -> & Hne & Hsub & H).
  rewrite consumed in H.
  destruct (strip true "." rest) as [s1|] eqn:H1; [|discriminate].
  apply strip_sound in H1 as (dot & -> & ->%lit_dot).
  destruct (strip true "cu.edu.eg" s1) as [s2|] eqn:H2; [|discriminate].
  apply strip_sound in H2 as (dom & -> & Hdom%lit_domain).
  destruct s2; [|discriminate].
  rewrite app_nil_r, Nat.sub_0_r, substring_all in H.
  injection H as <-. exists sub, dom.
  rewrite app_nil_r.
  rewrite (forallb_ext _ _ sub accepts_not_dot) in Hsub. now repeat split.
Qed.

Lemma tail_complete (input sub dom : string) (cs : captures) :
  sub <> ""%string -> Str.forallb not_dot sub = true ->
  Str.toLowerCase dom = "cu.edu.eg"%string ->
  exec true input re_tail (sub ++ "." ++ dom) cs k0
  = Some ((4, dom) :: (3, sub) :: cs).
Proof.
  intros Hne Hsub Hdom. unfold re_tail. cbn [seq exec].
  rewrite plus_complete.
  - rewrite consumed. cbn [append]. rewrite strip_dot.
    rewrite strip_all by now apply lit_domain.
    cbn [String.length]. now rewrite Nat.sub_0_r, substring_all.
  - intros c t Hc. cbn [strip]. rewrite char_eq_dot.
    rewrite accepts_not_dot in Hc. unfold not_dot in Hc.
    now destruct (Ascii.eqb c ".").
  - exact Hne.
  - now rewrite (forallb_ext _ _ sub accepts_not_dot).
  - reflexivity.
Qed.

Lemma get_forallb (p : ascii -> bool) (s : string) (n : nat) :
  Str.forallb p s = true -> n < String.length s ->
  exists c, String.get n s = Some c /\ p c = true.
Proof.
  revert n. induction s as [|c s IH]; intros n Hp Hn; simpl in *; [lia|].
  apply andb_prop in Hp as [Hc Hs]. destruct n as [|n].
  - now exists c.
  - apply IH; [assumption | lia].
Qed.

(** Without a marker in the subject, the marker branch of the pattern
    fails: its fourth character would be a dot inside [sub]. *)
Lemma marker_fails (input sub dom : string) (cs : captures) :
  Str.forallb not_dot sub = true ->
  Str.toLowerCase dom = "cu.edu.eg"%string ->
  exec true input re_marker (sub ++ "." ++ dom) cs
       (fun s1 cs1 => exec true input re_tail s1 cs1 k0) = None.
Proof.
  intros Hsub Hdom.
  destruct (exec true input re_marker _ cs _) as [m|] eqn:H; [|reflexivity].
  exfalso. unfold re_marker in H. cbn [exec] in H.
  destruct (strip true "std" _) as [s1|] eqn:H1; [|discriminate].
  apply strip_sound in H1 as (t & Heq & Ht).
  destruct (strip true "." s1) as [s2|] eqn:H2; [|discriminate].
  apply strip_sound in H2 as (dot & -> & ->%lit_dot).
  apply tail_sound in H as (sub' & dom' & -> & Hne' & _ & Hdom' & _).
  apply lit_eq_length in Ht. cbn [String.length] in Ht.
  assert (Hlen : String.length sub = String.length sub' + 4).
  { apply (f_equal String.length) in Heq.
    rewrite !length_app in Heq. cbn [String.length] in Heq.
    apply (f_equal String.length) in Hdom, Hdom'.
    rewrite toLowerCase_length in Hdom, Hdom'.
    cbn [String.length] in Hdom, Hdom'. lia. }
  destruct (get_forallb not_dot sub 3 Hsub) as (c & Hget & Hc); [lia|].
  rewrite (append_correct1 sub ("." ++ dom) 3) in Hget by lia.
  rewrite Heq in Hget.
  change 3 with (0 + 3) in Hget. rewrite <- Ht in Hget.
  rewrite <- append_correct2 in Hget. simpl in Hget.
  injection Hget as <-. discriminate Hc.
Qed.

Lemma marker_complete (input t rest : string) (cs : captures)
      (K : string -> captures -> option captures) :
  Str.toLowerCase t = "std"%string ->
  exec true input re_marker (t ++ "." ++ rest) cs K = K rest ((2, t) :: cs).
Proof.
  intros Ht. unfold re_marker. cbn [exec].
  rewrite strip_complete by now apply lit_std.
  now rewrite consumed.
Qed.

Lemma marker_sound (input s : string) (cs m : captures)
      (K : string -> captures -> option captures) :
  exec true input re_marker s cs K = Some m ->
  exists t rest, s = (t ++ "." ++ rest)%string
                 /\ Str.toLowerCase t = "std"%string
                 /\ K rest ((2, t) :: cs) = Some m.
Proof.
  unfold re_marker. cbn [exec]. intros H.
  destruct (strip true "std" s) as [s1|] eqn:H1; [|discriminate].
  apply strip_sound in H1 as (t & -> & Ht%lit_std).
  destruct (strip true "." s1) as [s2|] eqn:H2; [|discriminate].
  apply strip_sound in H2 as (dot & -> & ->%lit_dot).
  rewrite consumed in H. now exists t, s2.
Qed.

Lemma re_email_eq :
  re_email
  = Cat Bol (Cat (Group 1 (Chars false email_local_class OneOrMore))
                 (Cat (Lit "@") re_rest)).
Proof. reflexivity. Qed.

Lemma rest_complete (input : string) (marker : option string)
      (sub dom : string) (cs : captures) :
  match marker with
  | Some t => Str.toLowerCase t = "std"%string
  | None => True
  end ->
  sub <> ""%string -> Str.forallb not_dot sub = true ->
  Str.toLowerCase dom = "cu.edu.eg"%string ->
  exec true input re_rest (marker_text marker ++ sub ++ "." ++ dom) cs k0
  = Some ((4, dom) :: (3, sub) :: marker_groups marker ++ cs).
Proof.
  intros Hm Hne Hsub Hdom. unfold re_rest. cbn [exec].
  destruct marker as [t|]; cbn [marker_text marker_groups].
  - rewrite app_assoc, marker_complete by assumption.
    now rewrite tail_complete.
  - change ("" ++ sub ++ "." ++ dom)%string with (sub ++ "." ++ dom)%string.
    rewrite marker_fails by assumption.
    now rewrite tail_complete.
Qed.

Lemma rest_sound (input s : string) (cs m : captures) :
  exec true input re_rest s cs k0 = Some m ->
  exists marker sub dom,
    s = (marker_text marker ++ sub ++ "." ++ dom)%string
    /\ match marker with
       | Some t => Str.toLowerCase t = "std"%string
       | None => True
       end
    /\ sub <> ""%string /\ Str.forallb not_dot sub = true
    /\ Str.toLowerCase dom = "cu.edu.eg"%string
    /\ m = (4, dom) :: (3, sub) :: marker_groups marker ++ cs.
Proof.
  unfold re_rest. cbn [exec]. intros H.
  destruct (exec true input re_marker s cs _) as [m'|] eqn:Hm.
  - injection H as ->.
    apply marker_sound in Hm as (t & rest & -> & Ht & Hm).
    apply tail_sound in Hm as (sub & dom & -> & Hne & Hsub & Hdom & ->).
    exists (Some t), sub, dom. cbn [marker_text marker_groups].
    rewrite app_assoc. now repeat split.
  - apply tail_sound in H as (sub & dom & -> & Hne & Hsub & Hdom & ->).
    exists None, sub, dom. now repeat split.
Qed.

(** ** The e-mail pattern, characterised *)

Theorem email_match_complete (email local : string) (marker : option string)
        (sub dom : string) :
  shaped email local marker sub dom ->
  match_ true re_email email = Some (groups local marker sub dom).
Proof.
  intros (-> & Hne & Hlocal & Hm & Hsne & Hsub & Hdom).
  rewrite re_email_eq, match_bol. cbn [exec].
  rewrite plus_complete.
  - rewrite consumed, strip_at. now rewrite rest_complete.
  - intros c t Hc. cbn [strip]. rewrite char_eq_at.
    rewrite accepts_local in Hc. now rewrite (local_char_not_at _ Hc).
  - exact Hne.
  - now rewrite (forallb_ext _ _ local accepts_local).
  - reflexivity.
Qed.

Theorem email_match_sound (email : string) (m : captures) :
  match_ true re_email email = Some m ->
  exists local marker sub dom,
    shaped email local marker sub dom /\ m = groups local marker sub dom.
Proof.
  rewrite re_email_eq, match_bol. cbn [exec]. intros H.
  apply plus_sound in H as (local & rest & -> & Hne & Hlocal & H).
  rewrite consumed in H.
  destruct (strip true "@" rest) as [s1|] eqn:H1; [|discriminate].
  apply strip_sound in H1 as (at_ & -> & ->%lit_at).
  apply rest_sound in H
    as (marker & sub & dom & -> & Hm & Hsne & Hsub & Hdom & ->).
  exists local, marker, sub, dom.
  rewrite (forallb_ext _ _ local accepts_local) in Hlocal.
  split; [now repeat split | reflexivity].
Qed.

End EmailFacts.

Module ResolverFacts.
Import StrFacts RegExpFacts EmailFacts.

Lemma groups_1 local marker sub dom :
  group 1 (groups local marker sub dom) = local.
Proof. now destruct marker. Qed.

Lemma groups_3 local marker sub dom :
  group 3 (groups local marker sub dom) = sub.
Proof. reflexivity. Qed.

Lemma groups_4 local marker sub dom :
  group 4 (groups local marker sub dom) = dom.
Proof. reflexivity. Qed.

Lemma groups_2 local marker sub dom :
  match marker with
  | Some t => Str.toLowerCase t = "std"%string
  | None => True
  end ->
  has_group 2 (groups local marker sub dom)
  = match marker with Some _ => true | None => false end.
Proof.
  destruct marker as [t|]; [|reflexivity].
  intros Ht. unfold has_group, groups. cbn.
  destruct t; [discriminate Ht | reflexivity].
Qed.

Theorem extract_shaped (email local : string) (marker : option string)
        (sub dom : string) :
  shaped email local marker sub dom ->
  extractUserDataFromEmail email
  = match Obj.get (subdomains cairo_university) (Str.toLowerCase sub) with
    | Obj.Undefined =>
        inl (Error_ (msg_unrecognized_faculty (Str.toLowerCase sub)
                                              "Cairo University"))
    | Obj.Own f => resolve_role local marker (FacultyName f)
    | Obj.Inherited key => resolve_role local marker (ProtoMember key)
    end.
Proof.
  intros Hs. unfold extractUserDataFromEmail.
  rewrite (email_match_complete _ _ _ _ _ Hs).
  destruct Hs as (_ & _ & _ & Hm & _ & _ & Hdom).
  rewrite groups_1, groups_3, groups_4, (groups_2 _ _ _ _ Hm), Hdom.
  change (Obj.get Universities "cu.edu.eg") with (Obj.Own cairo_university).
  cbv beta iota. rewrite !test_digits.
  change (name cairo_university) with "Cairo University"%string.
  destruct (Obj.get (subdomains cairo_university) (Str.toLowerCase sub));
    destruct marker; reflexivity.
Qed.

Lemma substring_tail (x t : string) :
  substring (String.length (x ++ t) - String.length t) (String.length t)
            (x ++ t) = t.
Proof.
  rewrite length_app.
  replace (String.length x + String.length t - String.length t)
    with (String.length x) by lia.
  induction x as [|c x IH]; simpl; [apply substring_all | exact IH].
Qed.

Lemma shaped_cairo_address (email local : string) (marker : option string)
      (sub dom : string) :
  shaped email local marker sub dom -> cairo_address email = true.
Proof.
  intros (-> & _ & _ & _ & _ & _ & Hdom). unfold cairo_address.
  assert (Hlen : String.length ("." ++ dom) = 10).
  { cbn [append String.length].
    now rewrite <- (toLowerCase_length dom), Hdom. }
  replace (local ++ "@" ++ marker_text marker ++ sub ++ "." ++ dom)%string
    with ((local ++ "@" ++ marker_text marker ++ sub) ++ ("." ++ dom))%string
    by now rewrite !app_assoc.
  rewrite <- Hlen at 1 2. rewrite substring_tail.
  change (lit_eq true ".cu.edu.eg" ("." ++ dom))
    with (char_eq true "." "." && lit_eq true "cu.edu.eg" dom).
  now rewrite (proj2 (lit_domain dom) Hdom).
Qed.

Theorem extract_unshaped (email : string) :
  (forall local marker sub dom, ~ shaped email local marker sub dom) ->
  extractUserDataFromEmail email = inl (Error_ msg_invalid_format).
Proof.
  intros Hno. unfold extractUserDataFromEmail.
  destruct (match_ true re_email email) as [m|] eqn:Hm; [|reflexivity].
  apply email_match_sound in Hm as (local & marker & sub & dom & Hs & _).
  now destruct (Hno _ _ _ _ Hs).
Qed.

(** Every key of the directory's faculty table is a non-empty token
    without a dot. *)
Lemma own_in {V : Type} (o : Obj.t V) (key : string) (v : V) :
  Obj.own o key = Some v -> In key (List.map fst o).
Proof.
  induction o as [|[k x] o IH]; simpl; [discriminate|].
  destruct (String.eqb_spec k key) as [->|_]; [now left | right; auto].
Qed.

Lemma not_dot_lower (s : string) :
  Str.forallb not_dot (Str.toLowerCase s) = Str.forallb not_dot s.
Proof.
  induction s as [|c s IH]; simpl; [reflexivity|]. rewrite IH. f_equal.
  apply eqb_prop. revert c. apply for_all_ascii. vm_compute. reflexivity.
Qed.

Lemma listed_token (sub faculty : string) :
  Obj.own (subdomains cairo_university) (Str.toLowerCase sub) = Some faculty ->
  sub <> ""%string /\ Str.forallb not_dot sub = true.
Proof.
  intros H. apply own_in in H.
  assert (Hall : List.forallb
                   (fun k => Str.truthy k && Str.forallb not_dot k)
                   (List.map fst (subdomains cairo_university)) = true)
    by (vm_compute; reflexivity).
  rewrite forallb_forall in Hall. apply Hall, andb_prop in H as [Ht Hd].
  rewrite not_dot_lower in Hd. split; [|assumption].
  intros ->. discriminate Ht.
Qed.

Lemma digits_local (s : string) :
  Str.forallb Str.isDigit s = true -> Str.forallb local_char s = true.
Proof.
  assert (G : forall c, implb (Str.isDigit c) (local_char c) = true)
    by (apply for_all_ascii; vm_compute; reflexivity).
  apply forallb_impl. intros c H. specialize (G c).
  now rewrite H in G.
Qed.

(** The four messages of the resolver start with different letters. *)
Lemma messages_distinct (d s u : string) :
  msg_invalid_format <> msg_unsupported_university d
  /\ msg_invalid_format <> msg_unrecognized_faculty s u
  /\ msg_unsupported_university d <> msg_unrecognized_faculty s u
  /\ msg_student_prefix <> msg_invalid_format
  /\ msg_student_prefix <> msg_unsupported_university d
  /\ msg_student_prefix <> msg_unrecognized_faculty s u.
Proof. repeat split; discriminate. Qed.

End ResolverFacts.

Module LoginFacts.

Ltac run :=
  unfold try_catch, bind, ret, throw, call, get_users, put_users,
    console_error; cbn beta iota.

Section Login.
Variables (env : Env) (body : LoginBody) (w : World).
Hypothesis has_email : falsy (lb_email body) = false.
Hypothesis has_password : falsy (lb_password body) = false.
Hypothesis lookup_answers : rejects env OpFindOne = None.

Let emailLower := Str.toLowerCase (str (lb_email body)).
Let found := List.find (by_email emailLower) (users w).

Lemma login_no_account :
  found = None -> post_login env body w = (inr invalid_credentials, w).
Proof.
  subst found emailLower. intros Hnone. unfold post_login, User_findOne. run.
  rewrite has_email, has_password, lookup_answers. cbn.
  now rewrite Hnone.
Qed.

Lemma login_unverified (u : User) :
  found = Some u -> isEmailVerified u = false ->
  post_login env body w = (inr email_not_verified, w).
Proof.
  subst found emailLower. intros Hu Hv. unfold post_login, User_findOne. run.
  rewrite has_email, has_password, lookup_answers. cbn.
  now rewrite Hu, Hv.
Qed.

Lemma login_wrong_password (u : User) :
  found = Some u -> isEmailVerified u = true ->
  rejects env OpCompare = None ->
  compare env (str (lb_password body)) (password u) = false ->
  post_login env body w = (inr invalid_credentials, w).
Proof.
  subst found emailLower. intros Hu Hv Hc Hm.
  unfold post_login, User_findOne, bcrypt_compare. run.
  rewrite has_email, has_password, lookup_answers. cbn.
  rewrite Hu, Hv, Hc. cbn. now rewrite Hm.
Qed.
End Login.

Lemma login_users (env : Env) (body : LoginBody) (w : World) :
  users (snd (post_login env body w)) = users w
  /\ outbox (snd (post_login env body w)) = outbox w.
Proof.
  unfold post_login, User_findOne, bcrypt_compare, jwt_sign. run.
  destruct (falsy (lb_email body) || falsy (lb_password body));
    [now split|].
  destruct (rejects env OpFindOne); [now split|].
  destruct (List.find _ (users w)) as [u|]; [|now split].
  destruct (isEmailVerified u); [|now split]. cbn.
  destruct (rejects env OpCompare); [now split|].
  destruct (compare env _ _); [|now split]. cbn.
  destruct (rejects env OpSign); now split.
Qed.

End LoginFacts.

Module VerifyFacts.
Import LoginFacts.

Lemma oid_eqb_eq (a b : ObjectId) : oid_eqb a b = true <-> a = b.
Proof.
  destruct a as [sa ua], b as [sb ub]. unfold oid_eqb. simpl.
  rewrite andb_true_iff, Z.eqb_eq, Nat.eqb_eq.
  split; [intros [-> ->]; reflexivity | intros [= -> ->]; now split].
Qed.

Lemma oid_eqb_refl (a : ObjectId) : oid_eqb a a = true.
Proof. now apply oid_eqb_eq. Qed.

Lemma find_by_id (uid : ObjectId) (us : list User) (u : User) :
  List.find (by_id uid) us = Some u -> _id u = uid /\ In u us.
Proof.
  intros H. apply find_some in H as [Hin Hid].
  split; [now apply oid_eqb_eq | assumption].
Qed.

Lemma find_existsb (A : Type) (p : A -> bool) (l : list A) (a : A) :
  List.find p l = Some a -> List.existsb p l = true.
Proof.
  intros H. apply find_some in H as [Hin Hp].
  apply existsb_exists. now exists a.
Qed.

(** After [deleteOne({ _id })] no document has that id. *)
Lemma find_deleted (uid : ObjectId) (us : list User) :
  List.find (by_id uid) (without uid us) = None.
Proof.
  unfold without. induction us as [|x us IH]; simpl; [reflexivity|].
  destruct (by_id uid x) eqn:Hx; simpl; [assumption|].
  now rewrite Hx.
Qed.

(** After [save] the stored document is the saved one. *)
Lemma find_saved (v : User) (us : list User) :
  List.existsb (by_id (_id v)) us = true ->
  List.find (by_id (_id v)) (saved v us) = Some v.
Proof.
  unfold saved. induction us as [|x us IH]; simpl; [discriminate|].
  destruct (by_id (_id v) x) eqn:Hx; simpl.
  - intros _. unfold by_id at 1. now rewrite oid_eqb_refl.
  - intros H. now rewrite Hx, IH.
Qed.

Lemma post_verify_unknown (env : Env) (uid : ObjectId) (w : World) :
  rejects env OpFindById = None ->
  List.find (by_id uid) (users w) = None ->
  post_verify_email env (Some uid) w = (inr invalid_uid, w).
Proof.
  intros Hr Hf. unfold post_verify_email, User_findById. run.
  rewrite Hr. cbn. now rewrite Hf.
Qed.

Section Verify.
Variables (env : Env) (uid : ObjectId) (w : World) (u : User).
Hypothesis lookup_answers : rejects env OpFindById = None.
Hypothesis found : List.find (by_id uid) (users w) = Some u.

Lemma post_verify_already :
  isEmailVerified u = true ->
  post_verify_email env (Some uid) w = (inr already_verified, w).
Proof.
  intros Hv. unfold post_verify_email, User_findById. run.
  rewrite lookup_answers. cbn beta iota. now rewrite found, Hv.
Qed.

Lemma get_verify_already :
  isEmailVerified u = true ->
  get_verify_email env (Some uid) w
  = match rejects env OpSign with
    | None =>
        (inr (Redirect (dashboardUrl u)
                       (sign env (_id u) (role u) (email u))
                       (session_user u)), w)
    | Some e =>
        (inr failed_page,
         with_line w "[ERROR] Direct email verification failed:"
                   (err_message e))
    end.
Proof.
  intros Hv. unfold get_verify_email, User_findById, login_redirect, jwt_sign.
  run. rewrite lookup_answers. cbn beta iota. rewrite found, Hv.
  now destruct (rejects env OpSign).
Qed.

Lemma post_verify_expired :
  isEmailVerified u = false -> (maxAgeMs < ageMs env u)%Z ->
  rejects env OpDeleteOne = None ->
  post_verify_email env (Some uid) w
  = (inr expired_reply,
     with_users w (without uid (users w))).
Proof.
  intros Hv Hage Hr. destruct (find_by_id _ _ _ found) as [Hid _].
  unfold post_verify_email, User_findById, remove_expired, User_deleteOne.
  run. rewrite lookup_answers. cbn beta iota. rewrite found, Hv.
  rewrite (proj2 (Z.ltb_lt _ _) Hage), Hr. cbn beta iota. now rewrite Hid.
Qed.

Lemma post_verify_in_time :
  isEmailVerified u = false -> (ageMs env u <= maxAgeMs)%Z ->
  rejects env OpSave = None ->
  post_verify_email env (Some uid) w
  = (inr (verified_reply (verified env u)),
     with_users w (saved (verified env u) (users w))).
Proof.
  intros Hv Hage Hr. destruct (find_by_id _ _ _ found) as [Hid _].
  unfold post_verify_email, User_findById, User_save.
  run. rewrite lookup_answers. cbn beta iota. rewrite found, Hv.
  rewrite (proj2 (Z.ltb_ge _ _) Hage), Hr. cbn beta iota.
  change (_id (verified env u)) with (_id u).
  rewrite Hid, (find_existsb _ _ _ _ found). rewrite <- Hid. reflexivity.
Qed.

Lemma post_verify_delete_fails (e : JsError) :
  isEmailVerified u = false -> (maxAgeMs < ageMs env u)%Z ->
  rejects env OpDeleteOne = Some e ->
  post_verify_email env (Some uid) w
  = (inr expired_reply,
     with_line w "[WARNING] Failed to delete expired unverified user:"
               (err_message e)).
Proof.
  intros Hv Hage Hr.
  unfold post_verify_email, User_findById, remove_expired, User_deleteOne.
  run. rewrite lookup_answers. cbn beta iota. rewrite found, Hv.
  now rewrite (proj2 (Z.ltb_lt _ _) Hage), Hr.
Qed.

Lemma get_verify_delete_fails (e : JsError) :
  isEmailVerified u = false -> (maxAgeMs < ageMs env u)%Z ->
  rejects env OpDeleteOne = Some e ->
  get_verify_email env (Some uid) w
  = (inr expired_page,
     with_line w "[WARNING] Failed to delete expired unverified user:"
               (err_message e)).
Proof.
  intros Hv Hage Hr.
  unfold get_verify_email, User_findById, remove_expired, User_deleteOne.
  run. rewrite lookup_answers. cbn beta iota. rewrite found, Hv.
  now rewrite (proj2 (Z.ltb_lt _ _) Hage), Hr.
Qed.
End Verify.

End VerifyFacts.

Module RegisterFacts.
Import StrFacts RegExpFacts LoginFacts VerifyFacts.

Lemma existsb_contains (p : ascii -> bool) (s : string) :
  Str.existsb p s = true <-> contains p s.
Proof.
  split.
  - induction s as [|c s IH]; simpl; [discriminate|].
    destruct (p c) eqn:Hc; simpl.
    + intros _. now exists ""%string, c, s.
    + intros H. destruct (IH H) as (pre & d & post & -> & Hd).
      now exists (String c pre), d, post.
  - intros (pre & c & post & -> & Hc).
    induction pre as [|d pre IH]; simpl; [now rewrite Hc|].
    rewrite IH. apply orb_true_r.
Qed.

Lemma existsb_ext (p q : ascii -> bool) (s : string) :
  (forall c, p c = q c) -> Str.existsb p s = Str.existsb q s.
Proof.
  intros H. induction s as [|c s IH]; simpl; [reflexivity|].
  now rewrite H, IH.
Qed.

Lemma letter_class (c : ascii) :
  class_has [Range "a" "z"; Range "A" "Z"] c = is_letter c.
Proof. unfold class_has, is_letter. simpl. now rewrite orb_false_r. Qed.

Lemma digit_class (c : ascii) : class_has [Range "0" "9"] c = Str.isDigit c.
Proof. unfold class_has. simpl. apply orb_false_r. Qed.

Lemma special_class (c : ascii) : class_has special_chars c = is_special c.
Proof.
  apply eqb_prop. revert c. apply for_all_ascii. vm_compute. reflexivity.
Qed.

Lemma requirements_meaning (password : string) :
  requirements (validatePasswordStrength password)
  = {| req_length := 6 <=? String.length password;
       hasLetter := Str.existsb is_letter password;
       hasDigit := Str.existsb Str.isDigit password;
       hasSpecial := Str.existsb is_special password |}.
Proof.
  unfold validatePasswordStrength, re_letter, re_digit, re_special.
  cbn [requirements]. rewrite !test_chars.
  now rewrite (existsb_ext _ _ password letter_class),
    (existsb_ext _ _ password digit_class),
    (existsb_ext _ _ password special_class).
Qed.

Lemma isStrong_all (password : string) :
  isStrong (validatePasswordStrength password)
  = let r := requirements (validatePasswordStrength password) in
    req_length r && hasLetter r && hasDigit r && hasSpecial r.
Proof.
  unfold validatePasswordStrength. cbn.
  repeat match goal with |- context [Bool.eqb ?b true] =>
           replace (Bool.eqb b true) with b by now destruct b end.
  now rewrite andb_true_r, !andb_assoc.
Qed.

Section Register.
Variables (env : Env) (body : RegisterBody) (w : World)
          (emailData : EmailData).
Hypothesis valid : validated body emailData.
Hypothesis salted : rejects env OpGenSalt = None.
Hypothesis hashed : rejects env OpHash = None.

Let payload := registration_payload env body emailData.

(** A validated request goes on to the insert. *)
Lemma register_validated :
  post_register env body w
  = try_catch
      (newUser <- User_create env payload ;;
       try_catch
         (sendVerificationEmail
            env (Str.toLowerCase (str (rb_email body))) (_id newUser)
            (display_name (ed_role emailData) (str (rb_fullName body))))
         (fun emailError =>
            console_error "[WARNING] Failed to send verification email:"
                          (err_message emailError)) ;;;
       ret (registration_success newUser))
      register_failed w.
Proof.
  destruct valid as (H1 & H2 & H3 & H4 & Hpw & Hstrong & Hemail).
  unfold post_register, bcrypt_genSalt, bcrypt_hash.
  rewrite H1, H2, H3, H4, Hstrong, Hemail.
  rewrite (proj2 (String.eqb_eq _ _) Hpw). cbn beta iota.
  unfold try_catch, bind, call. rewrite salted, hashed. reflexivity.
Qed.

Lemma register_duplicate (field : string) (keys : list string)
      (message : string) (w1 : World) :
  User_create env payload w
  = (inl (MongoServerError 11000 (field :: keys) message), w1) ->
  post_register env body w
  = (inr (duplicate_entry (Some field)),
     with_line w1 "[ERROR] Registration process failed:" message).
Proof.
  intros Hc. rewrite register_validated.
  unfold try_catch, bind. rewrite Hc. reflexivity.
Qed.

Lemma register_created (newUser : User) (w1 : World) :
  User_create env payload w = (inr newUser, w1) ->
  post_register env body w
  = (inr (registration_success newUser),
     match rejects env OpSendMail with
     | Some e =>
         with_line w1 "[WARNING] Failed to send verification email:"
                   (err_message e)
     | None =>
         {| users := users w1; console := console w1;
            outbox := outbox w1 ++ [verification_mail body emailData newUser] |}
     end).
Proof.
  intros Hc. rewrite register_validated.
  unfold try_catch, bind, sendVerificationEmail, call. rewrite Hc.
  destruct (rejects env OpSendMail); reflexivity.
Qed.
End Register.

Lemma register_weak (env : Env) (body : RegisterBody) (w : World) :
  falsy (rb_fullName body) = false -> falsy (rb_email body) = false ->
  falsy (rb_password body) = false ->
  falsy (rb_confirmPassword body) = false ->
  str (rb_password body) = str (rb_confirmPassword body) ->
  isStrong (validatePasswordStrength (str (rb_password body))) = false ->
  post_register env body w
  = (inr (Reply 400
            (weak_password_body
               (requirements
                  (validatePasswordStrength (str (rb_password body)))))),
     w).
Proof.
  intros H1 H2 H3 H4 Hpw Hweak. unfold post_register.
  rewrite H1, H2, H3, H4, Hweak, (proj2 (String.eqb_eq _ _) Hpw).
  reflexivity.
Qed.

(** What a successful insert did. *)
Lemma create_inserted (env : Env) (p : UserPayload) (w w1 : World)
      (doc : User) :
  User_create env p w = (inr doc, w1) ->
  w1 = with_users w (users w ++ [doc])
  /\ isEmailVerified doc = p_isEmailVerified p
  /\ createdAt doc = Some (now env).
Proof.
  unfold User_create, call. destruct (rejects env OpCreate); [discriminate|].
  unfold User_validation_failed. cbv zeta.
  destruct (match p_college p with
            | FacultyName s => inr s
            | ProtoMember key => _
            end) as [castMessage|college]; [discriminate|].
  destruct (required_failures _ _ _ _ ++ required _ college);
    [|discriminate].
  unfold bind, get_users, put_users, ret, throw. cbn beta iota.
  repeat match goal with
         | |- context [if ?b then _ else _] => destruct b; try discriminate
         end.
  intros [= <- <-]. now repeat split.
Qed.

(** An error 11000 raised by the collection itself names an index whose
    key is already taken. *)
Lemma create_conflict (env : Env) (p : UserPayload) (w w1 : World)
      (keys : list string) (message : string) :
  rejects env OpCreate = None ->
  User_create env p w = (inl (MongoServerError 11000 keys message), w1) ->
  w1 = w
  /\ ((keys = ["_id"]%string
       /\ List.existsb (by_id (newObjectId env)) (users w) = true)
      \/ (keys = ["email"]%string
          /\ List.existsb (by_email (Str.toLowerCase (p_email p))) (users w)
             = true)
      \/ (keys = ["studentId"]%string
          /\ exists s, p_studentId p = Some s
                       /\ List.existsb (by_studentId s) (users w) = true)).
Proof.
  intros Hr. unfold User_create, call. rewrite Hr.
  unfold User_validation_failed. cbv zeta.
  destruct (match p_college p with
            | FacultyName s => inr s
            | ProtoMember key => _
            end) as [castMessage|college]; [discriminate|].
  destruct (required_failures _ _ _ _ ++ required _ college);
    [|discriminate].
  unfold bind, get_users, put_users, ret, throw. cbn beta iota.
  cbn [_id].
  destruct (List.existsb (by_id (newObjectId env)) (users w)) eqn:Hid.
  { intros [= <- <- <-]. split; [reflexivity | now left]. }
  destruct (List.existsb (by_email _) (users w)) eqn:Hem.
  { intros [= <- <- <-]. split; [reflexivity | right; now left]. }
  destruct (p_studentId p) as [sid|] eqn:Hs; [|discriminate].
  destruct (List.existsb (by_studentId sid) (users w)) eqn:Hsid;
    [|discriminate].
  intros [= <- <- <-]. split; [reflexivity | right; right].
  split; [reflexivity | now exists sid].
Qed.

End RegisterFacts.

(* ================================================================== *)
(** * The properties of the specification *)

Import StrFacts RegExpFacts EmailFacts ResolverFacts LoginFacts VerifyFacts
       RegisterFacts.

(** ** The examples of the specification *)

Example resolve_new_format :
  extractUserDataFromEmail "123456789@std.sci.cu.edu.eg"
  = student_of "Faculty of Science" "3456789".
Proof. vm_compute. reflexivity. Qed.

Example resolve_legacy_format :
  extractUserDataFromEmail "1234567@std.eng.cu.edu.eg"
  = student_of "Faculty of Engineering" "1234567".
Proof. vm_compute. reflexivity. Qed.

(** The marker is optional in the pattern: [std] right before the domain
    is read as a faculty token, by backtracking out of the marker branch. *)
Example resolve_backtracks :
  match_ true re_email "dean@std.cu.edu.eg"
  = Some [(4, "cu.edu.eg"); (3, "std"); (1, "dean")]%string
  /\ extractUserDataFromEmail "dean@std.cu.edu.eg"
     = inl (Error_ "Faculty 'std' is not recognized at Cairo University").
Proof. split; vm_compute; reflexivity. Qed.

Example resolve_instructor :
  extractUserDataFromEmail "a.hassan@FCI.cu.edu.eg"
  = inr {| ed_university := "Cairo University";
           ed_faculty := FacultyName "Faculty of Computers & AI";
           ed_role := instructor;
           ed_studentId := None |}
  /\ extractUserDataFromEmail "a hassan@fci.cu.edu.eg"
     = inl (Error_ msg_invalid_format)
  /\ extractUserDataFromEmail "12345678@std.fci.cu.edu.eg"
     = inl (Error_ msg_student_prefix).
Proof. repeat split; vm_compute; reflexivity. Qed.

Example password_examples :
  requirements (validatePasswordStrength "abc12")
  = {| req_length := false; hasLetter := true; hasDigit := true;
       hasSpecial := false |}
  /\ requirements (validatePasswordStrength "abcdef")
     = {| req_length := true; hasLetter := true; hasDigit := false;
          hasSpecial := false |}
  /\ validatePasswordStrength "abc123!"
     = {| isStrong := true;
          requirements := {| req_length := true; hasLetter := true;
                             hasDigit := true; hasSpecial := true |} |}.
Proof. repeat split; vm_compute; reflexivity. Qed.

(** ** Login *)

(** C1, as the specification states it, fails on the code: the route checks
    [isEmailVerified] before it compares the password, so a login to an
    existing, unverified account with a wrong password is answered
    [EMAIL_NOT_VERIFIED], not [INVALID_CREDENTIALS]. *)
Lemma login_unverified_wrong_password :
  let env := sample_env an_hour_later in
  let w := sample_world false in
  List.find (by_email "123456789@std.sci.cu.edu.eg") (users w)
  = Some (sample_student false)
  /\ compare env "not-the-password" (password (sample_student false)) = false
  /\ post_login env (sample_login "not-the-password") w
     = (inr email_not_verified, w)
  /\ email_not_verified <> invalid_credentials.
Proof. repeat split; try (vm_compute; reflexivity). discriminate. Qed.

(** C1, amended: for a login request that carries an e-mail and a password,
    when no account has the lower-cased e-mail, or when the account is
    verified and the password does not match the stored hash, the answer is
    the one response [invalid_credentials] (401, [INVALID_CREDENTIALS], the
    same message) and the world is unchanged; an account that is not
    verified is answered [EMAIL_NOT_VERIFIED] whether the password matches
    or not. *)
Theorem login_invalid_credentials (env : Env) (body : LoginBody) (w : World) :
  falsy (lb_email body) = false ->
  falsy (lb_password body) = false ->
  rejects env OpFindOne = None ->
  let found :=
    List.find (by_email (Str.toLowerCase (str (lb_email body)))) (users w) in
  (found = None -> post_login env body w = (inr invalid_credentials, w))
  /\ (forall u,
         found = Some u -> isEmailVerified u = true ->
         rejects env OpCompare = None ->
         compare env (str (lb_password body)) (password u) = false ->
         post_login env body w = (inr invalid_credentials, w))
  /\ (forall u,
         found = Some u -> isEmailVerified u = false ->
         post_login env body w = (inr email_not_verified, w)).
Proof.
  intros He Hp Hr found. subst found. repeat split.
  - now apply login_no_account.
  - intros u. now apply login_wrong_password.
  - intros u. now apply login_unverified.
Qed.

Lemma login_invalid_credentials_witness :
  post_login (sample_env an_hour_later) (sample_login "abc123!") empty_world
  = (inr invalid_credentials, empty_world)
  /\ post_login (sample_env an_hour_later) (sample_login "not-the-password")
                (sample_world true)
     = (inr invalid_credentials, sample_world true)
  /\ post_login (sample_env an_hour_later) (sample_login "abc123!")
                (sample_world false)
     = (inr email_not_verified, sample_world false).
Proof.
  split; [|split].
  - apply (proj1 (login_invalid_credentials
                    (sample_env an_hour_later) (sample_login "abc123!")
                    empty_world eq_refl eq_refl eq_refl)).
    reflexivity.
  - apply (proj1 (proj2 (login_invalid_credentials
                           (sample_env an_hour_later)
                           (sample_login "not-the-password")
                           (sample_world true) eq_refl eq_refl eq_refl))
                 (sample_student true)); reflexivity.
  - apply (proj2 (proj2 (login_invalid_credentials
                           (sample_env an_hour_later) (sample_login "abc123!")
                           (sample_world false) eq_refl eq_refl eq_refl))
                 (sample_student false)); reflexivity.
Defined.

(** C9: a login never changes the collection, nor sends mail; in
    particular an account that is not verified is answered
    [EMAIL_NOT_VERIFIED] and left in place whatever its age, also when its
    verification window is over. *)
Theorem login_never_mutates (env : Env) (body : LoginBody) (w : World) :
  users (snd (post_login env body w)) = users w
  /\ outbox (snd (post_login env body w)) = outbox w
  /\ (forall u,
         falsy (lb_email body) = false ->
         falsy (lb_password body) = false ->
         rejects env OpFindOne = None ->
         List.find (by_email (Str.toLowerCase (str (lb_email body)))) (users w)
         = Some u ->
         isEmailVerified u = false ->
         post_login env body w = (inr email_not_verified, w)).
Proof.
  destruct (login_users env body w) as [Hu Ho]. repeat split; try assumption.
  intros u He Hp Hr Hf Hv. now apply (login_unverified env body w He Hp Hr u).
Qed.

Lemma login_never_mutates_witness :
  (maxAgeMs < ageMs (sample_env two_days_later) (sample_student false))%Z
  /\ post_login (sample_env two_days_later) (sample_login "abc123!")
                (sample_world false)
     = (inr email_not_verified, sample_world false).
Proof.
  split; [reflexivity|].
  apply (proj2 (proj2 (login_never_mutates
                         (sample_env two_days_later) (sample_login "abc123!")
                         (sample_world false)))
               (sample_student false)); reflexivity.
Defined.

(** ** The resolver *)

(** C2, as the specification states it, fails on the code.  The pattern of
    the resolver spells the domain [cu.edu.eg] out, so an address of
    another domain does not reach the directory: it is refused as
    malformed, not as an unsupported university.  And the faculty is read
    with [subdomains[subdomain]], which also finds what every object
    inherits: [constructor] is not a faculty of the directory, yet the
    address resolves. *)
Lemma unknown_domain_and_inherited_faculty :
  Obj.own Universities "aun.edu.eg" = None
  /\ extractUserDataFromEmail "ahmed@sci.aun.edu.eg"
     = inl (Error_ msg_invalid_format)
  /\ extractUserDataFromEmail "ahmed@sci.aun.edu.eg"
     <> inl (Error_ (msg_unsupported_university "aun.edu.eg"))
  /\ Obj.own (subdomains cairo_university) "constructor" = None
  /\ extractUserDataFromEmail "ahmed@constructor.cu.edu.eg"
     = inr {| ed_university := "Cairo University";
              ed_faculty := ProtoMember "constructor";
              ed_role := instructor;
              ed_studentId := None |}.
Proof. repeat split; try (vm_compute; reflexivity). discriminate. Qed.

(** C2, amended: an address whose last part is not [.cu.edu.eg] (in any
    case) is refused with the message of a malformed address, and no address
    at all is refused as an unsupported university; an address of the
    accepted shape whose lower-cased faculty token is neither listed under
    [cu.edu.eg] nor the name of a member of [Object.prototype] is refused
    with the message of an unrecognised faculty; the messages of the
    failures differ from one another. *)
Theorem resolver_failures (email : string) :
  (cairo_address email = false ->
   extractUserDataFromEmail email = inl (Error_ msg_invalid_format))
  /\ (forall domain,
         extractUserDataFromEmail email
         <> inl (Error_ (msg_unsupported_university domain)))
  /\ (forall local marker sub dom,
         shaped email local marker sub dom ->
         Obj.own (subdomains cairo_university) (Str.toLowerCase sub) = None ->
         Obj.in_prototype (Str.toLowerCase sub) = false ->
         extractUserDataFromEmail email
         = inl (Error_ (msg_unrecognized_faculty (Str.toLowerCase sub)
                                                 "Cairo University")))
  /\ (forall domain sub uni,
         msg_invalid_format <> msg_unsupported_university domain
         /\ msg_invalid_format <> msg_unrecognized_faculty sub uni
         /\ msg_unsupported_university domain
            <> msg_unrecognized_faculty sub uni).
Proof.
  split; [|split; [|split]].
  - intros Hdom. apply extract_unshaped.
    intros local marker sub dom Hs.
    rewrite (shaped_cairo_address _ _ _ _ _ Hs) in Hdom. discriminate.
  - intros domain.
    destruct (match_ true re_email email) as [m|] eqn:Hm.
    + apply email_match_sound in Hm as (local & marker & sub & dom & Hs & _).
      rewrite (extract_shaped _ _ _ _ _ Hs).
      destruct (Obj.get _ _); [| |discriminate];
        unfold resolve_role; destruct marker;
        repeat match goal with
               | |- context [if ?b then _ else _] => destruct b
               end; discriminate.
    + unfold extractUserDataFromEmail. rewrite Hm. discriminate.
  - intros local marker sub dom Hs Hown Hproto.
    rewrite (extract_shaped _ _ _ _ _ Hs). unfold Obj.get.
    now rewrite Hown, Hproto.
  - intros domain sub uni. repeat split; discriminate.
Qed.

Lemma resolver_failures_witness :
  extractUserDataFromEmail "ahmed@sci.aun.edu.eg"
  = inl (Error_ msg_invalid_format)
  /\ extractUserDataFromEmail "Ahmed@Physics.CU.edu.eg"
     = inl (Error_ (msg_unrecognized_faculty "physics" "Cairo University")).
Proof.
  split.
  - apply (proj1 (resolver_failures "ahmed@sci.aun.edu.eg")). reflexivity.
  - apply (proj1 (proj2 (proj2 (resolver_failures "Ahmed@Physics.CU.edu.eg")))
                 "Ahmed"%string None "Physics"%string "CU.edu.eg"%string);
      [repeat split; try reflexivity; discriminate | reflexivity | reflexivity].
Defined.

(** C5: for a student address [local@std.sub.cu.edu.eg] of a listed
    faculty (marker and domain in any case), a local part of exactly nine
    digits gives the student id of seven characters that starts at
    offset 2, a local part of exactly seven digits is the student id as it
    stands, and any other local part over the alphabet of local parts is
    refused with the message of a malformed student prefix. *)
Theorem student_id_resolution (local tok sub dom faculty : string) :
  Str.toLowerCase tok = "std"%string ->
  Obj.own (subdomains cairo_university) (Str.toLowerCase sub) = Some faculty ->
  Str.toLowerCase dom = "cu.edu.eg"%string ->
  let email := (local ++ "@" ++ tok ++ "." ++ sub ++ "." ++ dom)%string in
  let nine := String.length local = 9 /\ Str.forallb Str.isDigit local = true in
  let seven := String.length local = 7 /\ Str.forallb Str.isDigit local = true in
  (nine ->
   extractUserDataFromEmail email = student_of faculty (Str.substr local 2 7)
   /\ String.length (Str.substr local 2 7) = 7
   /\ forall i, i < 7 ->
                String.get i (Str.substr local 2 7) = String.get (2 + i) local)
  /\ (seven -> extractUserDataFromEmail email = student_of faculty local)
  /\ (local <> ""%string -> Str.forallb local_char local = true ->
      ~ nine -> ~ seven ->
      extractUserDataFromEmail email = inl (Error_ msg_student_prefix)).
Proof.
  intros Htok Hfac Hdom email nine seven.
  destruct (listed_token _ _ Hfac) as [Hsne Hsub].
  assert (Hshape : local <> ""%string -> Str.forallb local_char local = true ->
                   shaped email local (Some tok) sub dom).
  { intros Hne Hloc. unfold shaped, email, marker_text.
    rewrite app_assoc. now repeat split. }
  assert (Hres : local <> ""%string -> Str.forallb local_char local = true ->
                 extractUserDataFromEmail email
                 = resolve_role local (Some tok) (FacultyName faculty)).
  { intros Hne Hloc. rewrite (extract_shaped _ _ _ _ _ (Hshape Hne Hloc)).
    unfold Obj.get. now rewrite Hfac. }
  split; [|split].
  - intros [Hlen Hdig]. split; [|split].
    + rewrite Hres.
      * unfold resolve_role. now rewrite Hlen, Hdig.
      * intros ->. discriminate Hlen.
      * now apply digits_local.
    + unfold Str.substr. clear - Hlen.
      do 10 (destruct local as [|? local]; try discriminate Hlen).
      reflexivity.
    + intros i Hi. unfold Str.substr.
      rewrite substring_correct1 by exact Hi. now rewrite Nat.add_comm.
  - intros [Hlen Hdig]. rewrite Hres.
    + unfold resolve_role. now rewrite Hlen, Hdig.
    + intros ->. discriminate Hlen.
    + now apply digits_local.
  - intros Hne Hloc Hn9 Hn7. rewrite (Hres Hne Hloc). unfold resolve_role.
    destruct ((String.length local =? 9) && Str.forallb Str.isDigit local)
      eqn:H9.
    { apply andb_prop in H9 as [Hl Hd]. apply Nat.eqb_eq in Hl.
      now destruct Hn9. }
    destruct ((String.length local =? 7) && Str.forallb Str.isDigit local)
      eqn:H7; [|reflexivity].
    apply andb_prop in H7 as [Hl Hd]. apply Nat.eqb_eq in Hl.
    now destruct Hn7.
Qed.

Lemma student_id_resolution_witness :
  extractUserDataFromEmail "123456789@STD.Sci.cu.edu.eg"
  = student_of "Faculty of Science" "3456789"
  /\ extractUserDataFromEmail "1234567@std.eng.cu.edu.eg"
     = student_of "Faculty of Engineering" "1234567"
  /\ extractUserDataFromEmail "mona.adel@std.eng.cu.edu.eg"
     = inl (Error_ msg_student_prefix).
Proof.
  split; [|split].
  - apply (proj1 (student_id_resolution
                    "123456789" "STD" "Sci" "cu.edu.eg" "Faculty of Science"
                    eq_refl eq_refl eq_refl)).
    split; reflexivity.
  - apply (proj1 (proj2 (student_id_resolution
                           "1234567" "std" "eng" "cu.edu.eg"
                           "Faculty of Engineering"
                           eq_refl eq_refl eq_refl))).
    split; reflexivity.
  - apply (proj2 (proj2 (student_id_resolution
                           "mona.adel" "std" "eng" "cu.edu.eg"
                           "Faculty of Engineering"
                           eq_refl eq_refl eq_refl))).
    + discriminate.
    + reflexivity.
    + intros [_ H]. discriminate H.
    + intros [H _]. discriminate H.
Defined.

(** ** Verification *)

(** C3: [POST /verify-email] for an account that is found and not verified.
    When more than 24 hours have passed since its creation and the store
    carries out the removal, the account is deleted and the answer is
    400 [TOKEN_EXPIRED_ACCOUNT_REMOVED]; a later verification of the same
    id finds nothing and answers 400 [INVALID_UID].  When at most 24 hours
    have passed and the store carries out the save, the stored account is
    the old one with the flag set and the time of the update, and the
    answer is 200 [EMAIL_VERIFIED_SUCCESS] with the public projection of
    the account: id, name, address, role, university, faculty and the
    flag, which is true, and neither the hash nor the student id. *)
Theorem verify_expiry_window (env : Env) (uid : ObjectId) (w : World)
        (u : User) :
  rejects env OpFindById = None ->
  List.find (by_id uid) (users w) = Some u ->
  isEmailVerified u = false ->
  ((maxAgeMs < now env - creationTime u)%Z ->
   rejects env OpDeleteOne = None ->
   let w' := with_users w (without uid (users w)) in
   post_verify_email env (Some uid) w
   = (inr (Reply 400
             (JObj [("message",
                     JStr "Verification link has expired and the unverified account has been removed. Please register again.");
                    ("code", JStr "TOKEN_EXPIRED_ACCOUNT_REMOVED")])),
      w')
   /\ List.find (by_id uid) (users w') = None
   /\ ~ In u (users w')
   /\ forall env',
       rejects env' OpFindById = None ->
       post_verify_email env' (Some uid) w'
       = (inr (Reply 400
                 (JObj [("message",
                         JStr "Invalid verification link or user not found");
                        ("code", JStr "INVALID_UID")])),
          w'))
  /\ ((now env - creationTime u <= maxAgeMs)%Z ->
      rejects env OpSave = None ->
      let stored :=
        {| _id := _id u; fullName := fullName u; email := email u;
           studentId := studentId u; password := password u;
           role := role u; university := university u;
           college := college u; isEmailVerified := true;
           createdAt := createdAt u; updatedAt := now env |} in
      let w' := with_users w (saved stored (users w)) in
      post_verify_email env (Some uid) w
      = (inr (Reply 200
                (JObj [("message",
                        JStr "Email verified successfully. You can now login.");
                       ("code", JStr "EMAIL_VERIFIED_SUCCESS");
                       ("user",
                        JObj [("id", JId (_id u));
                              ("fullName", JStr (fullName u));
                              ("email", JStr (email u));
                              ("role", JStr (role_name (role u)));
                              ("university", JStr (university u));
                              ("college", JStr (college u));
                              ("isEmailVerified", JBool true)])])),
         w')
      /\ List.find (by_id uid) (users w') = Some stored
      /\ List.map _id (users w') = List.map _id (users w)).
Proof.
  intros Hr Hf Hv. destruct (find_by_id _ _ _ Hf) as [Hid Hin]. split.
  - intros Hage Hdel w'.
    assert (Hgone : List.find (by_id uid) (users w') = None)
      by apply find_deleted.
    repeat split.
    + exact (post_verify_expired env uid w u Hr Hf Hv Hage Hdel).
    + exact Hgone.
    + unfold w', with_users, without. cbn [users]. intros Hu.
      apply filter_In in Hu as [_ Hu]. unfold by_id in Hu.
      now rewrite Hid, oid_eqb_refl in Hu.
    + intros env' Hr'. exact (post_verify_unknown env' uid w' Hr' Hgone).
  - intros Hage Hsave stored w'. repeat split.
    + exact (post_verify_in_time env uid w u Hr Hf Hv Hage Hsave).
    + unfold w', with_users. cbn [users]. rewrite <- Hid.
      change (_id u) with (_id stored). apply find_saved.
      change (_id stored) with (_id u). rewrite Hid.
      exact (find_existsb _ _ _ _ Hf).
    + unfold w', with_users, saved. cbn [users]. rewrite List.map_map.
      apply List.map_ext. intros x.
      change (_id stored) with (_id u). unfold by_id.
      destruct (oid_eqb (_id x) (_id u)) eqn:Hx; [|reflexivity].
      apply oid_eqb_eq in Hx. now rewrite Hx.
Qed.

Lemma verify_expiry_window_witness :
  let id := _id (sample_student false) in
  post_verify_email (sample_env two_days_later) (Some id) (sample_world false)
  = (inr expired_reply, empty_world)
  /\ post_verify_email (sample_env an_hour_later) (Some id) empty_world
     = (inr invalid_uid, empty_world)
  /\ post_verify_email (sample_env an_hour_later) (Some id) (sample_world false)
     = (inr (verified_reply
               (verified (sample_env an_hour_later) (sample_student false))),
        with_users (sample_world false)
                   [verified (sample_env an_hour_later) (sample_student false)]).
Proof.
  intros id.
  pose proof (verify_expiry_window
                (sample_env two_days_later) id (sample_world false)
                (sample_student false) eq_refl eq_refl eq_refl) as [Hlate _].
  pose proof (verify_expiry_window
                (sample_env an_hour_later) id (sample_world false)
                (sample_student false) eq_refl eq_refl eq_refl) as [_ Hsoon].
  assert (Hl : (maxAgeMs < now (sample_env two_days_later)
                            - creationTime (sample_student false))%Z)
    by reflexivity.
  assert (Hs : (now (sample_env an_hour_later)
                - creationTime (sample_student false) <= maxAgeMs)%Z)
    by (vm_compute; discriminate).
  destruct (Hlate Hl eq_refl) as (H1 & _ & _ & H2).
  destruct (Hsoon Hs eq_refl) as (H3 & _).
  split; [exact H1 | split; [exact (H2 (sample_env an_hour_later) eq_refl)
                            | exact H3]].
Defined.

(** C4, as the specification states it, fails on the code for the link of
    the verification message: [GET /verify-email/:uid] on an account that
    is already verified does not fail with [ALREADY_VERIFIED], it signs a
    token and redirects to the dashboard. *)
Lemma verified_link_signs_in :
  let env := sample_env two_days_later in
  let u := sample_student true in
  get_verify_email env (Some (_id u)) (sample_world true)
  = (inr (Redirect "http://127.0.0.1:5501/frontend/html/student-profile.html"
                   "jwt.student.123456789@std.sci.cu.edu.eg"
                   (session_user u)),
     sample_world true)
  /\ fst (get_verify_email env (Some (_id u)) (sample_world true))
     <> inr already_verified.
Proof. split; [vm_compute; reflexivity | discriminate]. Qed.

(** C4, amended: for an account that is found and already verified,
    [POST /verify-email] fails with [ALREADY_VERIFIED] and changes nothing,
    and [GET /verify-email/:uid] redirects to the dashboard with a signed
    token and changes nothing in the collection; neither sets the flag
    again nor deletes the account, however long ago it was created, so the
    account stays verified. *)
Theorem verify_already_verified (env : Env) (uid : ObjectId) (w : World)
        (u : User) :
  rejects env OpFindById = None ->
  List.find (by_id uid) (users w) = Some u ->
  isEmailVerified u = true ->
  post_verify_email env (Some uid) w = (inr already_verified, w)
  /\ (rejects env OpSign = None ->
      get_verify_email env (Some uid) w
      = (inr (Redirect (dashboardUrl u)
                       (sign env (_id u) (role u) (email u))
                       (session_user u)), w))
  /\ users (snd (get_verify_email env (Some uid) w)) = users w
  /\ List.find (by_id uid) (users (snd (post_verify_email env (Some uid) w)))
     = Some u
  /\ List.find (by_id uid) (users (snd (get_verify_email env (Some uid) w)))
     = Some u.
Proof.
  intros Hr Hf Hv.
  pose proof (post_verify_already env uid w u Hr Hf Hv) as Hpost.
  pose proof (get_verify_already env uid w u Hr Hf Hv) as Hget.
  assert (Husers : users (snd (get_verify_email env (Some uid) w)) = users w).
  { rewrite Hget. now destruct (rejects env OpSign). }
  repeat split.
  - exact Hpost.
  - intros Hs. now rewrite Hget, Hs.
  - exact Husers.
  - now rewrite Hpost.
  - now rewrite Husers.
Qed.

Lemma verify_already_verified_witness :
  let env := sample_env two_days_later in
  let u := sample_student true in
  (maxAgeMs < ageMs env u)%Z
  /\ post_verify_email env (Some (_id u)) (sample_world true)
     = (inr already_verified, sample_world true)
  /\ users (snd (get_verify_email env (Some (_id u)) (sample_world true)))
     = [u].
Proof.
  intros env u.
  pose proof (verify_already_verified env (_id u) (sample_world true) u
                                      eq_refl eq_refl eq_refl)
    as (Hpost & _ & Hget & _).
  split; [reflexivity | split; [exact Hpost | exact Hget]].
Defined.

(** C10: in the expiry branch of both verification routes a rejected
    [deleteOne] is caught and only logged: the answer is still the one of
    an expired link ([TOKEN_EXPIRED_ACCOUNT_REMOVED] for the POST route),
    although the account is still in the collection. *)
Theorem expired_delete_failure_swallowed (env : Env) (uid : ObjectId)
        (w : World) (u : User) (e : JsError) :
  rejects env OpFindById = None ->
  List.find (by_id uid) (users w) = Some u ->
  isEmailVerified u = false ->
  (maxAgeMs < ageMs env u)%Z ->
  rejects env OpDeleteOne = Some e ->
  let w' := with_line w "[WARNING] Failed to delete expired unverified user:"
                      (err_message e) in
  post_verify_email env (Some uid) w = (inr expired_reply, w')
  /\ get_verify_email env (Some uid) w = (inr expired_page, w')
  /\ users w' = users w
  /\ List.find (by_id uid) (users w') = Some u.
Proof.
  intros Hr Hf Hv Hage He w'. repeat split.
  - now apply (post_verify_delete_fails env uid w u).
  - now apply (get_verify_delete_fails env uid w u).
  - exact Hf.
Qed.

Lemma expired_delete_failure_swallowed_witness :
  let env := failing (sample_env two_days_later) OpDeleteOne
                     (Error_ "connection closed") in
  let u := sample_student false in
  post_verify_email env (Some (_id u)) (sample_world false)
  = (inr expired_reply,
     {| users := [u];
        console := ["[WARNING] Failed to delete expired unverified user: connection closed"%string];
        outbox := [] |}).
Proof.
  intros env u.
  exact (proj1 (expired_delete_failure_swallowed
                  env (_id u) (sample_world false) u
                  (Error_ "connection closed")
                  eq_refl eq_refl eq_refl eq_refl eq_refl)).
Defined.

(** ** Registration *)

(** C8: the password report.  [isStrong] holds exactly when the password
    has at least six characters, a letter, a digit and one of the special
    characters; the four findings are part of every report, and a
    registration refused for its password carries them. *)
Theorem password_policy (password : string) :
  let report := validatePasswordStrength password in
  requirements report
  = {| req_length := 6 <=? String.length password;
       hasLetter := Str.existsb is_letter password;
       hasDigit := Str.existsb Str.isDigit password;
       hasSpecial := Str.existsb is_special password |}
  /\ (isStrong report = true <->
      6 <= String.length password /\ contains is_letter password
      /\ contains Str.isDigit password /\ contains is_special password)
  /\ (forall env body w,
         falsy (rb_fullName body) = false -> falsy (rb_email body) = false ->
         rb_password body = Some password ->
         rb_confirmPassword body = Some password ->
         password <> ""%string ->
         isStrong report = false ->
         post_register env body w
         = (inr (Reply 400 (weak_password_body (requirements report))), w)).
Proof.
  intros report. subst report. split; [|split].
  - apply requirements_meaning.
  - rewrite isStrong_all, requirements_meaning. cbn [req_length hasLetter
      hasDigit hasSpecial]. rewrite !andb_true_iff, Nat.leb_le.
    rewrite !existsb_contains. tauto.
  - intros env body w Hn He Hp Hc Hne Hweak.
    assert (Hf : falsy (Some password) = false)
      by (destruct password; [congruence | reflexivity]).
    assert (Hs : str (rb_password body) = password) by now rewrite Hp.
    rewrite <- Hs. apply register_weak; rewrite ?Hp, ?Hc; auto.
Qed.

Lemma password_policy_witness :
  post_register (sample_env an_hour_later) (sample_registration "abc12")
                empty_world
  = (inr (Reply 400
            (weak_password_body
               {| req_length := false; hasLetter := true; hasDigit := true;
                  hasSpecial := false |})),
     empty_world).
Proof.
  apply (proj2 (proj2 (password_policy "abc12"))
               (sample_env an_hour_later) (sample_registration "abc12")
               empty_world);
    try reflexivity.
  discriminate.
Defined.

(** C6: when the insert of a validated registration is refused by the
    store with the duplicate-key error 11000, the answer is 409 with the
    code [DUPLICATE_ENTRY], and it carries the name of the conflicting
    field, the first key of the error's key pattern, both in its message
    and as its [field]; it is never the internal error (500).  When that
    error comes from the indexes of the collection, the field is [email]
    or [studentId] (or [_id]), a stored account already has that value,
    and nothing is stored.  An error without any key is answered the same
    way, with no field to name. *)
Theorem register_duplicate_key (env : Env) (body : RegisterBody) (w w1 : World)
        (emailData : EmailData) (keys : list string) (message : string) :
  validated body emailData ->
  rejects env OpGenSalt = None ->
  rejects env OpHash = None ->
  User_create env (registration_payload env body emailData) w
  = (inl (MongoServerError 11000 keys message), w1) ->
  (exists answer,
      post_register env body w
      = (inr (Reply 409 (JObj answer)),
         with_line w1 "[ERROR] Registration process failed:" message)
      /\ answer
         = match keys with
           | field :: _ =>
               [("message",
                 JStr ("Account with this " ++ field ++ " already exists"));
                ("code", JStr "DUPLICATE_ENTRY");
                ("field", JStr field)]
           | [] =>
               [("message",
                 JStr "Account with this undefined already exists");
                ("code", JStr "DUPLICATE_ENTRY");
                ("field", JUndefined)]
           end)
  /\ fst (post_register env body w)
     <> inr (Reply 500
               (JObj [("message",
                       JStr "An unexpected error occurred during registration");
                      ("code", JStr "INTERNAL_SERVER_ERROR")]))
  /\ (rejects env OpCreate = None ->
      users w1 = users w
      /\ ((keys = ["email"]%string
           /\ List.existsb
                (by_email (Str.toLowerCase (str (rb_email body)))) (users w)
              = true)
          \/ (keys = ["studentId"]%string
              /\ exists s, ed_studentId emailData = Some s
                           /\ List.existsb (by_studentId s) (users w) = true)
          \/ (keys = ["_id"]%string
              /\ List.existsb (by_id (newObjectId env)) (users w) = true))).
Proof.
  intros Hvalid Hsalt Hhash Hcreate.
  assert (Hrun : post_register env body w
                 = register_failed (MongoServerError 11000 keys message) w1).
  { rewrite (register_validated env body w emailData Hvalid Hsalt Hhash).
    unfold try_catch, bind. now rewrite Hcreate. }
  split; [|split].
  - rewrite Hrun. destruct keys as [|field keys]; eexists;
      (split; [reflexivity|]); reflexivity.
  - rewrite Hrun. destruct keys; discriminate.
  - intros Hr.
    destruct (create_conflict _ _ _ _ _ _ Hr Hcreate)
      as [-> [[-> Hid] | [[-> Hem] | [-> (s & Hs & Hsid)]]]].
    + split; [reflexivity | right; right; now split].
    + split; [reflexivity | left]. split; [reflexivity|].
      cbn [registration_payload p_email] in Hem.
      now rewrite toLowerCase_idem in Hem.
    + split; [reflexivity | right; left]. split; [reflexivity|].
      exists s. split; [|assumption].
      cbn [registration_payload p_studentId] in Hs.
      destruct (ed_role emailData); [|discriminate].
      destruct (ed_studentId emailData) as [t|]; [|discriminate].
      destruct (Str.truthy t); [assumption | discriminate].
Qed.

Lemma register_duplicate_key_witness :
  post_register (sample_env an_hour_later) (sample_registration "abc123!")
                (sample_world false)
  = (inr (Reply 409
            (JObj [("message",
                    JStr "Account with this email already exists");
                   ("code", JStr "DUPLICATE_ENTRY");
                   ("field", JStr "email")])),
     with_line (sample_world false) "[ERROR] Registration process failed:"
               "E11000 duplicate key error").
Proof.
  destruct (proj1 (register_duplicate_key
                     (sample_env an_hour_later)
                     (sample_registration "abc123!")
                     (sample_world false) (sample_world false)
                     sample_emailData
                     ["email"]%string "E11000 duplicate key error"
                     (conj eq_refl (conj eq_refl (conj eq_refl (conj eq_refl
                        (conj eq_refl (conj eq_refl eq_refl))))))
                     eq_refl eq_refl eq_refl))
    as (answer & Hanswer & ->).
  exact Hanswer.
Defined.

(** C7: when a registration is validated and its insert succeeds, a
    failure of the verification message changes nothing but the log: the
    answer is the success 201 [REGISTRATION_SUCCESS_VERIFY_EMAIL] with the
    projection of the new account (id, name, address, student id, role,
    university, faculty and the flag, which is false, and not the hash),
    the same answer as when the message is sent, and the collection is
    the same, with the new account in it, pending. *)
Theorem register_survives_dispatch_failure (env : Env) (body : RegisterBody)
        (w w1 : World) (emailData : EmailData) (newUser : User)
        (e : JsError) :
  validated body emailData ->
  rejects env OpGenSalt = None ->
  rejects env OpHash = None ->
  rejects env OpSendMail = None ->
  User_create env (registration_payload env body emailData) w
  = (inr newUser, w1) ->
  let unsent := failing env OpSendMail e in
  post_register unsent body w
  = (inr (Reply 201
            (JObj [("message",
                    JStr "Account created successfully. Please verify your email to activate your account.");
                   ("code", JStr "REGISTRATION_SUCCESS_VERIFY_EMAIL");
                   ("user",
                    JObj [("id", JId (_id newUser));
                          ("fullName", JStr (fullName newUser));
                          ("email", JStr (email newUser));
                          ("studentId",
                           match studentId newUser with
                           | Some s => JStr s
                           | None => JUndefined
                           end);
                          ("role", JStr (role_name (role newUser)));
                          ("university", JStr (university newUser));
                          ("college", JStr (college newUser));
                          ("isEmailVerified", JBool false)]);
                   ("details",
                    JStr "A verification link has been sent to your email. Please check your inbox (and spam folder).")])),
     with_line w1 "[WARNING] Failed to send verification email:"
               (err_message e))
  /\ fst (post_register unsent body w) = fst (post_register env body w)
  /\ users (snd (post_register unsent body w))
     = users (snd (post_register env body w))
  /\ users (snd (post_register unsent body w)) = users w ++ [newUser]
  /\ isEmailVerified newUser = false.
Proof.
  intros Hvalid Hsalt Hhash Hmail Hcreate unsent.
  destruct (create_inserted _ _ _ _ _ Hcreate) as (Hw1 & Hflag & _).
  cbn [registration_payload p_isEmailVerified] in Hflag.
  assert (Hbad : post_register unsent body w
                 = (inr (registration_success newUser),
                    with_line w1 "[WARNING] Failed to send verification email:"
                              (err_message e))).
  { rewrite (register_created unsent body w emailData Hvalid Hsalt Hhash
                              newUser w1).
    - reflexivity.
    - exact Hcreate. }
  pose proof (register_created env body w emailData Hvalid Hsalt Hhash
                               newUser w1 Hcreate) as Hgood.
  rewrite Hmail in Hgood.
  rewrite Hbad, Hgood. cbn [fst snd users with_line].
  repeat split; try assumption.
  - unfold registration_success, registered_user, opt_str.
    now rewrite Hflag.
  - now rewrite Hw1.
Qed.

Lemma register_survives_dispatch_failure_witness :
  let newUser :=
    {| _id := mkObjectId 1700000500 2;
       fullName := "Mona Adel";
       email := "123456789@std.sci.cu.edu.eg";
       studentId := Some "3456789"%string;
       password := "$2a$10$N9qo8uLOickgx2ZMRZoMyeabc123!";
       role := student;
       university := "Cairo University";
       college := "Faculty of Science";
       isEmailVerified := false;
       createdAt := Some an_hour_later;
       updatedAt := an_hour_later |} in
  post_register
    (failing (sample_env an_hour_later) OpSendMail (Error_ "ECONNREFUSED"))
    (sample_registration "abc123!") empty_world
  = (inr (registration_success newUser),
     {| users := [newUser];
        console := ["[WARNING] Failed to send verification email: ECONNREFUSED"%string];
        outbox := [] |}).
Proof.
  intros newUser.
  apply (proj1 (register_survives_dispatch_failure
                  (sample_env an_hour_later) (sample_registration "abc123!")
                  empty_world (with_users empty_world [newUser])
                  sample_emailData newUser (Error_ "ECONNREFUSED")
                  (conj eq_refl (conj eq_refl (conj eq_refl (conj eq_refl
                     (conj eq_refl (conj eq_refl eq_refl))))))
                  eq_refl eq_refl eq_refl eq_refl)).
Defined.

(* ================================================================== *)
(** * Further facts *)

(** ** The [i] flag and the case of the subject *)

Module CaseFacts.
Import StrFacts RegExpFacts EmailFacts ResolverFacts.

Lemma upper_lower (c : ascii) :
  Str.upperChar (Str.lowerChar c) = Str.upperChar c.
Proof.
  apply Ascii.eqb_eq. revert c. apply for_all_ascii. vm_compute. reflexivity.
Qed.

Lemma lower_or_upper (c : ascii) :
  Ascii.eqb c (Str.lowerChar c) || Ascii.eqb c (Str.upperChar c) = true.
Proof. revert c. apply for_all_ascii. vm_compute. reflexivity. Qed.

Lemma char_eq_lower_r (a b : ascii) :
  char_eq true a (Str.lowerChar b) = char_eq true a b.
Proof. now rewrite !char_eq_lower, lowerChar_idem. Qed.

Lemma accepts_lower (negated : bool) (cls : list citem) (c : ascii) :
  accepts true negated cls (Str.lowerChar c) = accepts true negated cls c.
Proof.
  unfold accepts. rewrite upper_lower, lowerChar_idem.
  assert (Hfound :
            class_has cls (Str.lowerChar c) || class_has cls (Str.upperChar c)
            || class_has cls (Str.lowerChar c)
            = class_has cls c || class_has cls (Str.upperChar c)
              || class_has cls (Str.lowerChar c)).
  { assert (Ha : class_has cls c = class_has cls (Str.lowerChar c)
                 \/ class_has cls c = class_has cls (Str.upperChar c)).
    { pose proof (lower_or_upper c) as H. apply orb_prop in H.
      destruct H as [H|H]; apply Ascii.eqb_eq in H; [left | right];
        now rewrite <- H. }
    destruct Ha as [-> | ->];
      destruct (class_has cls (Str.lowerChar c)),
               (class_has cls (Str.upperChar c)); reflexivity. }
  now rewrite Hfound.
Qed.

Lemma truthy_lower (s : string) : Str.truthy (Str.toLowerCase s) = Str.truthy s.
Proof. now destruct s. Qed.

Lemma substring_lower (n m : nat) (s : string) :
  substring n m (Str.toLowerCase s) = Str.toLowerCase (substring n m s).
Proof.
  revert n m. induction s as [|c s IH]; intros [|n] [|m]; simpl;
    try reflexivity; now rewrite IH.
Qed.

Lemma strip_lower (l s : string) :
  strip true l (Str.toLowerCase s)
  = option_map Str.toLowerCase (strip true l s).
Proof.
  revert s. induction l as [|a l IH]; intros [|b s]; cbn [strip Str.toLowerCase];
    try reflexivity.
  rewrite char_eq_lower_r. destruct (char_eq true a b); [apply IH | reflexivity].
Qed.

Section Runs.
Variable A : Type.
Variable f : A -> A.
Variable p : ascii -> bool.
Hypothesis p_lower : forall c, p (Str.lowerChar c) = p c.
Variables k k' : string -> option A.
Hypothesis k_lower : forall s, k' (Str.toLowerCase s) = option_map f (k s).

Lemma plus_lower (s : string) :
  plus p (Str.toLowerCase s) k' = option_map f (plus p s k).
Proof.
  induction s as [|c s IH]; cbn [plus Str.toLowerCase]; [reflexivity|].
  rewrite p_lower. destruct (p c); [|reflexivity].
  rewrite IH. destruct (plus p s k); [reflexivity | apply k_lower].
Qed.

Lemma exactly_lower (n : nat) (s : string) :
  exactly p n (Str.toLowerCase s) k' = option_map f (exactly p n s k).
Proof.
  revert s. induction n as [|n IH]; intros s; cbn [exactly]; [apply k_lower|].
  destruct s as [|c s]; cbn [Str.toLowerCase]; [reflexivity|].
  rewrite p_lower. destruct (p c); [apply IH | reflexivity].
Qed.
End Runs.

(** Under the [i] flag the matcher does not look at the case of the
    subject: on the subject in lower case it finds the same match, with the
    captures in lower case. *)
Lemma exec_lower (input : string) (r : regex) :
  forall (s : string) (cs : captures)
         (k k' : string -> captures -> option captures),
    (forall s' cs',
        k' (Str.toLowerCase s') (lower_captures cs')
        = option_map lower_captures (k s' cs')) ->
    exec true (Str.toLowerCase input) r (Str.toLowerCase s)
         (lower_captures cs) k'
    = option_map lower_captures (exec true input r s cs k).
Proof.
  induction r as [neg cls q|l|r1 IH1 r2 IH2|r1 IH1|i r1 IH1| |];
    intros s cs k k' Hk; cbn [exec].
  - destruct q as [| |n].
    + destruct s as [|c s]; cbn [Str.toLowerCase]; [reflexivity|].
      rewrite accepts_lower. destruct (accepts true neg cls c);
        [apply Hk | reflexivity].
    + apply plus_lower; [apply accepts_lower | intros; apply Hk].
    + apply exactly_lower; [apply accepts_lower | intros; apply Hk].
  - rewrite strip_lower. destruct (strip true l s); [apply Hk | reflexivity].
  - apply IH1. intros s1 cs1. now apply IH2.
  - rewrite (IH1 s cs k k' Hk).
    destruct (exec true input r1 s cs k); [reflexivity | apply Hk].
  - apply IH1. intros s' cs'.
    rewrite !toLowerCase_length, substring_lower.
    exact (Hk s' ((i, substring 0 (String.length s - String.length s') s)
                    :: cs')).
  - rewrite !toLowerCase_length.
    destruct (String.length s =? String.length input); [apply Hk | reflexivity].
  - destruct s as [|c s]; cbn [Str.toLowerCase]; [apply (Hk ""%string) | reflexivity].
Qed.

Lemma search_lower (r : regex) (input s : string) :
  search true r (Str.toLowerCase input) (Str.toLowerCase s)
  = option_map lower_captures (search true r input s).
Proof.
  assert (Hat : forall t,
             exec_at true r (Str.toLowerCase input) (Str.toLowerCase t)
             = option_map lower_captures (exec_at true r input t)).
  { intros t. unfold exec_at.
    exact (exec_lower input r t [] (fun _ cs => Some cs)
                      (fun _ cs => Some cs) (fun _ _ => eq_refl)). }
  induction s as [|c s IH].
  - specialize (Hat ""%string). cbn [Str.toLowerCase] in Hat.
    cbn [search Str.toLowerCase]. rewrite Hat.
    now destruct (exec_at true r input "").
  - specialize (Hat (String c s)). cbn [Str.toLowerCase] in Hat.
    cbn [search Str.toLowerCase]. rewrite Hat.
    destruct (exec_at true r input (String c s)); [reflexivity | exact IH].
Qed.

Lemma match_lower (r : regex) (s : string) :
  match_ true r (Str.toLowerCase s)
  = option_map lower_captures (match_ true r s).
Proof. apply search_lower. Qed.

Lemma capture_lower (i : nat) (cs : captures) :
  capture i (lower_captures cs)
  = option_map Str.toLowerCase (capture i cs).
Proof.
  induction cs as [|[j t] cs IH]; cbn; [reflexivity|].
  destruct (i =? j); [reflexivity | exact IH].
Qed.

Lemma group_lower (i : nat) (cs : captures) :
  group i (lower_captures cs) = Str.toLowerCase (group i cs).
Proof. unfold group. rewrite capture_lower. now destruct (capture i cs). Qed.

Lemma has_group_lower (i : nat) (cs : captures) :
  has_group i (lower_captures cs) = has_group i cs.
Proof.
  unfold has_group. rewrite capture_lower.
  destruct (capture i cs); [apply truthy_lower | reflexivity].
Qed.

Lemma isDigit_lower (c : ascii) : Str.isDigit (Str.lowerChar c) = Str.isDigit c.
Proof.
  apply eqb_prop. revert c. apply for_all_ascii. vm_compute. reflexivity.
Qed.

Lemma digits_lower (s : string) :
  Str.forallb Str.isDigit (Str.toLowerCase s) = Str.forallb Str.isDigit s.
Proof.
  induction s as [|c s IH]; simpl; [reflexivity|].
  now rewrite isDigit_lower, IH.
Qed.

Lemma digits_fixed (s : string) :
  Str.forallb Str.isDigit s = true -> Str.toLowerCase s = s.
Proof.
  induction s as [|c s IH]; simpl; [reflexivity|].
  intros H. apply andb_prop in H as [Hc Hs]. rewrite (IH Hs). f_equal.
  assert (G : forall c, implb (Str.isDigit c)
                              (Ascii.eqb (Str.lowerChar c) c) = true)
    by (apply for_all_ascii; vm_compute; reflexivity).
  specialize (G c). rewrite Hc in G. now apply Ascii.eqb_eq.
Qed.

End CaseFacts.

(** ** The resolver *)

Module ResolverMore.
Import StrFacts RegExpFacts EmailFacts ResolverFacts CaseFacts.

Lemma forallb_substring (p : ascii -> bool) (n m : nat) (s : string) :
  Str.forallb p s = true -> Str.forallb p (substring n m s) = true.
Proof.
  revert n m. induction s as [|c s IH]; intros [|n] [|m] H; simpl in *;
    try reflexivity; apply andb_prop in H as [Hc Hs].
  - now rewrite Hc, IH.
  - now apply IH.
  - now apply IH.
Qed.

Lemma length_substring (n m : nat) (s : string) :
  n + m <= String.length s -> String.length (substring n m s) = m.
Proof.
  revert n m. induction s as [|c s IH]; intros [|n] [|m] H; simpl in *;
    try reflexivity; try lia.
  - now rewrite IH by lia.
  - apply IH. lia.
  - apply IH. lia.
Qed.

(** The listed faculties have a name. *)
Lemma listed_name (key faculty : string) :
  Obj.own (subdomains cairo_university) key = Some faculty ->
  faculty <> ""%string.
Proof.
  intros H Hf. subst faculty. revert H.
  unfold cairo_university. cbn [subdomains Obj.own].
  repeat match goal with
         | |- context [String.eqb ?a key] =>
             destruct (String.eqb a key); [discriminate|]
         end.
  discriminate.
Qed.

(** What a successful resolution looks like. *)
Lemma resolve_role_inr (local : string) (marker : option string)
      (faculty : Faculty) (ed : EmailData) :
  resolve_role local marker faculty = inr ed ->
  ed_university ed = "Cairo University"%string
  /\ ed_faculty ed = faculty
  /\ match marker with
     | Some _ =>
         ed_role ed = student
         /\ exists sid, ed_studentId ed = Some sid
                        /\ String.length sid = 7
                        /\ Str.forallb Str.isDigit sid = true
     | None => ed_role ed = instructor /\ ed_studentId ed = None
     end.
Proof.
  unfold resolve_role. destruct marker as [t|].
  - destruct ((String.length local =? 9) && Str.forallb Str.isDigit local)
      eqn:H9.
    { apply andb_prop in H9 as [Hl Hd]. apply Nat.eqb_eq in Hl.
      intros [= <-]. cbn. repeat split.
      exists (Str.substr local 2 7). repeat split.
      - unfold Str.substr. apply length_substring. lia.
      - now apply forallb_substring. }
    destruct ((String.length local =? 7) && Str.forallb Str.isDigit local)
      eqn:H7; [|discriminate].
    apply andb_prop in H7 as [Hl Hd]. apply Nat.eqb_eq in Hl.
    intros [= <-]. cbn. repeat split. now exists local.
  - intros [= <-]. cbn. now repeat split.
Qed.

Lemma extract_inr (email : string) (ed : EmailData) :
  extractUserDataFromEmail email = inr ed ->
  exists local marker sub dom,
    shaped email local marker sub dom
    /\ ((exists f, Obj.own (subdomains cairo_university) (Str.toLowerCase sub)
                   = Some f /\ ed_faculty ed = FacultyName f)
        \/ (Obj.own (subdomains cairo_university) (Str.toLowerCase sub) = None
            /\ Obj.in_prototype (Str.toLowerCase sub) = true
            /\ ed_faculty ed = ProtoMember (Str.toLowerCase sub)))
    /\ resolve_role local marker (ed_faculty ed) = inr ed.
Proof.
  intros H.
  destruct (match_ true re_email email) as [m|] eqn:Hm.
  - apply email_match_sound in Hm as (local & marker & sub & dom & Hs & _).
    exists local, marker, sub, dom. split; [exact Hs|].
    rewrite (extract_shaped _ _ _ _ _ Hs) in H. unfold Obj.get in H.
    destruct (Obj.own (subdomains cairo_university) (Str.toLowerCase sub))
      as [f|] eqn:Hown.
    + destruct (resolve_role_inr _ _ _ _ H) as (_ & Hf & _).
      rewrite Hf. split; [left; now exists f | exact H].
    + destruct (Obj.in_prototype (Str.toLowerCase sub)) eqn:Hp;
        [|discriminate].
      destruct (resolve_role_inr _ _ _ _ H) as (_ & Hf & _).
      rewrite Hf. split; [right; now repeat split | exact H].
  - unfold extractUserDataFromEmail in H. rewrite Hm in H. discriminate.
Qed.

(** The resolver does not look at the case of the address. *)
Lemma extract_lower (email : string) :
  extractUserDataFromEmail (Str.toLowerCase email)
  = extractUserDataFromEmail email.
Proof.
  unfold extractUserDataFromEmail. rewrite match_lower.
  destruct (match_ true re_email email) as [m|]; [|reflexivity].
  cbn [option_map]. rewrite !group_lower, has_group_lower, !toLowerCase_idem.
  destruct (Obj.get Universities (Str.toLowerCase (group 4 m)));
    try reflexivity.
  rewrite !test_digits, toLowerCase_length, digits_lower.
  assert (Hfix : Str.forallb Str.isDigit (group 1 m) = true ->
                 Str.toLowerCase (group 1 m) = group 1 m)
    by apply digits_fixed.
  destruct (Obj.get (subdomains v) (Str.toLowerCase (group 3 m)));
    try reflexivity;
    destruct (has_group 2 m); try reflexivity;
    destruct (Str.forallb Str.isDigit (group 1 m));
    rewrite ?andb_false_r, ?andb_true_r; try reflexivity;
    now rewrite Hfix.
Qed.

End ResolverMore.

(** ** Registration *)

Module RegisterMore.
Import StrFacts RegExpFacts EmailFacts ResolverFacts CaseFacts ResolverMore
       LoginFacts VerifyFacts RegisterFacts.

Lemma truthy_nonempty (s : string) : Str.truthy s = true <-> s <> ""%string.
Proof. destruct s; simpl; split; congruence. Qed.

Lemma falsy_nonempty (x : option string) :
  falsy x = false <-> str x <> ""%string.
Proof.
  unfold falsy. rewrite negb_false_iff. apply truthy_nonempty.
Qed.

Lemma lower_nonempty (s : string) :
  s <> ""%string -> Str.toLowerCase s <> ""%string.
Proof. destruct s; simpl; congruence. Qed.

(** A rejected insert leaves the world alone. *)
Lemma create_failed (env : Env) (p : UserPayload) (w w1 : World)
      (e : JsError) :
  User_create env p w = (inl e, w1) -> w1 = w.
Proof.
  unfold User_create, call. destruct (rejects env OpCreate).
  { now intros [= _ <-]. }
  cbv zeta.
  destruct (match p_college p with
            | FacultyName s => inr s
            | ProtoMember key => _
            end) as [castMessage|college].
  { now intros [= _ <-]. }
  destruct (required_failures _ _ _ _ ++ required _ college).
  2: now intros [= _ <-].
  unfold bind, get_users, put_users, ret, throw. cbn beta iota.
  repeat match goal with
         | |- context [if ?b then _ else _] => destruct b
         end; try (now intros [= _ <-]); discriminate.
Qed.

(** The insert of a validated registration that the schema accepts, into
    a collection where its keys are vacant. *)
Lemma create_registration (env : Env) (body : RegisterBody) (w : World)
      (emailData : EmailData) :
  validated body emailData -> storable env body emailData ->
  vacant env body emailData w ->
  User_create env (registration_payload env body emailData) w
  = (inr (created env body emailData),
     with_users w (users w ++ [created env body emailData])).
Proof.
  intros (_ & He & _ & _ & _ & _ & Hext) (Hr & Hname & Hhash & f & Hf)
         (Hid & Hem & Hsid).
  destruct (extract_inr _ _ Hext)
    as (local & marker & sub & dom & _ & Hfac & Hrole).
  destruct (resolve_role_inr _ _ _ _ Hrole) as (Huni & _ & _).
  assert (Hfne : f <> ""%string).
  { destruct Hfac as [(f' & Hown & Hf') | (_ & _ & Hf')];
      rewrite Hf in Hf'; [|discriminate].
    injection Hf' as ->. exact (listed_name _ _ Hown). }
  unfold User_create, call. rewrite Hr.
  unfold created. cbn [registration_payload p_college p_fullName p_email
                         p_password p_university p_isEmailVerified p_role
                         p_studentId].
  rewrite Hf, toLowerCase_idem.
  unfold required_failures, required. cbv zeta.
  rewrite (proj2 (truthy_nonempty _) Hname), (proj2 (truthy_nonempty _) Hhash),
    (proj2 (truthy_nonempty _) Hfne), Huni.
  rewrite (proj2 (truthy_nonempty _)
                 (lower_nonempty _ (proj1 (falsy_nonempty _) He))).
  cbn [Str.truthy app].
  unfold bind, get_users, put_users, ret, throw. cbn beta iota. cbn [_id].
  rewrite Hid, Hem.
  cbn [registration_payload p_studentId] in Hsid.
  destruct (match ed_role emailData with
            | student =>
                match ed_studentId emailData with
                | Some s => if Str.truthy s then Some s else None
                | None => None
                end
            | instructor => None
            end) as [s|]; [rewrite Hsid|]; reflexivity.
Qed.

Section Register.
Variables (env : Env) (body : RegisterBody) (w : World)
          (emailData : EmailData).
Hypothesis valid : validated body emailData.
Hypothesis salted : rejects env OpGenSalt = None.
Hypothesis hashed : rejects env OpHash = None.
Hypothesis accepted : storable env body emailData.

Lemma register_succeeds :
  vacant env body emailData w ->
  post_register env body w
  = (inr (registration_success (created env body emailData)),
     registered env body emailData (created env body emailData) w).
Proof.
  intros Hv.
  rewrite (register_created env body w emailData valid salted hashed _ _
             (create_registration env body w emailData valid accepted Hv)).
  unfold registered. now destruct (rejects env OpSendMail).
Qed.

Lemma register_taken_email :
  List.existsb (by_id (newObjectId env)) (users w) = false ->
  List.existsb (by_email (Str.toLowerCase (str (rb_email body)))) (users w)
  = true ->
  post_register env body w
  = (inr (duplicate_entry (Some "email"%string)),
     with_line w "[ERROR] Registration process failed:"
               "E11000 duplicate key error").
Proof.
  intros Hid Hem.
  apply (register_duplicate env body w emailData valid salted hashed
                            "email" [] "E11000 duplicate key error" w).
  destruct valid as (_ & He & _ & _ & _ & _ & Hext).
  destruct accepted as (Hr & Hname & Hhash & f & Hf).
  destruct (extract_inr _ _ Hext)
    as (local & marker & sub & dom & _ & Hfac & Hrole).
  destruct (resolve_role_inr _ _ _ _ Hrole) as (Huni & _ & _).
  assert (Hfne : f <> ""%string).
  { destruct Hfac as [(f' & Hown & Hf') | (_ & _ & Hf')];
      rewrite Hf in Hf'; [|discriminate].
    injection Hf' as ->. exact (listed_name _ _ Hown). }
  unfold User_create, call. rewrite Hr.
  cbn [registration_payload p_college p_fullName p_email
         p_password p_university p_isEmailVerified p_role p_studentId].
  rewrite Hf, toLowerCase_idem. unfold required_failures, required. cbv zeta.
  rewrite (proj2 (truthy_nonempty _) Hname), (proj2 (truthy_nonempty _) Hhash),
    (proj2 (truthy_nonempty _) Hfne), Huni.
  rewrite (proj2 (truthy_nonempty _)
                 (lower_nonempty _ (proj1 (falsy_nonempty _) He))).
  cbn [Str.truthy app].
  unfold bind, get_users, put_users, ret, throw. cbn beta iota. cbn [_id].
  now rewrite Hid, Hem.
Qed.

Lemma register_taken_studentId (sid : string) :
  List.existsb (by_id (newObjectId env)) (users w) = false ->
  List.existsb (by_email (Str.toLowerCase (str (rb_email body)))) (users w)
  = false ->
  ed_studentId emailData = Some sid ->
  List.existsb (by_studentId sid) (users w) = true ->
  post_register env body w
  = (inr (duplicate_entry (Some "studentId"%string)),
     with_line w "[ERROR] Registration process failed:"
               "E11000 duplicate key error").
Proof.
  intros Hid Hem Hsid Hex.
  apply (register_duplicate env body w emailData valid salted hashed
                            "studentId" [] "E11000 duplicate key error" w).
  destruct valid as (_ & He & _ & _ & _ & _ & Hext).
  destruct accepted as (Hr & Hname & Hhash & f & Hf).
  destruct (extract_inr _ _ Hext)
    as (local & marker & sub & dom & _ & Hfac & Hrole).
  destruct (resolve_role_inr _ _ _ _ Hrole) as (Huni & _ & Hm).
  assert (Hfne : f <> ""%string).
  { destruct Hfac as [(f' & Hown & Hf') | (_ & _ & Hf')];
      rewrite Hf in Hf'; [|discriminate].
    injection Hf' as ->. exact (listed_name _ _ Hown). }
  assert (Hpay : p_studentId (registration_payload env body emailData)
                 = Some sid).
  { cbn [registration_payload p_studentId]. rewrite Hsid.
    destruct marker as [t|].
    - destruct Hm as (-> & s' & Hs' & Hlen & _).
      rewrite Hsid in Hs'. injection Hs' as <-.
      destruct sid; [discriminate Hlen | reflexivity].
    - destruct Hm as (_ & Hnone). congruence. }
  unfold User_create, call. rewrite Hr. rewrite Hpay.
  cbn [registration_payload p_college p_fullName p_email
         p_password p_university p_isEmailVerified p_role].
  rewrite Hf, toLowerCase_idem. unfold required_failures, required. cbv zeta.
  rewrite (proj2 (truthy_nonempty _) Hname), (proj2 (truthy_nonempty _) Hhash),
    (proj2 (truthy_nonempty _) Hfne), Huni.
  rewrite (proj2 (truthy_nonempty _)
                 (lower_nonempty _ (proj1 (falsy_nonempty _) He))).
  cbn [Str.truthy app].
  unfold bind, get_users, put_users, ret, throw. cbn beta iota. cbn [_id].
  now rewrite Hid, Hem, Hex.
Qed.
End Register.

End RegisterMore.

Module RegisterOutcome.
Import StrFacts RegExpFacts EmailFacts ResolverFacts CaseFacts ResolverMore
       LoginFacts VerifyFacts RegisterFacts RegisterMore.

(** The [catch] of the route answers, logs, and does not report success. *)
Lemma register_failed_outcome (e : JsError) (w : World) :
  exists r,
    register_failed e w
    = (inr r, with_line w "[ERROR] Registration process failed:"
                        (err_message e))
    /\ forall u, r <> registration_success u.
Proof.
  unfold register_failed, bind, console_error, ret, with_line.
  destruct e as [m|m|c kp m|ms m]; cbn beta iota.
  - eexists. split; [reflexivity | discriminate].
  - eexists. split; [reflexivity | discriminate].
  - destruct (Z.eq_dec c 11000) as [->|Hc].
    + eexists. split; [reflexivity | discriminate].
    + assert (H : forall A (x y : A),
                 match c with 11000%Z => x | _ => y end = y).
      { intros A x y. destruct c as [|p|p]; try reflexivity.
        repeat (destruct p as [p|p|]; try reflexivity). now destruct Hc. }
      rewrite H. eexists. split; [reflexivity | discriminate].
  - eexists. split; [reflexivity | discriminate].
Qed.

(** What the schema makes of the payload. *)
Lemma create_doc (env : Env) (p : UserPayload) (w w1 : World) (doc : User) :
  User_create env p w = (inr doc, w1) ->
  _id doc = newObjectId env
  /\ fullName doc = Str.trim (p_fullName p)
  /\ email doc = Str.toLowerCase (p_email p)
  /\ studentId doc = p_studentId p
  /\ password doc = p_password p
  /\ role doc = p_role p
  /\ university doc = p_university p
  /\ List.existsb (by_id (newObjectId env)) (users w) = false
  /\ List.existsb (by_email (Str.toLowerCase (p_email p))) (users w) = false
  /\ match p_studentId p with
     | Some s => List.existsb (by_studentId s) (users w) = false
     | None => True
     end.
Proof.
  unfold User_create, call. destruct (rejects env OpCreate); [discriminate|].
  unfold User_validation_failed. cbv zeta.
  destruct (match p_college p with
            | FacultyName s => inr s
            | ProtoMember key => _
            end) as [castMessage|college]; [discriminate|].
  destruct (required_failures _ _ _ _ ++ required _ college);
    [|discriminate].
  unfold bind, get_users, put_users, ret, throw. cbn beta iota. cbn [_id].
  destruct (List.existsb (by_id (newObjectId env)) (users w));
    [discriminate|].
  destruct (List.existsb (by_email _) (users w)); [discriminate|].
  destruct (p_studentId p) as [sid|].
  - destruct (List.existsb (by_studentId sid) (users w)); [discriminate|].
    intros [= <- _]. now repeat split.
  - intros [= <- _]. now repeat split.
Qed.

End RegisterOutcome.


Module TrimFacts.
Import StrFacts.

Lemma rev_acc_app (s acc : string) :
  Str.rev_acc s acc = (Str.rev_acc s "" ++ acc)%string.
Proof.
  revert acc. induction s as [|c s IH]; intros acc; simpl; [reflexivity|].
  rewrite (IH (String c acc)), (IH (String c "")).
  now rewrite app_assoc.
Qed.

Lemma rev_cons (c : ascii) (s : string) :
  Str.rev (String c s) = (Str.rev s ++ String c "")%string.
Proof. unfold Str.rev. simpl. apply rev_acc_app. Qed.

Lemma rev_app (a b : string) :
  Str.rev (a ++ b) = (Str.rev b ++ Str.rev a)%string.
Proof.
  induction a as [|c a IH]; simpl.
  - now rewrite app_nil_r.
  - now rewrite !rev_cons, IH, app_assoc.
Qed.

Lemma rev_rev (s : string) : Str.rev (Str.rev s) = s.
Proof.
  induction s as [|c s IH]; [reflexivity|].
  now rewrite rev_cons, rev_app, IH.
Qed.

(** Leading white space is taken from what precedes a text that starts
    with another character. *)
Lemma trimStart_before (x : string) (c : ascii) (y : string) :
  Str.isSpace c = false ->
  exists x', Str.trimStart (x ++ String c y) = (x' ++ String c y)%string.
Proof.
  intros Hc. induction x as [|d x IH]; simpl.
  - rewrite Hc. now exists ""%string.
  - destruct (Str.isSpace d); [exact IH | now exists (String d x)].
Qed.

(** [trim] keeps a prefix of three characters that are not white space. *)
Lemma trim_keeps (a b c : ascii) (t : string) :
  Str.isSpace a = false -> Str.isSpace c = false ->
  exists t', Str.trim (String a (String b (String c t)))
             = String a (String b (String c t')).
Proof.
  intros Ha Hc. unfold Str.trim. cbn [Str.trimStart]. rewrite Ha.
  change (String a (String b (String c t)))
    with ((String a (String b "")) ++ String c t)%string.
  rewrite rev_app, rev_cons.
  rewrite app_assoc.
  destruct (trimStart_before (Str.rev t) c
                             ("" ++ Str.rev (String a (String b "")))%string Hc)
    as (x' & Hx).
  change (String c "" ++ Str.rev (String a (String b "")))%string
    with (String c ("" ++ Str.rev (String a (String b ""))))%string.
  rewrite Hx, rev_app.
  change (String c ("" ++ Str.rev (String a (String b ""))))%string
    with (String c "" ++ Str.rev (String a (String b "")))%string.
  rewrite rev_app, rev_rev. cbn. now exists (Str.rev x').
Qed.

Lemma starts_dr_chars (s : string) :
  Str.startsWith "dr." (Str.toLowerCase s) = true ->
  exists a b c t, s = String a (String b (String c t))
                  /\ Str.isSpace a = false /\ Str.isSpace c = false.
Proof.
  assert (G : forall x y, implb (Ascii.eqb x (Str.lowerChar y))
                                (implb (negb (Str.isSpace x))
                                       (negb (Str.isSpace y))) = true)
    by (apply for_all_ascii2; vm_compute; reflexivity).
  destruct s as [|a [|b [|c t]]]; cbn [Str.startsWith Str.toLowerCase];
    try discriminate; try (rewrite ?andb_false_r; discriminate).
  intros H. apply andb_prop in H as [Ha H]. apply andb_prop in H as [_ H].
  apply andb_prop in H as [Hc _].
  exists a, b, c, t. split; [reflexivity|].
  pose proof (G "d"%char a) as Ga. pose proof (G "."%char c) as Gc.
  rewrite Ha in Ga. rewrite Hc in Gc. cbn in Ga, Gc.
  split; now apply negb_true_iff.
Qed.

(** A name that starts with the title still starts with it once trimmed. *)
Lemma trim_title (s : string) :
  Str.startsWith "dr." (Str.toLowerCase s) = true ->
  Str.startsWith "dr." (Str.toLowerCase (Str.trim s)) = true.
Proof.
  intros H. destruct (starts_dr_chars s H) as (a & b & c & t & -> & Ha & Hc).
  destruct (trim_keeps a b c t Ha Hc) as (t' & ->).
  cbn [Str.startsWith Str.toLowerCase] in H |- *.
  rewrite !andb_true_iff in *. tauto.
Qed.

Lemma trimStart_blank (s : string) :
  Str.forallb Str.isSpace s = true -> Str.trimStart s = ""%string.
Proof.
  induction s as [|c s IH]; simpl; [reflexivity|].
  intros H. apply andb_prop in H as [Hc Hs]. rewrite Hc. now apply IH.
Qed.

(** A string of white space is trimmed to nothing. *)
Lemma trim_blank (s : string) :
  Str.forallb Str.isSpace s = true -> Str.trim s = ""%string.
Proof.
  intros H. unfold Str.trim. now rewrite (trimStart_blank s H).
Qed.

Lemma trimStart_fixed (s : string) :
  Str.trimStart (Str.trimStart s) = Str.trimStart s.
Proof.
  induction s as [|c s IH]; simpl; [reflexivity|].
  destruct (Str.isSpace c) eqn:Hc; [exact IH | simpl; now rewrite Hc].
Qed.

End TrimFacts.

Module RegisterCases.
Import StrFacts RegExpFacts EmailFacts ResolverFacts CaseFacts ResolverMore
       LoginFacts VerifyFacts RegisterFacts RegisterMore RegisterOutcome.

(** The two ways a registration can end: with the insert of a validated
    request done, or without a success and without a change. *)
Lemma register_cases (env : Env) (body : RegisterBody) (w : World) :
  (exists emailData u w1,
      validated body emailData
      /\ User_create env (registration_payload env body emailData) w
         = (inr u, w1)
      /\ fst (post_register env body w) = inr (registration_success u)
      /\ users (snd (post_register env body w)) = users w ++ [u])
  \/ ((exists response,
          fst (post_register env body w) = inr response
          /\ forall u, response <> registration_success u)
      /\ users (snd (post_register env body w)) = users w
      /\ outbox (snd (post_register env body w)) = outbox w).
Proof.
  assert (Hfail : forall e,
             (exists response,
                 fst (register_failed e w) = inr response
                 /\ forall u, response <> registration_success u)
             /\ users (snd (register_failed e w)) = users w
             /\ outbox (snd (register_failed e w)) = outbox w).
  { intros e. destruct (register_failed_outcome e w) as (r & -> & Hr).
    split; [now exists r | now split]. }
  destruct (falsy (rb_fullName body) || falsy (rb_email body)
            || falsy (rb_password body) || falsy (rb_confirmPassword body))
    eqn:Hfields.
  { right. unfold post_register, try_catch, ret. rewrite Hfields. cbn.
    split; [eexists; split; [reflexivity | discriminate] | now split]. }
  destruct (String.eqb (str (rb_password body)) (str (rb_confirmPassword body)))
    eqn:Hpw.
  2: { right. unfold post_register, try_catch, ret. rewrite Hfields, Hpw. cbn.
       split; [eexists; split; [reflexivity | discriminate] | now split]. }
  destruct (isStrong (validatePasswordStrength (str (rb_password body))))
    eqn:Hstrong.
  2: { right. unfold post_register, try_catch, ret.
       rewrite Hfields, Hpw, Hstrong. cbn.
       split; [eexists; split; [reflexivity | discriminate] | now split]. }
  destruct (extractUserDataFromEmail (Str.toLowerCase (str (rb_email body))))
    as [e|emailData] eqn:Hext.
  { right. unfold post_register, try_catch, ret.
    rewrite Hfields, Hpw, Hstrong, Hext. cbn.
    split; [eexists; split; [reflexivity | discriminate] | now split]. }
  destruct (rejects env OpGenSalt) as [e|] eqn:Hsalt.
  { right. unfold post_register, try_catch, bind, bcrypt_genSalt, call, throw.
    rewrite Hfields, Hpw, Hstrong, Hext, Hsalt. cbn beta iota.
    apply Hfail. }
  destruct (rejects env OpHash) as [e|] eqn:Hhash.
  { right. unfold post_register, try_catch, bind, bcrypt_genSalt, bcrypt_hash,
      call, throw, ret.
    rewrite Hfields, Hpw, Hstrong, Hext, Hsalt, Hhash. cbn beta iota.
    apply Hfail. }
  assert (Hvalid : validated body emailData).
  { apply orb_false_elim in Hfields as [Hfields H4].
    apply orb_false_elim in Hfields as [Hfields H3].
    apply orb_false_elim in Hfields as [H1 H2].
    apply String.eqb_eq in Hpw. now repeat split. }
  destruct (User_create env (registration_payload env body emailData) w)
    as [[e|u] w1] eqn:Hcreate.
  - right. rewrite (register_validated env body w emailData Hvalid Hsalt Hhash).
    unfold try_catch, bind. rewrite Hcreate.
    rewrite (create_failed _ _ _ _ _ Hcreate). apply Hfail.
  - left. exists emailData, u, w1.
    rewrite (register_created env body w emailData Hvalid Hsalt Hhash
                              u w1 Hcreate).
    destruct (create_inserted _ _ _ _ _ Hcreate) as (Hw1 & Hflag & Hat).
    cbn [fst snd]. split; [exact Hvalid | split; [exact Hcreate|]].
    split; [reflexivity|]. rewrite Hw1.
    now destruct (rejects env OpSendMail).
Qed.

End RegisterCases.

(** ** The collection *)

Module StoreFacts.
Import StrFacts VerifyFacts.

Lemma by_id_eq (i : ObjectId) (x : User) : by_id i x = true <-> _id x = i.
Proof. unfold by_id. apply oid_eqb_eq. Qed.

Lemma existsb_by_id (i : ObjectId) (us : list User) :
  List.existsb (by_id i) us = false <-> ~ In i (List.map _id us).
Proof.
  rewrite <- not_true_iff_false, existsb_exists, in_map_iff.
  split; intros H (x & Hx1 & Hx2); apply H; exists x.
  - split; [assumption | now apply by_id_eq].
  - split; [now apply by_id_eq | assumption].
Qed.

Lemma existsb_by_email (e : string) (us : list User) :
  List.existsb (by_email e) us = false <-> ~ In e (List.map email us).
Proof.
  rewrite <- not_true_iff_false, existsb_exists, in_map_iff.
  unfold by_email.
  split; intros H (x & Hx1 & Hx2); apply H; exists x.
  - split; [assumption | now apply String.eqb_eq].
  - split; [now apply String.eqb_eq | assumption].
Qed.

Lemma in_student_ids (s : string) (us : list User) :
  In s (student_ids us) <-> exists u, In u us /\ studentId u = Some s.
Proof.
  induction us as [|x us IH]; simpl.
  - split; [tauto | now intros (u & [] & _)].
  - destruct (studentId x) as [t|] eqn:Hx; simpl; rewrite IH; split.
    + intros [<- | (u & Hu & Hs)]; [now exists x; split; [left|]
                                    | exists u; split; [now right | exact Hs]].
    + intros (u & [<- | Hu] & Hs);
        [left; congruence | right; now exists u].
    + intros (u & Hu & Hs). exists u. split; [now right | exact Hs].
    + intros (u & [<- | Hu] & Hs); [congruence | now exists u].
Qed.

Lemma existsb_by_studentId (s : string) (us : list User) :
  List.existsb (by_studentId s) us = false <-> ~ In s (student_ids us).
Proof.
  rewrite <- not_true_iff_false, existsb_exists, in_student_ids.
  unfold by_studentId.
  split; intros H (x & Hx1 & Hx2); apply H; exists x.
  - split; [assumption|]. rewrite Hx2. apply String.eqb_refl.
  - split; [assumption|]. destruct (studentId x) as [t|]; [|discriminate].
    now apply String.eqb_eq in Hx2 as ->.
Qed.

Lemma student_ids_app (a b : list User) :
  student_ids (a ++ b) = student_ids a ++ student_ids b.
Proof.
  induction a as [|x a IH]; simpl; [reflexivity|].
  destruct (studentId x); simpl; now rewrite IH.
Qed.

Lemma NoDup_snoc (A : Type) (l : list A) (a : A) :
  NoDup l -> ~ In a l -> NoDup (l ++ [a]).
Proof.
  intros Hl Ha. induction Hl as [|x l Hx Hl IH]; simpl.
  - constructor; [tauto | constructor].
  - constructor.
    + rewrite in_app_iff. simpl. intros [H | [H | []]]; [tauto|].
      apply Ha. now left.
    + apply IH. intros H. apply Ha. now right.
Qed.

(** An insert that passed the unique indexes keeps the keys unique. *)
Lemma store_ok_insert (us : list User) (d : User) :
  store_ok us ->
  List.existsb (by_id (_id d)) us = false ->
  List.existsb (by_email (email d)) us = false ->
  match studentId d with
  | Some s => List.existsb (by_studentId s) us = false
  | None => True
  end ->
  Str.toLowerCase (email d) = email d ->
  store_ok (us ++ [d]).
Proof.
  intros (Hid & Hem & Hsid & Hlow) Hd1 Hd2 Hd3 Hd4. repeat split.
  - rewrite map_app. apply NoDup_snoc; [assumption|].
    now apply existsb_by_id.
  - rewrite map_app. apply NoDup_snoc; [assumption|].
    now apply existsb_by_email.
  - rewrite student_ids_app. simpl. destruct (studentId d) as [s|].
    + apply NoDup_snoc; [assumption | now apply existsb_by_studentId].
    + now rewrite List.app_nil_r.
  - apply Forall_app. split; [assumption | now constructor].
Qed.

Lemma student_ids_without (uid : ObjectId) (us : list User) (s : string) :
  In s (student_ids (without uid us)) -> In s (student_ids us).
Proof.
  rewrite !in_student_ids. intros (u & Hu & Hs). exists u.
  split; [|exact Hs]. unfold without in Hu. now apply filter_In in Hu.
Qed.

Lemma NoDup_student_ids_without (uid : ObjectId) (us : list User) :
  NoDup (student_ids us) -> NoDup (student_ids (without uid us)).
Proof.
  induction us as [|x us IH]; simpl; [constructor|].
  intros H. destruct (negb (by_id uid x)); simpl.
  - destruct (studentId x) as [s|].
    + inversion H as [|? ? Hs Hrest]; subst. constructor; [|now apply IH].
      intros Hin. apply Hs. now apply (student_ids_without uid).
    + now apply IH.
  - destruct (studentId x); [inversion H; subst|]; now apply IH.
Qed.

Lemma NoDup_map_filter (A B : Type) (f : A -> B) (p : A -> bool)
      (l : list A) :
  NoDup (List.map f l) -> NoDup (List.map f (List.filter p l)).
Proof.
  induction l as [|x l IH]; simpl; [constructor|].
  intros H. inversion H as [|? ? Hx Hl]; subst.
  destruct (p x); simpl; [|now apply IH].
  constructor; [|now apply IH].
  rewrite in_map_iff in *. intros (y & Hy & Hin). apply Hx. exists y.
  split; [assumption|]. now apply filter_In in Hin.
Qed.

(** A removal keeps the keys unique. *)
Lemma store_ok_without (uid : ObjectId) (us : list User) :
  store_ok us -> store_ok (without uid us).
Proof.
  intros (Hid & Hem & Hsid & Hlow). unfold without. repeat split.
  - now apply NoDup_map_filter.
  - now apply NoDup_map_filter.
  - now apply NoDup_student_ids_without.
  - rewrite Forall_forall in *. intros x Hx. apply Hlow.
    now apply filter_In in Hx.
Qed.

Lemma NoDup_map_inj (A B : Type) (f : A -> B) (l : list A) (x y : A) :
  NoDup (List.map f l) -> In x l -> In y l -> f x = f y -> x = y.
Proof.
  induction l as [|a l IH]; simpl; [tauto|].
  intros H. inversion H as [|? ? Ha Hl]; subst.
  intros [<- | Hx] [<- | Hy] Hf; try reflexivity.
  - destruct Ha. rewrite Hf. now apply in_map.
  - destruct Ha. rewrite <- Hf. now apply in_map.
  - now apply IH.
Qed.

(** The save of the verified flag changes one document, and no key. *)
Lemma saved_keys_of (v u : User) (us : list User) :
  email v = email u -> studentId v = studentId u ->
  (forall x, In x us -> by_id (_id v) x = true -> x = u) ->
  List.map _id (saved v us) = List.map _id us
  /\ List.map email (saved v us) = List.map email us
  /\ student_ids (saved v us) = student_ids us
  /\ (Forall (fun u => Str.toLowerCase (email u) = email u) us ->
      Forall (fun u => Str.toLowerCase (email u) = email u) (saved v us)).
Proof.
  intros Hem Hsid Hsame. unfold saved.
  induction us as [|x us IH]; cbn [List.map student_ids].
  { repeat split. intros _. constructor. }
  destruct IH as (I1 & I2 & I3 & I4).
  { intros y Hy. apply Hsame. now right. }
  destruct (by_id (_id v) x) eqn:Hb.
  - assert (Hx : x = u) by (apply Hsame; [now left | exact Hb]). subst x.
    apply by_id_eq in Hb. rewrite I1, I2, I3, Hem, Hsid, Hb.
    repeat split. intros H. inversion H; subst.
    constructor; [now rewrite Hem | now apply I4].
  - rewrite I1, I2, I3. repeat split. intros H. inversion H; subst.
    constructor; [assumption | now apply I4].
Qed.

Lemma saved_keys (env : Env) (u : User) (us : list User) :
  NoDup (List.map _id us) -> In u us ->
  List.map _id (saved (verified env u) us) = List.map _id us
  /\ List.map email (saved (verified env u) us) = List.map email us
  /\ student_ids (saved (verified env u) us) = student_ids us
  /\ (Forall (fun u => Str.toLowerCase (email u) = email u) us ->
      Forall (fun u => Str.toLowerCase (email u) = email u)
             (saved (verified env u) us)).
Proof.
  intros Hnd Hin. apply (saved_keys_of (verified env u) u us);
    try reflexivity.
  intros x Hx Hb. apply by_id_eq in Hb.
  exact (NoDup_map_inj _ _ _id us x u Hnd Hx Hin Hb).
Qed.

Lemma store_ok_saved (env : Env) (u : User) (us : list User) :
  store_ok us -> In u us -> store_ok (saved (verified env u) us).
Proof.
  intros (Hid & Hem & Hsid & Hlow) Hin.
  destruct (saved_keys env u us Hid Hin) as (H1 & H2 & H3 & H4).
  unfold store_ok. rewrite H1, H2, H3. now repeat split; auto.
Qed.

(** Lookups in a collection that grew by one document. *)
Lemma find_snoc_new (A : Type) (p : A -> bool) (l : list A) (a : A) :
  List.existsb p l = false -> p a = true -> List.find p (l ++ [a]) = Some a.
Proof.
  induction l as [|x l IH]; simpl; intros Hl Ha.
  - now rewrite Ha.
  - apply orb_false_elim in Hl as [Hx Hl]. rewrite Hx. now apply IH.
Qed.

Lemma saved_snoc (v u : User) (us : list User) :
  _id v = _id u -> List.existsb (by_id (_id u)) us = false ->
  saved v (us ++ [u]) = us ++ [v].
Proof.
  intros Hv Hfresh. unfold saved. rewrite Hv, map_app. simpl.
  unfold by_id at 2. rewrite oid_eqb_refl. f_equal.
  induction us as [|x us IH]; simpl; [reflexivity|].
  simpl in Hfresh. apply orb_false_elim in Hfresh as [Hx Hus].
  now rewrite Hx, IH.
Qed.

Lemma without_saved (v : User) (us : list User) :
  without (_id v) (saved v us) = without (_id v) us.
Proof.
  unfold without, saved. induction us as [|x us IH]; simpl; [reflexivity|].
  destruct (by_id (_id v) x) eqn:Hx; simpl.
  - unfold by_id at 1. rewrite oid_eqb_refl. simpl. exact IH.
  - rewrite Hx. simpl. now rewrite IH.
Qed.

Lemma without_without (uid : ObjectId) (us : list User) :
  without uid (without uid us) = without uid us.
Proof.
  unfold without. induction us as [|x us IH]; simpl; [reflexivity|].
  destruct (negb (by_id uid x)) eqn:Hx; simpl; [|exact IH].
  now rewrite Hx, IH.
Qed.

End StoreFacts.

(** ** More on the verification routes and on login *)

Module VerifyMore.
Import StrFacts LoginFacts VerifyFacts StoreFacts.

Section Verify.
Variables (env : Env) (uid : ObjectId) (w : World) (u : User).
Hypothesis lookup_answers : rejects env OpFindById = None.
Hypothesis found : List.find (by_id uid) (users w) = Some u.
Hypothesis pending : isEmailVerified u = false.
Hypothesis in_time : (ageMs env u <= maxAgeMs)%Z.

Lemma get_verify_in_time :
  rejects env OpSave = None -> rejects env OpSign = None ->
  get_verify_email env (Some uid) w
  = (inr (Redirect (dashboardUrl u) (sign env (_id u) (role u) (email u))
                   (session_user u)),
     with_users w (saved (verified env u) (users w))).
Proof.
  intros Hr Hs. destruct (find_by_id _ _ _ found) as [Hid _].
  unfold get_verify_email, User_findById, User_save, login_redirect, jwt_sign.
  run. rewrite lookup_answers. cbn beta iota. rewrite found, pending.
  rewrite (proj2 (Z.ltb_ge _ _) in_time), Hr, Hs. cbn beta iota.
  change (_id (verified env u)) with (_id u).
  rewrite Hid, (find_existsb _ _ _ _ found). rewrite <- Hid. reflexivity.
Qed.

Lemma post_verify_save_fails (e : JsError) :
  rejects env OpSave = Some e ->
  post_verify_email env (Some uid) w
  = (inr verify_500,
     with_line w "[ERROR] Email verification failed:" (err_message e)).
Proof.
  intros Hr. unfold post_verify_email, User_findById, User_save.
  run. rewrite lookup_answers. cbn beta iota. rewrite found, pending.
  now rewrite (proj2 (Z.ltb_ge _ _) in_time), Hr.
Qed.

Lemma get_verify_save_fails (e : JsError) :
  rejects env OpSave = Some e ->
  get_verify_email env (Some uid) w
  = (inr failed_page,
     with_line w "[ERROR] Direct email verification failed:" (err_message e)).
Proof.
  intros Hr. unfold get_verify_email, User_findById, User_save.
  run. rewrite lookup_answers. cbn beta iota. rewrite found, pending.
  now rewrite (proj2 (Z.ltb_ge _ _) in_time), Hr.
Qed.
End Verify.

(** What a verification can do to the collection: nothing, remove the
    account with the id, or save it verified. *)
Lemma post_verify_users (env : Env) (uid : ObjectId) (w : World) :
  let us' := users (snd (post_verify_email env (Some uid) w)) in
  us' = users w
  \/ (exists u, List.find (by_id uid) (users w) = Some u
                /\ isEmailVerified u = false
                /\ (us' = without uid (users w)
                    \/ us' = saved (verified env u) (users w))).
Proof.
  unfold post_verify_email, User_findById, remove_expired, User_deleteOne,
    User_save. run.
  destruct (rejects env OpFindById); [now left|]. cbn beta iota.
  destruct (List.find (by_id uid) (users w)) as [u|] eqn:Hf; [|now left].
  destruct (find_by_id _ _ _ Hf) as [Hid _].
  destruct (isEmailVerified u) eqn:Hv; [now left|].
  destruct (maxAgeMs <? ageMs env u)%Z.
  - destruct (rejects env OpDeleteOne); [now left|]. cbn beta iota.
    right. exists u. rewrite Hid.
    split; [reflexivity | split; [exact Hv | now left]].
  - destruct (rejects env OpSave); [now left|]. cbn beta iota.
    change (_id (verified env u)) with (_id u).
    rewrite Hid, (find_existsb _ _ _ _ Hf). cbn beta iota.
    right. exists u. split; [reflexivity | split; [exact Hv | right]].
    unfold saved. change (_id (verified env u)) with (_id u). now rewrite Hid.
Qed.

Lemma get_verify_users (env : Env) (uid : ObjectId) (w : World) :
  let us' := users (snd (get_verify_email env (Some uid) w)) in
  us' = users w
  \/ (exists u, List.find (by_id uid) (users w) = Some u
                /\ isEmailVerified u = false
                /\ (us' = without uid (users w)
                    \/ us' = saved (verified env u) (users w))).
Proof.
  unfold get_verify_email, User_findById, remove_expired, User_deleteOne,
    User_save, login_redirect, jwt_sign. run.
  destruct (rejects env OpFindById); [now left|]. cbn beta iota.
  destruct (List.find (by_id uid) (users w)) as [u|] eqn:Hf; [|now left].
  destruct (find_by_id _ _ _ Hf) as [Hid _].
  destruct (isEmailVerified u) eqn:Hv.
  { destruct (rejects env OpSign); now left. }
  destruct (maxAgeMs <? ageMs env u)%Z.
  - destruct (rejects env OpDeleteOne); [now left|]. cbn beta iota.
    right. exists u. rewrite Hid.
    split; [reflexivity | split; [exact Hv | now left]].
  - destruct (rejects env OpSave); [now left|]. cbn beta iota.
    change (_id (verified env u)) with (_id u).
    rewrite Hid, (find_existsb _ _ _ _ Hf). cbn beta iota.
    assert (Hs : saved (verified env u) (users w)
                 = List.map (fun x => if by_id uid x then verified env u else x)
                            (users w)).
    { unfold saved. change (_id (verified env u)) with (_id u).
      now rewrite Hid. }
    destruct (rejects env OpSign); cbn beta iota;
      right; exists u;
      (split; [reflexivity | split; [exact Hv | right; now rewrite Hs]]).
Qed.

Lemma verification_frame_none (env : Env) (w : World) :
  True /\ True
  /\ users (snd (post_verify_email env None w)) = users w
  /\ users (snd (get_verify_email env None w)) = users w.
Proof. now repeat split. Qed.

(** ** Login *)

Lemma login_succeeds (env : Env) (body : LoginBody) (w : World) (u : User) :
  falsy (lb_email body) = false -> falsy (lb_password body) = false ->
  rejects env OpFindOne = None -> rejects env OpCompare = None ->
  rejects env OpSign = None ->
  List.find (by_email (Str.toLowerCase (str (lb_email body)))) (users w)
  = Some u ->
  isEmailVerified u = true ->
  compare env (str (lb_password body)) (password u) = true ->
  post_login env body w
  = (inr (login_success (sign env (_id u) (role u) (email u)) u), w).
Proof.
  intros He Hp Hr Hc Hs Hf Hv Hm.
  unfold post_login, User_findOne, bcrypt_compare, jwt_sign. run.
  rewrite He, Hp, Hr. cbn. rewrite Hf, Hv, Hc. cbn.
  rewrite Hm, Hs. reflexivity.
Qed.

End VerifyMore.

(** ** The middleware *)

Module AuthFacts.
Import StrFacts LoginFacts VerifyFacts StoreFacts.

Lemma split_on_pieces (sep : ascii) (s : string) :
  exists piece pieces, split_on sep s = piece :: pieces.
Proof.
  induction s as [|c s (p & ps & IH)]; simpl.
  - now exists ""%string, [].
  - destruct (Ascii.eqb c sep); [now eexists; eexists|].
    rewrite IH. now eexists; eexists.
Qed.

Lemma split_on_other (sep c : ascii) (s : string) :
  Ascii.eqb c sep = false ->
  split_on sep (String c s)
  = String c (List.hd ""%string (split_on sep s))
           :: List.tl (split_on sep s).
Proof.
  intros Hc. simpl. rewrite Hc.
  now destruct (split_on_pieces sep s) as (p & ps & ->).
Qed.

Lemma split_on_whole (sep : ascii) (s : string) :
  Str.forallb (fun c => negb (Ascii.eqb c sep)) s = true ->
  split_on sep s = [s].
Proof.
  induction s as [|c s IH]; simpl; [reflexivity|].
  intros H. apply andb_prop in H as [Hc Hs]. apply negb_true_iff in Hc.
  now rewrite Hc, (IH Hs).
Qed.

(** The token of a [Bearer] header: what follows, up to the next space. *)
Lemma bearer_token (t : string) (q : option string) :
  request_token {| authorization := Some ("Bearer " ++ t)%string;
                   query_token := q |}
  = Some (List.hd ""%string (split_on " " t)).
Proof.
  unfold request_token. cbn [authorization str].
  change (Str.startsWith "Bearer " ("Bearer " ++ t)) with true.
  cbn iota.
  change ("Bearer " ++ t)%string
    with (String "B" (String "e" (String "a" (String "r" (String "e"
            (String "r" (String " " t))))))).
  rewrite !split_on_other by reflexivity.
  cbn [split_on Ascii.eqb Bool.eqb List.hd List.tl List.nth_error].
  now destruct (split_on_pieces " " t) as (p & ps & ->).
Qed.

Lemma query_token_used (h : option string) (t : string) :
  Str.startsWith "Bearer " (str h) = false -> t <> ""%string ->
  request_token {| authorization := h; query_token := Some t |} = Some t.
Proof.
  intros Hh Ht. unfold request_token. cbn [authorization query_token].
  rewrite Hh. destruct t; [congruence | reflexivity].
Qed.

(** [authenticateToken], by the token of the request. *)
Lemma authenticate_by_token (env : Env)
      (jwt_verify : string -> JsError + ObjectId) (req req' : AuthRequest)
      (w : World) :
  request_token req = request_token req' ->
  authenticateToken env jwt_verify req w
  = authenticateToken env jwt_verify req' w.
Proof. intros H. unfold authenticateToken. now rewrite H. Qed.

Lemma authenticate_no_token (env : Env)
      (jwt_verify : string -> JsError + ObjectId) (req : AuthRequest)
      (w : World) :
  falsy (request_token req) = true ->
  authenticateToken env jwt_verify req w
  = (inr (inl (failure 401 "Authentication token required" "NO_TOKEN")), w).
Proof. intros H. unfold authenticateToken, try_catch, ret. now rewrite H. Qed.

Lemma authenticate_users (env : Env)
      (jwt_verify : string -> JsError + ObjectId) (req : AuthRequest)
      (w : World) :
  users (snd (authenticateToken env jwt_verify req w)) = users w
  /\ outbox (snd (authenticateToken env jwt_verify req w)) = outbox w.
Proof.
  unfold authenticateToken, User_findById. run.
  destruct (falsy (request_token req)); [now split|].
  destruct (jwt_verify _); [now split|].
  destruct (rejects env OpFindById); [now split|]. cbn beta iota.
  destruct (List.find _ (users w)); now split.
Qed.

(** When [next()] is called, the token names a stored account. *)
Lemma authenticate_passes (env : Env)
      (jwt_verify : string -> JsError + ObjectId) (req : AuthRequest)
      (w w' : World) (p : Principal) :
  authenticateToken env jwt_verify req w = (inr (inr p), w') ->
  w' = w
  /\ exists t u,
      request_token req = Some t /\ t <> ""%string
      /\ jwt_verify t = inr (_id u)
      /\ List.find (by_id (_id u)) (users w) = Some u
      /\ p = select_without_password u.
Proof.
  unfold authenticateToken, User_findById. run.
  destruct (request_token req) as [[|c t]|] eqn:Ht;
    [discriminate | | discriminate].
  change (falsy (Some (String c t))) with false. cbn iota.
  change (str (Some (String c t))) with (String c t).
  destruct (jwt_verify (String c t)) as [e|id] eqn:Hv; [discriminate|].
  destruct (rejects env OpFindById); [discriminate|]. cbn beta iota.
  destruct (List.find (by_id id) (users w)) as [u|] eqn:Hf; [|discriminate].
  intros [= <- <-]. split; [reflexivity|].
  destruct (find_by_id _ _ _ Hf) as [Hid _]. subst id.
  exists (String c t), u. repeat split; try assumption. discriminate.
Qed.

Lemma authenticate_found (env : Env)
      (jwt_verify : string -> JsError + ObjectId) (req : AuthRequest)
      (w : World) (t : string) (u : User) :
  rejects env OpFindById = None ->
  request_token req = Some t -> t <> ""%string ->
  jwt_verify t = inr (_id u) ->
  List.find (by_id (_id u)) (users w) = Some u ->
  authenticateToken env jwt_verify req w
  = (inr (inr (select_without_password u)), w).
Proof.
  intros Hr Ht Hne Hv Hf. unfold authenticateToken, User_findById. run.
  rewrite Ht. destruct t as [|c t]; [congruence|].
  change (falsy (Some (String c t))) with false. cbn iota.
  change (str (Some (String c t))) with (String c t).
  rewrite Hv, Hr. cbn beta iota. now rewrite Hf.
Qed.

Lemma find_own_id (u : User) (us : list User) :
  NoDup (List.map _id us) -> In u us ->
  List.find (by_id (_id u)) us = Some u.
Proof.
  intros Hnd Hin.
  destruct (List.find (by_id (_id u)) us) as [x|] eqn:Hf.
  - destruct (find_by_id _ _ _ Hf) as [Hid Hx].
    now rewrite (NoDup_map_inj _ _ _id us x u Hnd Hx Hin Hid).
  - apply find_none with (x := u) in Hf; [|exact Hin].
    unfold by_id in Hf. now rewrite oid_eqb_refl in Hf.
Qed.

Lemma me_found (env : Env) (jwt_verify : string -> JsError + ObjectId)
      (req : AuthRequest) (w : World) (t : string) (u : User) :
  rejects env OpFindById = None ->
  request_token req = Some t -> t <> ""%string ->
  jwt_verify t = inr (_id u) ->
  List.find (by_id (_id u)) (users w) = Some u ->
  get_me env jwt_verify req w = (inr (me_reply u), w).
Proof.
  intros Hr Ht Hne Hv Hf. unfold get_me, bind.
  rewrite (authenticate_found env jwt_verify req w t u Hr Ht Hne Hv Hf).
  unfold me_handler, User_findById. run. rewrite Hr. cbn beta iota.
  cbn [pr_id select_without_password]. now rewrite Hf.
Qed.

End AuthFacts.

Module DevFacts.
Import DevServer.

Lemma same_eq (a b : option string) : same a b = true <-> a = b.
Proof.
  destruct a as [x|], b as [y|]; simpl;
    try (split; [discriminate | discriminate]); [|tauto].
  rewrite String.eqb_eq. split; [now intros -> | now intros [= ->]].
Qed.

Lemma same_refl (a : option string) : same a a = true.
Proof. now apply same_eq. Qed.

Lemma stored_is_body (b : Account) :
  {| acc_fullName := acc_fullName b; acc_email := acc_email b;
     acc_password := acc_password b |} = b.
Proof. now destruct b. Qed.

(** What a signup request does to the array. *)
Lemma signup_users (body : Account) (users : list Account) :
  snd (signup body users)
  = match List.find (has_email (acc_email body)) users with
    | Some _ => users
    | None => users ++ [body]
    end.
Proof.
  unfold signup, has_email.
  destruct (List.find _ users); cbn [snd]; [reflexivity|].
  now rewrite stored_is_body.
Qed.

Lemma find_app (A : Type) (p : A -> bool) (l l' : list A) :
  List.find p (l ++ l')
  = match List.find p l with Some a => Some a | None => List.find p l' end.
Proof.
  induction l as [|a l IH]; simpl; [reflexivity|].
  now destruct (p a).
Qed.

Lemma find_email_none (e : option string) (users : list Account) :
  List.find (has_email e) users = None <->
  ~ In e (List.map acc_email users).
Proof.
  induction users as [|u us IH]; simpl; [tauto|].
  change (has_email e u) with (same (acc_email u) e).
  destruct (same (acc_email u) e) eqn:Hs.
  - apply same_eq in Hs. split; [discriminate | intros H; exfalso; tauto].
  - rewrite IH. assert (acc_email u <> e).
    { intros H. apply same_eq in H. congruence. }
    tauto.
Qed.

(** The first body with an address is the one that stays. *)
Lemma find_signups (bodies users : list Account) (e : option string) :
  List.find (has_email e) (signups bodies users)
  = match List.find (has_email e) users with
    | Some u => Some u
    | None => List.find (has_email e) bodies
    end.
Proof.
  revert users. induction bodies as [|b bs IH]; intros users.
  - simpl. now destruct (List.find _ users).
  - change (signups (b :: bs) users)
      with (signups bs (snd (signup b users))).
    rewrite IH, signup_users.
    destruct (List.find (has_email (acc_email b)) users) as [u0|] eqn:Hb.
    + destruct (List.find (has_email e) users) eqn:He; [reflexivity|].
      cbn [List.find]. change (has_email e b) with (same (acc_email b) e).
      destruct (same (acc_email b) e) eqn:Hs; [|reflexivity].
      apply same_eq in Hs. rewrite Hs in Hb. congruence.
    + rewrite find_app.
      destruct (List.find (has_email e) users); [reflexivity|].
      cbn [List.find]. now destruct (has_email e b).
Qed.

Lemma signups_NoDup (bodies users : list Account) :
  NoDup (List.map acc_email users) ->
  NoDup (List.map acc_email (signups bodies users)).
Proof.
  revert users. induction bodies as [|b bs IH]; intros users Hnd;
    [exact Hnd|].
  change (signups (b :: bs) users) with (signups bs (snd (signup b users))).
  apply IH. rewrite signup_users.
  destruct (List.find (has_email (acc_email b)) users) eqn:Hb; [exact Hnd|].
  apply find_email_none in Hb. rewrite List.map_app. cbn [List.map].
  now apply StoreFacts.NoDup_snoc.
Qed.

Lemma signups_In (bodies users : list Account) (u : Account) :
  In u (signups bodies users) -> In u users \/ In u bodies.
Proof.
  revert users. induction bodies as [|b bs IH]; intros users; [now left|].
  change (signups (b :: bs) users) with (signups bs (snd (signup b users))).
  intros H. apply IH in H. rewrite signup_users in H.
  destruct (List.find _ users); cbn [In].
  - tauto.
  - destruct H as [H|H]; [|tauto]. apply List.in_app_or in H.
    cbn [In] in H. tauto.
Qed.

Lemma signups_prefix (bodies users : list Account) :
  exists more, signups bodies users = users ++ more.
Proof.
  revert users. induction bodies as [|b bs IH]; intros users.
  - exists []. symmetry. apply List.app_nil_r.
  - change (signups (b :: bs) users) with (signups bs (snd (signup b users))).
    destruct (IH (snd (signup b users))) as (more & ->).
    rewrite signup_users. destruct (List.find _ users).
    + now exists more.
    + exists (b :: more). now rewrite <- List.app_assoc.
Qed.

(** With addresses that occur once, the account of a signin is the one
    with the address, if its password is the given one. *)
Lemma find_credentials (e p : option string) (users : list Account) :
  NoDup (List.map acc_email users) ->
  List.find (fun u => same (acc_email u) e && same (acc_password u) p) users
  = match List.find (has_email e) users with
    | Some u => if same (acc_password u) p then Some u else None
    | None => None
    end.
Proof.
  induction users as [|u us IH]; intros Hnd; [reflexivity|].
  cbn [List.map] in Hnd. inversion Hnd as [|x l Hnotin Hnd']; subst.
  cbn [List.find]. change (has_email e u) with (same (acc_email u) e).
  destruct (same (acc_email u) e) eqn:Hs; cbn [andb].
  - destruct (same (acc_password u) p); [reflexivity|].
    rewrite (IH Hnd'). apply same_eq in Hs. subst e.
    now rewrite (proj2 (find_email_none _ _) Hnotin).
  - exact (IH Hnd').
Qed.

Lemma NoDup_app_overlap (A : Type) (x : A) (l l' : list A) :
  In x l -> In x l' -> NoDup (l ++ l') -> False.
Proof.
  induction l as [|a l IH]; intros Hl Hl' Hnd; [destruct Hl|].
  cbn [List.app] in Hnd. inversion Hnd as [|y k Hnotin Hnd']; subst.
  destruct Hl as [-> | Hl].
  - apply Hnotin, List.in_or_app. now right.
  - now apply IH.
Qed.

Lemma signin_users (e p : option string) (users : list Account) :
  snd (signin e p users) = users.
Proof. unfold signin. now destruct (List.find _ users). Qed.

Lemma signin_ok (e p : option string) (users : list Account) :
  fst (signin e p users) = say 200 "Login successful" <->
  exists u,
    List.find (fun u => same (acc_email u) e && same (acc_password u) p)
              users = Some u.
Proof.
  unfold signin. destruct (List.find _ users) as [u|]; cbn [fst].
  - split; [now exists u | reflexivity].
  - split; [discriminate | intros (u & H); discriminate].
Qed.

End DevFacts.

Module LegacyFacts.
Import StrFacts RegExpFacts EmailFacts ResolverFacts.

Lemma exactly_sound (A : Type) (p : ascii -> bool) (k : string -> option A)
      (n : nat) (s : string) (r : A) :
  exactly p n s k = Some r ->
  exists pre rest,
    s = (pre ++ rest)%string /\ String.length pre = n
    /\ Str.forallb p pre = true /\ k rest = Some r.
Proof.
  revert s. induction n as [|n IH]; intros s; cbn [exactly].
  - intros H. exists ""%string, s. now repeat split.
  - destruct s as [|c s]; [discriminate|].
    destruct (p c) eqn:Hc; [|discriminate].
    intros H. destruct (IH _ H) as (pre & rest & -> & Hn & Hp & Hk).
    exists (String c pre), rest. simpl. rewrite Hc, Hp, Hn.
    now repeat split.
Qed.

Lemma lit_eq_app (ic : bool) (l1 l2 t : string) :
  lit_eq ic (l1 ++ l2) t = true ->
  exists t1 t2,
    t = (t1 ++ t2)%string /\ lit_eq ic l1 t1 = true
    /\ lit_eq ic l2 t2 = true.
Proof.
  revert t. induction l1 as [|a l1 IH]; intros t H.
  - exists ""%string, t. now repeat split.
  - destruct t as [|b t]; [discriminate|].
    cbn [append lit_eq] in H. apply andb_prop in H as [Hc H].
    destruct (IH _ H) as (t1 & t2 & -> & H1 & H2).
    exists (String b t1), t2. cbn [append lit_eq]. rewrite Hc, H1.
    now repeat split.
Qed.

Lemma accepts_digit_i (c : ascii) :
  accepts true false [Range "0" "9"] c = Str.isDigit c.
Proof.
  apply eqb_prop. revert c. apply for_all_ascii. vm_compute. reflexivity.
Qed.

Lemma accepts_legacy_local (c : ascii) :
  accepts true false
          [Range "a" "z"; Range "A" "Z"; Range "0" "9";
           One "."; One "_"; One "-"]%char c = true ->
  local_char c = true.
Proof.
  assert (G : forall c,
             implb (accepts true false
                            [Range "a" "z"; Range "A" "Z"; Range "0" "9";
                             One "."; One "_"; One "-"]%char c)
                   (local_char c) = true)
    by (apply for_all_ascii; vm_compute; reflexivity).
  intros H. specialize (G c). now rewrite H in G.
Qed.

(** The text after the local part of an address of the Faculty of
    Science, with or without the marker. *)
Lemma science_tail (marker : option string) (l t : string) :
  l = ("@" ++ marker_text (option_map (fun _ => "std"%string) marker)
           ++ "sci" ++ "." ++ "cu.edu.eg")%string ->
  lit_eq true l t = true ->
  exists mk sub dom,
    t = ("@" ++ marker_text mk ++ sub ++ "." ++ dom)%string
    /\ (marker = None <-> mk = None)
    /\ match mk with
       | Some x => Str.toLowerCase x = "std"%string
       | None => True
       end
    /\ Str.toLowerCase sub = "sci"%string
    /\ Str.toLowerCase dom = "cu.edu.eg"%string.
Proof.
  intros -> H.
  apply lit_eq_app in H as (a & t1 & -> & Ha%lit_at & H). subst a.
  destruct marker as [x|]; cbn [option_map marker_text] in H.
  - rewrite app_assoc in H.
    apply lit_eq_app in H as (m & t2 & -> & Hm%lit_std & H).
    apply lit_eq_app in H as (d1 & t3 & -> & Hd1%lit_dot & H). subst d1.
    apply lit_eq_app in H as (sub & t4 & -> & Hsub & H).
    apply lit_eq_app in H as (d2 & dom & -> & Hd2%lit_dot & Hdom%lit_domain).
    subst d2. apply lit_eq_lower in Hsub.
    exists (Some m), sub, dom. cbn [marker_text].
    rewrite !app_assoc. repeat split; try assumption; try discriminate.
    now symmetry.
  - change ("" ++ "sci" ++ "." ++ "cu.edu.eg")%string
      with ("sci" ++ "." ++ "cu.edu.eg")%string in H.
    apply lit_eq_app in H as (sub & t4 & -> & Hsub & H).
    apply lit_eq_app in H as (d2 & dom & -> & Hd2%lit_dot & Hdom%lit_domain).
    subst d2. apply lit_eq_lower in Hsub.
    exists None, sub, dom. cbn [marker_text].
    repeat split; try assumption; try reflexivity. now symmetry.
Qed.

Lemma sci_token (sub : string) :
  Str.toLowerCase sub = "sci"%string ->
  sub <> ""%string /\ Str.forallb not_dot sub = true.
Proof.
  intros H. split.
  - intros ->. discriminate H.
  - now rewrite <- not_dot_lower, H.
Qed.

(** A match of the pattern of student addresses. *)
Lemma student_match (e : string) (m : captures) :
  match_ true Legacy.studentEmailRegex e = Some m ->
  exists d mk sub dom,
    shaped e d (Some mk) sub dom
    /\ String.length d = 7 /\ Str.forallb Str.isDigit d = true
    /\ Str.toLowerCase sub = "sci"%string
    /\ group 1 m = d.
Proof.
  unfold Legacy.studentEmailRegex. cbn [seq]. rewrite match_bol.
  cbn [exec]. intros H.
  apply exactly_sound in H as (d & rest & -> & Hn & Hd & H).
  destruct (strip true "@std.sci.cu.edu.eg" rest) as [s''|] eqn:Hs;
    [|discriminate].
  destruct s'' as [|c s'']; [|discriminate].
  injection H as <-.
  apply strip_sound in Hs as (t & -> & Ht).
  rewrite app_nil_r in *.
  destruct (science_tail (Some ""%string) _ t eq_refl Ht)
    as (mk & sub & dom & -> & Hmk & Hstd & Hsub & Hdom).
  destruct mk as [mk|]; [|now destruct (proj2 Hmk eq_refl)].
  rewrite (forallb_ext _ _ d accepts_digit_i) in Hd.
  destruct (sci_token sub Hsub) as [Hne Hnd].
  exists d, mk, sub, dom. repeat split; try assumption.
  - intros ->. discriminate Hn.
  - now apply digits_local.
  - unfold group. cbn [capture Nat.eqb]. apply consumed.
Qed.

(** A match of the pattern of instructor addresses. *)
Lemma instructor_match (e : string) :
  test true Legacy.instructorEmailRegex e = true ->
  exists local sub dom,
    shaped e local None sub dom /\ Str.toLowerCase sub = "sci"%string.
Proof.
  unfold test, Legacy.instructorEmailRegex. cbn [seq]. rewrite match_bol.
  cbn [exec].
  destruct (plus _ e _) as [m|] eqn:H; [intros _ | discriminate].
  apply plus_sound in H as (local & rest & -> & Hne & Hl & H).
  destruct (strip true "@sci.cu.edu.eg" rest) as [s''|] eqn:Hs;
    [|discriminate].
  destruct s'' as [|c s'']; [|discriminate].
  apply strip_sound in Hs as (t & -> & Ht).
  rewrite app_nil_r in *.
  destruct (science_tail None _ t eq_refl Ht)
    as (mk & sub & dom & -> & Hmk & _ & Hsub & Hdom).
  rewrite (proj1 Hmk eq_refl).
  destruct (sci_token sub Hsub) as [Hne' Hnd].
  exists local, sub, dom. repeat split; try assumption.
  revert Hl. apply forallb_impl. exact accepts_legacy_local.
Qed.

(** A run of more than [n] characters of the class is no match of
    [p{n}] when what follows the pattern refuses the characters of the
    class. *)
Lemma exactly_too_long (A : Type) (p : ascii -> bool)
      (k : string -> option A) (n : nat) (pre rest : string) :
  (forall c t, p c = true -> k (String c t) = None) ->
  n < String.length pre -> Str.forallb p pre = true ->
  exactly p n (pre ++ rest) k = None.
Proof.
  intros Hk. revert pre. induction n as [|n IH]; intros [|c pre] Hn Hp;
    cbn [String.length] in Hn; try lia;
    cbn [Str.forallb] in Hp; apply andb_prop in Hp as [Hc Hp];
    cbn [append exactly].
  - now apply Hk.
  - rewrite Hc. apply IH; [lia | exact Hp].
Qed.

Lemma legacy_char_not_at (c : ascii) :
  accepts true false
          [Range "a" "z"; Range "A" "Z"; Range "0" "9";
           One "."; One "_"; One "-"]%char c = true ->
  char_eq true "@" c = false.
Proof.
  assert (G : forall c,
             implb (accepts true false
                            [Range "a" "z"; Range "A" "Z"; Range "0" "9";
                             One "."; One "_"; One "-"]%char c)
                   (negb (char_eq true "@" c)) = true)
    by (apply for_all_ascii; vm_compute; reflexivity).
  intros H. specialize (G c). rewrite H in G.
  now destruct (char_eq true "@" c).
Qed.

Lemma digit_legacy_char (c : ascii) :
  Str.isDigit c = true ->
  accepts true false
          [Range "a" "z"; Range "A" "Z"; Range "0" "9";
           One "."; One "_"; One "-"]%char c = true.
Proof.
  assert (G : forall c,
             implb (Str.isDigit c)
                   (accepts true false
                            [Range "a" "z"; Range "A" "Z"; Range "0" "9";
                             One "."; One "_"; One "-"]%char c) = true)
    by (apply for_all_ascii; vm_compute; reflexivity).
  intros H. specialize (G c). now rewrite H in G.
Qed.

(** The first version knows no student id of nine digits. *)
Lemma legacy_nine_digits (d : string) :
  String.length d = 9 -> Str.forallb Str.isDigit d = true ->
  Legacy.detect_role (d ++ "@std.sci.cu.edu.eg") = None.
Proof.
  intros Hn Hd. unfold Legacy.detect_role.
  assert (Hs : match_ true Legacy.studentEmailRegex
                      (d ++ "@std.sci.cu.edu.eg") = None).
  { unfold Legacy.studentEmailRegex. cbn [seq]. rewrite match_bol.
    cbn [exec]. apply exactly_too_long.
    - intros c t Hc. cbn [strip].
      rewrite accepts_digit_i in Hc.
      now rewrite (legacy_char_not_at c (digit_legacy_char c Hc)).
    - lia.
    - now rewrite (forallb_ext _ _ d accepts_digit_i). }
  rewrite Hs.
  assert (Hi : test true Legacy.instructorEmailRegex
                    (d ++ "@std.sci.cu.edu.eg") = false).
  { unfold test, Legacy.instructorEmailRegex. cbn [seq]. rewrite match_bol.
    cbn [exec]. rewrite plus_complete.
    - reflexivity.
    - intros c t Hc. cbn [strip]. now rewrite (legacy_char_not_at c Hc).
    - intros ->. discriminate Hn.
    - revert Hd. apply forallb_impl. exact digit_legacy_char.
    - reflexivity. }
  now rewrite Hi.
Qed.

End LegacyFacts.
(* ================================================================== *)
(** * Further properties *)

Import StrFacts RegExpFacts EmailFacts ResolverFacts LoginFacts VerifyFacts
       RegisterFacts CaseFacts ResolverMore RegisterMore RegisterOutcome
       TrimFacts RegisterCases StoreFacts VerifyMore AuthFacts
       DevFacts LegacyFacts.

(** X1: the resolver does not depend on the case of the address: the
    address in lower case, as [POST /register] passes it, resolves to the
    same data or fails with the same message. *)
Theorem resolver_ignores_case (email : string) :
  extractUserDataFromEmail (Str.toLowerCase email)
  = extractUserDataFromEmail email.
Proof. apply extract_lower. Qed.

(** X2: whatever resolves is an address of [cu.edu.eg] with the university
    Cairo University; a student comes with a student id of exactly seven
    digits, an instructor with none. *)
Theorem resolved_data_invariant (email : string) (ed : EmailData) :
  extractUserDataFromEmail email = inr ed ->
  cairo_address email = true
  /\ ed_university ed = "Cairo University"%string
  /\ match ed_role ed with
     | student =>
         exists sid, ed_studentId ed = Some sid
                     /\ String.length sid = 7
                     /\ Str.forallb Str.isDigit sid = true
     | instructor => ed_studentId ed = None
     end.
Proof.
  intros H.
  destruct (extract_inr _ _ H)
    as (local & marker & sub & dom & Hs & _ & Hrole).
  destruct (resolve_role_inr _ _ _ _ Hrole) as (Huni & _ & Hm).
  split; [exact (shaped_cairo_address _ _ _ _ _ Hs) | split; [exact Huni|]].
  destruct marker as [t|].
  - destruct Hm as (-> & Hsid). exact Hsid.
  - destruct Hm as (-> & Hnone). exact Hnone.
Qed.

Lemma resolved_data_invariant_witness :
  cairo_address "123456789@std.sci.cu.edu.eg" = true
  /\ ed_university sample_emailData = "Cairo University"%string
  /\ exists sid, ed_studentId sample_emailData = Some sid
                 /\ String.length sid = 7
                 /\ Str.forallb Str.isDigit sid = true.
Proof.
  exact (resolved_data_invariant "123456789@std.sci.cu.edu.eg"
                                 sample_emailData eq_refl).
Defined.

(** X3: an address without the marker, [local@sub.cu.edu.eg] with a listed
    faculty, resolves to an instructor of that faculty without a student
    id, also when the local part is a number. *)
Theorem instructor_resolution (local sub dom faculty : string) :
  local <> ""%string -> Str.forallb local_char local = true ->
  Obj.own (subdomains cairo_university) (Str.toLowerCase sub) = Some faculty ->
  Str.toLowerCase dom = "cu.edu.eg"%string ->
  extractUserDataFromEmail (local ++ "@" ++ sub ++ "." ++ dom)
  = inr {| ed_university := "Cairo University";
           ed_faculty := FacultyName faculty;
           ed_role := instructor;
           ed_studentId := None |}.
Proof.
  intros Hne Hloc Hfac Hdom.
  destruct (listed_token _ _ Hfac) as [Hsne Hsub].
  assert (Hs : shaped (local ++ "@" ++ sub ++ "." ++ dom) local None sub dom)
    by (unfold shaped, marker_text; now repeat split).
  rewrite (extract_shaped _ _ _ _ _ Hs). unfold Obj.get. now rewrite Hfac.
Qed.

Lemma instructor_resolution_witness :
  extractUserDataFromEmail "1234567@Eng.cu.edu.eg"
  = inr {| ed_university := "Cairo University";
           ed_faculty := FacultyName "Faculty of Engineering";
           ed_role := instructor;
           ed_studentId := None |}.
Proof.
  apply (instructor_resolution "1234567" "Eng" "cu.edu.eg"
                               "Faculty of Engineering");
    [discriminate | reflexivity | reflexivity | reflexivity].
Defined.

(** X4: a registration that passes the checks of the route and of the
    schema, in a collection where its id, address and student id are not
    taken, stores one pending account (the address in lower case, the name
    titled and then trimmed of white space, the role, university, faculty
    and student id the resolver found, the hash, the creation time),
    answers 201 [REGISTRATION_SUCCESS_VERIFY_EMAIL] with the projection of
    that account, and hands the verification message, addressed with the
    new id, to the mail transport. *)
Theorem registration_creates_pending_account (env : Env) (body : RegisterBody)
        (w : World) (emailData : EmailData) :
  validated body emailData ->
  rejects env OpGenSalt = None -> rejects env OpHash = None ->
  storable env body emailData ->
  vacant env body emailData w ->
  let newUser := created env body emailData in
  post_register env body w
  = (inr (Reply 201
            (JObj [("message",
                    JStr "Account created successfully. Please verify your email to activate your account.");
                   ("code", JStr "REGISTRATION_SUCCESS_VERIFY_EMAIL");
                   ("user",
                    JObj [("id", JId (newObjectId env));
                          ("fullName",
                           JStr (Str.trim
                                   (display_name (ed_role emailData)
                                                 (str (rb_fullName body)))));
                          ("email",
                           JStr (Str.toLowerCase (str (rb_email body))));
                          ("studentId",
                           match ed_role emailData, ed_studentId emailData with
                           | student, Some s => JStr s
                           | _, _ => JUndefined
                           end);
                          ("role", JStr (role_name (ed_role emailData)));
                          ("university", JStr (ed_university emailData));
                          ("college", JStr (college newUser));
                          ("isEmailVerified", JBool false)]);
                   ("details",
                    JStr "A verification link has been sent to your email. Please check your inbox (and spam folder).")])),
     registered env body emailData newUser w)
  /\ users (registered env body emailData newUser w) = users w ++ [newUser]
  /\ ed_faculty emailData = FacultyName (college newUser)
  /\ (rejects env OpSendMail = None ->
      outbox (registered env body emailData newUser w)
      = outbox w ++ [{| mail_to := email newUser;
                        mail_userId := _id newUser;
                        mail_userName :=
                          display_name (role newUser)
                                       (str (rb_fullName body)) |}]).
Proof.
  intros Hv Hs Hh Hst Hvac newUser.
  assert (Hfac : ed_faculty emailData = FacultyName (college newUser)).
  { destruct Hst as (_ & _ & _ & f & Hf). unfold newUser, created.
    cbn [college]. now rewrite Hf. }
  split; [|split; [|split]].
  - rewrite (register_succeeds env body w emailData Hv Hs Hh Hst Hvac).
    fold newUser. f_equal.
    unfold registration_success, registered_user, opt_str, newUser, created.
    cbn [_id fullName email studentId role university isEmailVerified
             registration_payload p_fullName p_studentId].
    destruct Hv as (_ & _ & _ & _ & _ & _ & Hext).
    destruct (extract_inr _ _ Hext)
      as (local & marker & sub & dom & _ & _ & Hres).
    destruct (resolve_role_inr _ _ _ _ Hres) as (_ & _ & Hm).
    destruct (ed_role emailData); [|reflexivity].
    destruct (ed_studentId emailData) as [sid|] eqn:Hsid; [|reflexivity].
    destruct marker as [t|].
    + destruct Hm as (_ & s' & Hs' & Hlen & _).
      injection Hs' as <-. destruct sid; [discriminate Hlen | reflexivity].
    + destruct Hm as (_ & Hnone). discriminate Hnone.
  - unfold registered. now destruct (rejects env OpSendMail).
  - exact Hfac.
  - intros Hm. unfold registered. now rewrite Hm.
Qed.

Lemma registration_creates_pending_account_witness :
  let env := sample_env an_hour_later in
  let body := {| rb_fullName :=
                   Some (String "160" ("  Mona Adel " ++ String "160" ""))%string;
                 rb_email := Some "123456789@std.SCI.cu.edu.eg"%string;
                 rb_password := Some "abc123!"%string;
                 rb_confirmPassword := Some "abc123!"%string |} in
  let newUser := created env body sample_emailData in
  post_register env body empty_world
  = (inr (registration_success newUser),
     {| users := [newUser]; console := [];
        outbox := [{| mail_to := "123456789@std.sci.cu.edu.eg";
                      mail_userId := mkObjectId 1700000500 2;
                      mail_userName :=
                        String "160" ("  Mona Adel " ++ String "160" "") |}] |})
  /\ fullName newUser = "Mona Adel"%string
  /\ studentId newUser = Some "3456789"%string
  /\ isEmailVerified newUser = false.
Proof.
  intros env body newUser. split; [|repeat split; reflexivity].
  apply (registration_creates_pending_account
           env body empty_world sample_emailData).
  - repeat split; reflexivity.
  - reflexivity.
  - reflexivity.
  - repeat split; try reflexivity;
      try (intros H; vm_compute in H; discriminate H).
    now exists "Faculty of Science"%string.
  - repeat split; reflexivity.
Defined.

(** X5: whatever the request and whatever fails, [POST /register] either
    answers the success 201 and has appended exactly one account, pending
    and stamped with the time of the request, or it does not answer a
    success and leaves the collection and the outbox as they were. *)
Theorem registration_changes (env : Env) (body : RegisterBody) (w : World) :
  let r := post_register env body w in
  (exists u,
      fst r = inr (registration_success u)
      /\ users (snd r) = users w ++ [u]
      /\ isEmailVerified u = false
      /\ createdAt u = Some (now env))
  \/ ((exists response, fst r = inr response
                        /\ forall u, response <> registration_success u)
      /\ users (snd r) = users w
      /\ outbox (snd r) = outbox w).
Proof.
  intros r. subst r.
  destruct (register_cases env body w)
    as [(ed & u & w1 & _ & Hc & Hr & Hu) | H]; [left | now right].
  destruct (create_inserted _ _ _ _ _ Hc) as (_ & Hflag & Hat).
  exists u. now repeat split.
Qed.

(** X6: a registration whose address, in lower case, is the address of a
    stored account is answered [DUPLICATE_ENTRY] on [email], whatever the
    case it was typed in, and nothing is stored or mailed. *)
Theorem registration_refuses_taken_email (env : Env) (body : RegisterBody)
        (w : World) (emailData : EmailData) (u : User) :
  validated body emailData ->
  rejects env OpGenSalt = None -> rejects env OpHash = None ->
  storable env body emailData ->
  List.existsb (by_id (newObjectId env)) (users w) = false ->
  In u (users w) ->
  email u = Str.toLowerCase (str (rb_email body)) ->
  let r := post_register env body w in
  fst r = inr (duplicate_entry (Some "email"%string))
  /\ users (snd r) = users w /\ outbox (snd r) = outbox w.
Proof.
  intros Hv Hs Hh Hst Hid Hin Hem r. subst r.
  rewrite (register_taken_email env body w emailData Hv Hs Hh Hst Hid).
  - now repeat split.
  - apply existsb_exists. exists u. split; [exact Hin|].
    unfold by_email. rewrite Hem. apply String.eqb_refl.
Qed.

Lemma registration_refuses_taken_email_witness :
  fst (post_register (sample_env an_hour_later)
                     (sample_registration "abc123!") (sample_world true))
  = inr (duplicate_entry (Some "email"%string)).
Proof.
  apply (registration_refuses_taken_email
           (sample_env an_hour_later) (sample_registration "abc123!")
           (sample_world true) sample_emailData (sample_student true)).
  - repeat split; reflexivity.
  - reflexivity.
  - reflexivity.
  - repeat split; try reflexivity;
      try (intros H; vm_compute in H; discriminate H).
    now exists "Faculty of Science"%string.
  - reflexivity.
  - now left.
  - reflexivity.
Defined.

(** X7: the student id is a key of its own: a registration that resolves
    to the student id of a stored account is answered [DUPLICATE_ENTRY] on
    [studentId] although its address is new, as when the same seven digits
    come once in the nine-digit and once in the seven-digit form, or at
    two faculties. *)
Theorem registration_refuses_taken_student_id (env : Env)
        (body : RegisterBody) (w : World) (emailData : EmailData)
        (u : User) (sid : string) :
  validated body emailData ->
  rejects env OpGenSalt = None -> rejects env OpHash = None ->
  storable env body emailData ->
  List.existsb (by_id (newObjectId env)) (users w) = false ->
  List.existsb (by_email (Str.toLowerCase (str (rb_email body)))) (users w)
  = false ->
  ed_studentId emailData = Some sid ->
  In u (users w) -> studentId u = Some sid ->
  let r := post_register env body w in
  fst r = inr (duplicate_entry (Some "studentId"%string))
  /\ users (snd r) = users w /\ outbox (snd r) = outbox w.
Proof.
  intros Hv Hs Hh Hst Hid Hem Hsid Hin Hu r. subst r.
  rewrite (register_taken_studentId env body w emailData Hv Hs Hh Hst sid
                                    Hid Hem Hsid).
  - now repeat split.
  - apply existsb_exists. exists u. split; [exact Hin|].
    unfold by_studentId. rewrite Hu. apply String.eqb_refl.
Qed.

Lemma registration_refuses_taken_student_id_witness :
  let body := {| rb_fullName := Some "Omar Said"%string;
                 rb_email := Some "3456789@std.eng.cu.edu.eg"%string;
                 rb_password := Some "abc123!"%string;
                 rb_confirmPassword := Some "abc123!"%string |} in
  fst (post_register (sample_env an_hour_later) body (sample_world true))
  = inr (duplicate_entry (Some "studentId"%string)).
Proof.
  intros body.
  apply (registration_refuses_taken_student_id
           (sample_env an_hour_later) body (sample_world true)
           {| ed_university := "Cairo University";
              ed_faculty := FacultyName "Faculty of Engineering";
              ed_role := student;
              ed_studentId := Some "3456789"%string |}
           (sample_student true) "3456789").
  - repeat split; reflexivity.
  - reflexivity.
  - reflexivity.
  - repeat split; try reflexivity;
      try (intros H; vm_compute in H; discriminate H).
    now exists "Faculty of Engineering"%string.
  - reflexivity.
  - reflexivity.
  - reflexivity.
  - now left.
  - reflexivity.
Defined.

(** X8: a student's name made of white space only (the no-break space
    included) passes the route's test for missing fields, but the schema
    trims it and then requires it: the registration is answered 400
    [VALIDATION_ERROR] with the message of that validator as its only
    detail, the error is logged with the message Mongoose gives it, and
    nothing is stored or mailed. *)
Theorem registration_refuses_blank_name (env : Env) (body : RegisterBody)
        (w : World) (emailData : EmailData) (faculty : string) :
  validated body emailData ->
  rejects env OpGenSalt = None -> rejects env OpHash = None ->
  rejects env OpCreate = None ->
  ed_role emailData = student ->
  ed_faculty emailData = FacultyName faculty ->
  hash env (str (rb_password body)) (salt env) <> ""%string ->
  Str.forallb Str.isSpace (str (rb_fullName body)) = true ->
  post_register env body w
  = (inr (Reply 400
            (JObj [("message", JStr "Validation failed");
                   ("code", JStr "VALIDATION_ERROR");
                   ("details", JArr [JStr "Path `fullName` is required."])])),
     {| users := users w;
        console :=
          console w
          ++ ["[ERROR] Registration process failed: User validation failed: fullName: Path `fullName` is required."%string];
        outbox := outbox w |}).
Proof.
  intros Hv Hs Hh Hr Hrole Hfac Hhash Hspace.
  pose proof (trim_blank _ Hspace) as Hblank.
  rewrite (register_validated env body w emailData Hv Hs Hh).
  destruct Hv as (_ & He & _ & _ & _ & _ & Hext).
  destruct (extract_inr _ _ Hext)
    as (local & marker & sub & dom & _ & Hlisted & Hres).
  destruct (resolve_role_inr _ _ _ _ Hres) as (Huni & _ & _).
  assert (Hfne : faculty <> ""%string).
  { destruct Hlisted as [(f' & Hown & Hf') | (_ & _ & Hf')];
      rewrite Hfac in Hf'; [|discriminate].
    injection Hf' as ->. exact (listed_name _ _ Hown). }
  unfold try_catch, bind, User_create, call. rewrite Hr. cbv zeta.
  cbn [registration_payload p_college p_fullName p_email
         p_password p_university p_isEmailVerified p_role p_studentId].
  rewrite Hfac, Hrole. cbn [display_name]. rewrite Hblank.
  unfold required_failures, required.
  rewrite (proj2 (truthy_nonempty _) Hhash), (proj2 (truthy_nonempty _) Hfne),
    Huni, toLowerCase_idem.
  rewrite (proj2 (truthy_nonempty _)
                 (lower_nonempty _ (proj1 (falsy_nonempty _) He))).
  reflexivity.
Qed.

Lemma registration_refuses_blank_name_witness :
  let body := {| rb_fullName := Some (String " " (String "160" ""));
                 rb_email := Some "123456789@std.sci.cu.edu.eg"%string;
                 rb_password := Some "abc123!"%string;
                 rb_confirmPassword := Some "abc123!"%string |} in
  falsy (rb_fullName body) = false
  /\ post_register (sample_env an_hour_later) body empty_world
     = (inr (Reply 400
               (JObj [("message", JStr "Validation failed");
                      ("code", JStr "VALIDATION_ERROR");
                      ("details",
                       JArr [JStr "Path `fullName` is required."])])),
        {| users := [];
           console :=
             ["[ERROR] Registration process failed: User validation failed: fullName: Path `fullName` is required."%string];
           outbox := [] |}).
Proof.
  intros body. split; [reflexivity|].
  apply (registration_refuses_blank_name
           (sample_env an_hour_later) body empty_world sample_emailData
           "Faculty of Science");
    try reflexivity.
  - repeat split; reflexivity.
  - intros H. vm_compute in H. discriminate H.
Defined.

(** X9: every instructor account [POST /register] stores carries the title:
    its name starts with [Dr.] (in any case); a name submitted with the
    title is stored trimmed and not titled twice. *)
Theorem instructor_name_has_title (env : Env) (body : RegisterBody)
        (w : World) (u : User) :
  fst (post_register env body w) = inr (registration_success u) ->
  users (snd (post_register env body w)) = users w ++ [u] ->
  role u = instructor ->
  Str.startsWith "dr." (Str.toLowerCase (fullName u)) = true
  /\ (Str.startsWith "dr." (Str.toLowerCase (str (rb_fullName body))) = true ->
      fullName u = Str.trim (str (rb_fullName body))).
Proof.
  intros Hr Hu Hrole.
  destruct (register_cases env body w)
    as [(ed & u' & w1 & Hv & Hc & _ & Hu') | ((r & Hr' & Hno) & _)].
  2: { rewrite Hr in Hr'. injection Hr' as <-. now destruct (Hno u). }
  rewrite Hu in Hu'. apply app_inv_head in Hu'. injection Hu' as <-.
  destruct (create_doc _ _ _ _ _ Hc) as (_ & Hname & _ & _ & _ & Hrl & _).
  cbn [registration_payload p_fullName p_role] in Hname, Hrl.
  rewrite Hrole in Hrl. rewrite <- Hrl in Hname. cbn [display_name] in Hname.
  rewrite Hname.
  destruct (Str.startsWith "dr." (Str.toLowerCase (str (rb_fullName body))))
    eqn:Hdr; cbn [negb].
  - split; [now apply trim_title | reflexivity].
  - split; [now apply trim_title | discriminate].
Qed.

Lemma instructor_name_has_title_witness :
  let plain := {| rb_fullName := Some "Ahmed Hassan"%string;
                  rb_email := Some "a.hassan@fci.cu.edu.eg"%string;
                  rb_password := Some "abc123!"%string;
                  rb_confirmPassword := Some "abc123!"%string |} in
  let titled := {| rb_fullName :=
                     Some ("DR. Ahmed Hassan " ++ String "160" "")%string;
                   rb_email := Some "a.hassan@fci.cu.edu.eg"%string;
                   rb_password := Some "abc123!"%string;
                   rb_confirmPassword := Some "abc123!"%string |} in
  (exists u,
      users (snd (post_register (sample_env an_hour_later) plain empty_world))
      = [u]
      /\ fullName u = "Dr. Ahmed Hassan"%string
      /\ Str.startsWith "dr." (Str.toLowerCase (fullName u)) = true)
  /\ (exists u,
        users (snd (post_register (sample_env an_hour_later) titled
                                  empty_world)) = [u]
        /\ fullName u = "DR. Ahmed Hassan"%string
        /\ fullName u = Str.trim (str (rb_fullName titled))).
Proof.
  intros plain titled. split.
  - eexists. split; [vm_compute; reflexivity|]. split; [reflexivity|].
    refine (proj1 (instructor_name_has_title
                     (sample_env an_hour_later) plain empty_world _ _ _ _));
      vm_compute; reflexivity.
  - eexists. split; [vm_compute; reflexivity|]. split; [reflexivity|].
    refine (proj2 (instructor_name_has_title
                     (sample_env an_hour_later) titled empty_world _ _ _ _)
                  _);
      vm_compute; reflexivity.
Defined.

(** X10: the routes read the address in lower case only: two registrations,
    or two logins, that differ in nothing but the case of the address have
    the same outcome. *)
Theorem routes_ignore_email_case (env : Env) (w : World) (e1 e2 : string)
        (fullName password confirmPassword : option string) :
  Str.toLowerCase e1 = Str.toLowerCase e2 ->
  post_register env {| rb_fullName := fullName; rb_email := Some e1;
                       rb_password := password;
                       rb_confirmPassword := confirmPassword |} w
  = post_register env {| rb_fullName := fullName; rb_email := Some e2;
                         rb_password := password;
                         rb_confirmPassword := confirmPassword |} w
  /\ post_login env {| lb_email := Some e1; lb_password := password |} w
     = post_login env {| lb_email := Some e2; lb_password := password |} w.
Proof.
  intros H.
  assert (Hf : falsy (Some e1) = falsy (Some e2)).
  { unfold falsy. cbn [str]. f_equal.
    rewrite <- (truthy_lower e1), <- (truthy_lower e2). now rewrite H. }
  split.
  - unfold post_register.
    cbn [rb_fullName rb_email rb_password rb_confirmPassword].
    rewrite Hf. cbn [str]. now rewrite H.
  - unfold post_login. cbn [lb_email lb_password].
    rewrite Hf. cbn [str]. now rewrite H.
Qed.

Lemma routes_ignore_email_case_witness :
  post_login (sample_env an_hour_later)
             {| lb_email := Some "123456789@STD.SCI.CU.EDU.EG"%string;
                lb_password := Some "abc123!"%string |} (sample_world true)
  = post_login (sample_env an_hour_later)
               {| lb_email := Some "123456789@std.sci.cu.edu.eg"%string;
                  lb_password := Some "abc123!"%string |} (sample_world true).
Proof.
  apply (routes_ignore_email_case
           (sample_env an_hour_later) (sample_world true)
           "123456789@STD.SCI.CU.EDU.EG" "123456789@std.sci.cu.edu.eg"
           None (Some "abc123!"%string) None eq_refl).
Defined.

(** X11: the password policy is monotone: a password that meets it still
    meets it with characters added in front or behind. *)
Theorem password_policy_monotone (before password after : string) :
  isStrong (validatePasswordStrength password) = true ->
  isStrong (validatePasswordStrength (before ++ password ++ after)) = true.
Proof.
  rewrite !isStrong_all, !requirements_meaning.
  cbn [req_length hasLetter hasDigit hasSpecial].
  rewrite !andb_true_iff, !Nat.leb_le, !existsb_contains.
  assert (Hc : forall p, contains p password ->
                         contains p (before ++ password ++ after)).
  { intros p (pre & c & post & -> & Hp).
    exists (before ++ pre)%string, c, (post ++ after)%string.
    split; [|exact Hp]. rewrite !app_assoc. reflexivity. }
  intros (((Hl & Ha) & Hd) & Hs). repeat split; auto.
  rewrite !length_app. lia.
Qed.

Lemma password_policy_monotone_witness :
  isStrong (validatePasswordStrength "xx abc123! yy") = true.
Proof.
  exact (password_policy_monotone "xx " "abc123!" " yy" eq_refl).
Defined.

(** X12: verifying twice: the first [POST /verify-email] within the window
    sets the account verified, any later one on the resulting collection
    is answered [ALREADY_VERIFIED] and changes nothing more. *)
Theorem verification_is_idempotent (env env' : Env) (uid : ObjectId)
        (w : World) (u : User) :
  rejects env OpFindById = None -> rejects env OpSave = None ->
  rejects env' OpFindById = None ->
  List.find (by_id uid) (users w) = Some u ->
  isEmailVerified u = false ->
  (ageMs env u <= maxAgeMs)%Z ->
  let w1 := snd (post_verify_email env (Some uid) w) in
  fst (post_verify_email env (Some uid) w)
  = inr (verified_reply (verified env u))
  /\ post_verify_email env' (Some uid) w1 = (inr already_verified, w1).
Proof.
  intros Hr Hs Hr' Hf Hv Hage w1. subst w1.
  rewrite (post_verify_in_time env uid w u Hr Hf Hv Hage Hs). cbn [fst snd].
  split; [reflexivity|].
  destruct (find_by_id _ _ _ Hf) as [Hid _].
  apply (post_verify_already env' uid _ (verified env u) Hr');
    [|reflexivity].
  cbn [users with_users]. rewrite <- Hid.
  change (_id u) with (_id (verified env u)). apply find_saved.
  change (_id (verified env u)) with (_id u). rewrite Hid.
  exact (find_existsb _ _ _ _ Hf).
Qed.

Lemma verification_is_idempotent_witness :
  let id := _id (sample_student false) in
  let w1 := snd (post_verify_email (sample_env an_hour_later) (Some id)
                                   (sample_world false)) in
  post_verify_email (sample_env two_days_later) (Some id) w1
  = (inr already_verified, w1).
Proof.
  intros id w1.
  apply (verification_is_idempotent
           (sample_env an_hour_later) (sample_env two_days_later) id
           (sample_world false) (sample_student false));
    try reflexivity.
  vm_compute. discriminate.
Defined.

(** X13: a verification touches no other account: after either route, the
    accounts whose id is not the one of the request are the same, in the
    same order. *)
Theorem verification_frame (env : Env) (uid : ObjectId) (w : World) :
  without uid (users (snd (post_verify_email env (Some uid) w)))
  = without uid (users w)
  /\ without uid (users (snd (get_verify_email env (Some uid) w)))
     = without uid (users w)
  /\ users (snd (post_verify_email env None w)) = users w
  /\ users (snd (get_verify_email env None w)) = users w.
Proof.
  assert (Hcase : forall us',
             us' = users w
             \/ (exists u, List.find (by_id uid) (users w) = Some u
                           /\ isEmailVerified u = false
                           /\ (us' = without uid (users w)
                               \/ us' = saved (verified env u) (users w))) ->
             without uid us' = without uid (users w)).
  { intros us' [-> | (u & Hf & _ & [-> | ->])]; [reflexivity | |].
    - apply without_without.
    - destruct (find_by_id _ _ _ Hf) as [<- _].
      change (_id u) with (_id (verified env u)). apply without_saved. }
  repeat split.
  - apply Hcase, post_verify_users.
  - apply Hcase, get_verify_users.
Qed.

(** X14: when the store rejects the save of the verified flag, both routes
    answer their internal error (500) and the account is still stored as
    it was, pending. *)
Theorem save_failure_keeps_account_pending (env : Env) (uid : ObjectId)
        (w : World) (u : User) (e : JsError) :
  rejects env OpFindById = None ->
  List.find (by_id uid) (users w) = Some u ->
  isEmailVerified u = false ->
  (ageMs env u <= maxAgeMs)%Z ->
  rejects env OpSave = Some e ->
  post_verify_email env (Some uid) w
  = (inr verify_500,
     with_line w "[ERROR] Email verification failed:" (err_message e))
  /\ get_verify_email env (Some uid) w
     = (inr failed_page,
        with_line w "[ERROR] Direct email verification failed:"
                  (err_message e))
  /\ List.find (by_id uid)
               (users (snd (post_verify_email env (Some uid) w))) = Some u
  /\ List.find (by_id uid)
               (users (snd (get_verify_email env (Some uid) w))) = Some u.
Proof.
  intros Hr Hf Hv Hage Hs.
  rewrite (post_verify_save_fails env uid w u Hr Hf Hv Hage e Hs),
    (get_verify_save_fails env uid w u Hr Hf Hv Hage e Hs).
  now repeat split.
Qed.

Lemma save_failure_keeps_account_pending_witness :
  let env := failing (sample_env an_hour_later) OpSave
                     (Error_ "write conflict") in
  post_verify_email env (Some (_id (sample_student false)))
                    (sample_world false)
  = (inr verify_500,
     with_line (sample_world false) "[ERROR] Email verification failed:"
               "write conflict").
Proof.
  intros env.
  apply (save_failure_keeps_account_pending
           env (_id (sample_student false)) (sample_world false)
           (sample_student false) (Error_ "write conflict"));
    try reflexivity.
  vm_compute. discriminate.
Defined.

(** X15: the link of the verification message, followed within the window,
    sets the account verified and signs the user in: it redirects to the
    dashboard of the account's role with a token signed over its id, role
    and address. *)
Theorem verification_link_signs_in (env : Env) (uid : ObjectId) (w : World)
        (u : User) :
  rejects env OpFindById = None -> rejects env OpSave = None ->
  rejects env OpSign = None ->
  List.find (by_id uid) (users w) = Some u ->
  isEmailVerified u = false ->
  (ageMs env u <= maxAgeMs)%Z ->
  let w1 := with_users w (saved (verified env u) (users w)) in
  get_verify_email env (Some uid) w
  = (inr (Redirect (dashboardUrl u) (sign env (_id u) (role u) (email u))
                   (session_user u)), w1)
  /\ List.find (by_id uid) (users w1) = Some (verified env u)
  /\ (dashboardUrl u
      = "http://127.0.0.1:5501/frontend/html/student-profile.html"%string
      <-> role u = student).
Proof.
  intros Hr Hs Hg Hf Hv Hage w1. split; [|split].
  - now apply get_verify_in_time.
  - destruct (find_by_id _ _ _ Hf) as [Hid _].
    unfold w1. cbn [users with_users]. rewrite <- Hid.
    change (_id u) with (_id (verified env u)). apply find_saved.
    change (_id (verified env u)) with (_id u). rewrite Hid.
    exact (find_existsb _ _ _ _ Hf).
  - unfold dashboardUrl. destruct (role u); split; try reflexivity;
      discriminate.
Qed.

Lemma verification_link_signs_in_witness :
  get_verify_email (sample_env an_hour_later)
                   (Some (_id (sample_student false))) (sample_world false)
  = (inr (Redirect "http://127.0.0.1:5501/frontend/html/student-profile.html"
                   "jwt.student.123456789@std.sci.cu.edu.eg"
                   (session_user (sample_student false))),
     with_users (sample_world false)
                [verified (sample_env an_hour_later) (sample_student false)]).
Proof.
  apply (verification_link_signs_in
           (sample_env an_hour_later) (_id (sample_student false))
           (sample_world false) (sample_student false));
    try reflexivity.
  vm_compute. discriminate.
Defined.

(** X16: when the store, bcrypt and the signer answer, a login that carries
    an address and a password succeeds exactly when the account with the
    lower-cased address exists, is verified and the password matches its
    hash; the token is then signed over the id, role and address of that
    account, and the world is unchanged. *)
Theorem login_succeeds_exactly_when (env : Env) (body : LoginBody)
        (w : World) :
  falsy (lb_email body) = false -> falsy (lb_password body) = false ->
  rejects env OpFindOne = None -> rejects env OpCompare = None ->
  rejects env OpSign = None ->
  let found :=
    List.find (by_email (Str.toLowerCase (str (lb_email body)))) (users w) in
  ((exists token u, fst (post_login env body w) = inr (login_success token u))
   <-> exists u, found = Some u /\ isEmailVerified u = true
                 /\ compare env (str (lb_password body)) (password u) = true)
  /\ (forall u,
         found = Some u -> isEmailVerified u = true ->
         compare env (str (lb_password body)) (password u) = true ->
         post_login env body w
         = (inr (login_success (sign env (_id u) (role u) (email u)) u), w)).
Proof.
  intros He Hp Hr Hc Hs found. subst found. split.
  - split.
    + intros (token & u' & Hok).
      destruct (List.find _ (users w)) as [u|] eqn:Hf.
      * destruct (isEmailVerified u) eqn:Hv.
        -- destruct (compare env (str (lb_password body)) (password u)) eqn:Hm.
           ++ now exists u.
           ++ rewrite (login_wrong_password env body w He Hp Hr u Hf Hv Hc Hm)
                in Hok. discriminate Hok.
        -- rewrite (login_unverified env body w He Hp Hr u Hf Hv) in Hok.
           discriminate Hok.
      * rewrite (login_no_account env body w He Hp Hr Hf) in Hok.
        discriminate Hok.
    + intros (u & Hf & Hv & Hm).
      exists (sign env (_id u) (role u) (email u)), u.
      now rewrite (login_succeeds env body w u He Hp Hr Hc Hs Hf Hv Hm).
  - intros u Hf Hv Hm. now apply login_succeeds.
Qed.

Lemma login_succeeds_exactly_when_witness :
  post_login (sample_env two_days_later) (sample_login "abc123!")
             (sample_world true)
  = (inr (login_success "jwt.student.123456789@std.sci.cu.edu.eg"
                        (sample_student true)),
     sample_world true).
Proof.
  apply (proj2 (login_succeeds_exactly_when
                  (sample_env two_days_later) (sample_login "abc123!")
                  (sample_world true) eq_refl eq_refl eq_refl eq_refl eq_refl)
               (sample_student true));
    reflexivity.
Defined.

(** X17: the life of an account.  A registration that succeeds leaves an
    account that cannot log in yet ([EMAIL_NOT_VERIFIED]); once
    [POST /verify-email] for its id is made within 24 hours of the
    registration, a login with the address and password of the registration
    succeeds, provided bcrypt accepts the password against the hash it
    made. *)
Theorem account_life_cycle (env1 env2 env3 : Env) (body : RegisterBody)
        (w : World) (emailData : EmailData) :
  validated body emailData ->
  rejects env1 OpGenSalt = None -> rejects env1 OpHash = None ->
  storable env1 body emailData ->
  vacant env1 body emailData w ->
  rejects env2 OpFindById = None -> rejects env2 OpSave = None ->
  (now env2 - now env1 <= maxAgeMs)%Z ->
  rejects env3 OpFindOne = None -> rejects env3 OpCompare = None ->
  rejects env3 OpSign = None ->
  compare env3 (str (rb_password body))
          (hash env1 (str (rb_password body)) (salt env1)) = true ->
  let u := created env1 body emailData in
  let w1 := snd (post_register env1 body w) in
  let w2 := snd (post_verify_email env2 (Some (_id u)) w1) in
  fst (post_register env1 body w) = inr (registration_success u)
  /\ post_login env3 (login_of body) w1 = (inr email_not_verified, w1)
  /\ fst (post_verify_email env2 (Some (_id u)) w1)
     = inr (verified_reply (verified env2 u))
  /\ post_login env3 (login_of body) w2
     = (inr (login_success (sign env3 (_id u) (role u) (email u))
                           (verified env2 u)), w2).
Proof.
  intros Hv Hs Hh Hst Hvac Hr2 Hs2 Hage Hr3 Hc3 Hg3 Hm u w1 w2.
  pose proof (register_succeeds env1 body w emailData Hv Hs Hh Hst Hvac)
    as Hreg.
  fold u in Hreg. subst w1 w2. rewrite Hreg. cbn [fst snd].
  destruct Hvac as (Hid & Hem & _).
  destruct Hv as (_ & He & Hp & _).
  assert (Husers : users (registered env1 body emailData u w)
                   = users w ++ [u]).
  { unfold registered. now destruct (rejects env1 OpSendMail). }
  assert (Hfid : List.find (by_id (_id u))
                           (users (registered env1 body emailData u w))
                 = Some u).
  { rewrite Husers. apply find_snoc_new; [exact Hid | apply oid_eqb_refl]. }
  assert (Hfem : List.find
                   (by_email (Str.toLowerCase (str (lb_email (login_of body)))))
                   (users (registered env1 body emailData u w))
                 = Some u).
  { rewrite Husers. apply find_snoc_new; [exact Hem|].
    unfold by_email. apply String.eqb_refl. }
  split; [reflexivity|]. split; [|split].
  - now apply (login_unverified env3 (login_of body) _ He Hp Hr3 u).
  - now rewrite (post_verify_in_time env2 (_id u) _ u Hr2 Hfid eq_refl Hage Hs2).
  - rewrite (post_verify_in_time env2 (_id u) _ u Hr2 Hfid eq_refl Hage Hs2).
    cbn [snd].
    apply (login_succeeds env3 (login_of body) _ (verified env2 u)
                          He Hp Hr3 Hc3 Hg3); [|reflexivity | exact Hm].
    cbn [users with_users]. rewrite Husers.
    rewrite (saved_snoc (verified env2 u) u (users w) eq_refl Hid).
    apply find_snoc_new; [exact Hem|].
    unfold by_email. apply String.eqb_refl.
Qed.

Lemma account_life_cycle_witness :
  let env := sample_env an_hour_later in
  let env2 := sample_env (an_hour_later + 3600000) in
  let body := sample_registration "abc123!" in
  let u := created env body sample_emailData in
  let w1 := snd (post_register env body empty_world) in
  let w2 := snd (post_verify_email env2 (Some (_id u)) w1) in
  post_login (sample_env two_days_later) (login_of body) w2
  = (inr (login_success "jwt.student.123456789@std.sci.cu.edu.eg"
                        (verified env2 u)), w2).
Proof.
  intros env env2 body u w1 w2.
  refine (proj2 (proj2 (proj2
            (account_life_cycle env env2
                                (sample_env two_days_later) body empty_world
                                sample_emailData _ eq_refl eq_refl _ _
                                eq_refl eq_refl _ eq_refl eq_refl eq_refl
                                eq_refl)))).
  - repeat split; reflexivity.
  - repeat split; try reflexivity;
      try (intros H; vm_compute in H; discriminate H).
    now exists "Faculty of Science"%string.
  - repeat split; reflexivity.
  - vm_compute. discriminate.
Defined.

(** X18: the purge frees the keys: in a collection whose keys are unique,
    once a late [POST /verify-email] has removed an expired pending
    account, a registration with the address and student id of that
    account succeeds. *)
Theorem purge_frees_the_address (env1 env2 : Env) (uid : ObjectId)
        (w : World) (u : User) (body : RegisterBody) (emailData : EmailData) :
  store_ok (users w) ->
  rejects env1 OpFindById = None -> rejects env1 OpDeleteOne = None ->
  List.find (by_id uid) (users w) = Some u ->
  isEmailVerified u = false ->
  (maxAgeMs < ageMs env1 u)%Z ->
  validated body emailData ->
  rejects env2 OpGenSalt = None -> rejects env2 OpHash = None ->
  storable env2 body emailData ->
  Str.toLowerCase (str (rb_email body)) = email u ->
  p_studentId (registration_payload env2 body emailData) = studentId u ->
  List.existsb (by_id (newObjectId env2)) (users w) = false ->
  let w1 := snd (post_verify_email env1 (Some uid) w) in
  fst (post_verify_email env1 (Some uid) w) = inr expired_reply
  /\ fst (post_register env2 body w) = inr (duplicate_entry (Some "email"%string))
  /\ fst (post_register env2 body w1)
     = inr (registration_success (created env2 body emailData)).
Proof.
  intros (Hnid & Hnem & Hnsid & _) Hr Hd Hf Hv Hage Hval Hs Hh Hst Hem Hsid
         Hfresh w1.
  subst w1. rewrite (post_verify_expired env1 uid w u Hr Hf Hv Hage Hd).
  cbn [fst snd]. destruct (find_by_id _ _ _ Hf) as [Hid Hin].
  split; [reflexivity|]. split.
  - rewrite (register_taken_email env2 body w emailData Hval Hs Hh Hst Hfresh);
      [reflexivity|].
    apply existsb_exists. exists u. split; [exact Hin|].
    unfold by_email. rewrite Hem. apply String.eqb_refl.
  - rewrite (register_succeeds env2 body _ emailData Hval Hs Hh Hst);
      [reflexivity|].
    assert (Hgone : forall x, In x (without uid (users w)) ->
                              In x (users w) /\ x <> u).
    { intros x Hx. unfold without in Hx. apply filter_In in Hx as [Hx Hb].
      split; [exact Hx|]. intros ->. unfold by_id in Hb.
      now rewrite Hid, oid_eqb_refl in Hb. }
    unfold vacant. cbn [users with_users]. repeat split.
    + apply existsb_by_id. intros Hx. apply in_map_iff in Hx as (x & Hx1 & Hx2).
      apply Hgone in Hx2 as [Hx2 _].
      apply (proj1 (existsb_by_id _ _) Hfresh).
      apply in_map_iff. now exists x.
    + apply existsb_by_email. intros Hx.
      apply in_map_iff in Hx as (x & Hx1 & Hx2).
      apply Hgone in Hx2 as [Hx2 Hne]. apply Hne.
      apply (NoDup_map_inj _ _ email (users w) x u Hnem Hx2 Hin).
      now rewrite Hx1, Hem.
    + rewrite Hsid. destruct (studentId u) as [s|] eqn:Hs'; [|exact I].
      apply not_true_iff_false. intros Hex.
      apply existsb_exists in Hex as (x & Hx & Hb).
      apply Hgone in Hx as [Hx Hne]. apply Hne.
      unfold by_studentId in Hb.
      destruct (studentId x) as [t|] eqn:Ht; [|discriminate].
      apply String.eqb_eq in Hb. subst t.
      clear - Hnsid Hx Hin Ht Hs'.
      induction (users w) as [|y us IH]; [destruct Hx|].
      simpl in Hnsid.
      destruct Hx as [-> | Hx], Hin as [-> | Hin]; try reflexivity.
      * rewrite Ht in Hnsid. inversion Hnsid as [|? ? Hnot _]; subst.
        destruct Hnot. apply in_student_ids. now exists u.
      * rewrite Hs' in Hnsid. inversion Hnsid as [|? ? Hnot _]; subst.
        destruct Hnot. apply in_student_ids. now exists x.
      * apply IH; try assumption.
        destruct (studentId y); [now inversion Hnsid | assumption].
Qed.

Lemma purge_frees_the_address_witness :
  let w1 := snd (post_verify_email (sample_env two_days_later)
                                   (Some (_id (sample_student false)))
                                   (sample_world false)) in
  fst (post_register (sample_env two_days_later)
                     (sample_registration "abc123!") w1)
  = inr (registration_success
           (created (sample_env two_days_later)
                    (sample_registration "abc123!") sample_emailData)).
Proof.
  intros w1.
  refine (proj2 (proj2
            (purge_frees_the_address
               (sample_env two_days_later) (sample_env two_days_later)
               (_id (sample_student false)) (sample_world false)
               (sample_student false) (sample_registration "abc123!")
               sample_emailData _ eq_refl eq_refl eq_refl eq_refl eq_refl
               _ eq_refl eq_refl _ eq_refl eq_refl eq_refl))).
  - repeat split; repeat constructor; simpl; tauto.
  - repeat split; reflexivity.
  - repeat split; try reflexivity;
      try (intros H; vm_compute in H; discriminate H).
    now exists "Faculty of Science"%string.
Defined.

(** X19: the routes keep the keys of the collection: if ids, addresses and
    student ids are unique and the addresses in lower case before a
    registration, a verification by either route or a login, so they are
    afterwards. *)
Theorem routes_keep_keys_unique (env : Env) (w : World) :
  store_ok (users w) ->
  (forall body, store_ok (users (snd (post_register env body w))))
  /\ (forall uid, store_ok (users (snd (post_verify_email env uid w))))
  /\ (forall uid, store_ok (users (snd (get_verify_email env uid w))))
  /\ (forall body, store_ok (users (snd (post_login env body w)))).
Proof.
  intros Hok.
  assert (Hverify : forall uid us',
             us' = users w
             \/ (exists u, List.find (by_id uid) (users w) = Some u
                           /\ isEmailVerified u = false
                           /\ (us' = without uid (users w)
                               \/ us' = saved (verified env u) (users w))) ->
             store_ok us').
  { intros uid us' [-> | (u & Hf & _ & [-> | ->])]; [exact Hok | |].
    - now apply store_ok_without.
    - apply store_ok_saved; [exact Hok|]. now apply find_by_id in Hf. }
  split; [|split; [|split]].
  - intros body.
    destruct (register_cases env body w)
      as [(ed & u & w1 & _ & Hc & _ & ->) | (_ & -> & _)]; [|exact Hok].
    destruct (create_doc _ _ _ _ _ Hc)
      as (Hid & _ & Hem & Hsid & _ & _ & _ & Hf1 & Hf2 & Hf3).
    apply store_ok_insert; try assumption.
    + now rewrite Hid.
    + now rewrite Hem.
    + now rewrite Hsid.
    + rewrite Hem. apply toLowerCase_idem.
  - intros [uid|].
    + apply (Hverify uid), post_verify_users.
    + now rewrite (proj1 (proj2 (proj2 (verification_frame_none env w)))).
  - intros [uid|].
    + apply (Hverify uid), get_verify_users.
    + now rewrite (proj2 (proj2 (proj2 (verification_frame_none env w)))).
  - intros body. now rewrite (proj1 (login_users env body w)).
Qed.

Lemma routes_keep_keys_unique_witness :
  store_ok (users (snd (post_register (sample_env an_hour_later)
                                      (sample_registration "abc123!")
                                      empty_world))).
Proof.
  refine (proj1 (routes_keep_keys_unique (sample_env an_hour_later)
                                         empty_world _) _).
  repeat split; constructor.
Defined.

(** X20: the token of a request.  A header that starts with [Bearer ]
    decides alone: the token of the query is not looked at, and when
    nothing or a space follows [Bearer ], the request is refused with
    [NO_TOKEN] even if the query carries a token; a token without a space
    is read from the header as it would be from the query. *)
Theorem bearer_header_decides (env : Env)
        (jwt_verify : string -> JsError + ObjectId) (t : string)
        (q : option string) (w : World) :
  let with_header :=
    authenticateToken env jwt_verify
      {| authorization := Some ("Bearer " ++ t)%string; query_token := q |} w in
  with_header
  = authenticateToken env jwt_verify
      {| authorization := Some ("Bearer " ++ t)%string; query_token := None |} w
  /\ (t = ""%string \/ (exists t', t = String " " t') ->
      with_header
      = (inr (inl (failure 401 "Authentication token required" "NO_TOKEN")),
         w))
  /\ (header_safe t ->
      with_header
      = authenticateToken env jwt_verify
          {| authorization := None; query_token := Some t |} w).
Proof.
  intros with_header. subst with_header. split; [|split].
  - apply authenticate_by_token. now rewrite !bearer_token.
  - intros Ht. apply authenticate_no_token. rewrite bearer_token.
    destruct Ht as [-> | (t' & ->)]; reflexivity.
  - intros [Hne Hsafe]. apply authenticate_by_token.
    rewrite bearer_token, (split_on_whole " " t Hsafe).
    symmetry. now apply query_token_used.
Qed.

Lemma bearer_header_decides_witness :
  authenticateToken (sample_env an_hour_later) (fun _ => inr (mkObjectId 1 1))
    {| authorization := Some "Bearer "%string;
       query_token := Some "a.valid.token"%string |} (sample_world true)
  = (inr (inl (failure 401 "Authentication token required" "NO_TOKEN")),
     sample_world true)
  /\ authenticateToken (sample_env an_hour_later)
       (fun _ => inr (mkObjectId 1700000000 1))
       {| authorization := Some "Bearer a.valid.token"%string;
          query_token := None |} (sample_world true)
     = authenticateToken (sample_env an_hour_later)
         (fun _ => inr (mkObjectId 1700000000 1))
         {| authorization := None;
            query_token := Some "a.valid.token"%string |} (sample_world true).
Proof.
  split.
  - apply (proj1 (proj2 (bearer_header_decides
                           (sample_env an_hour_later)
                           (fun _ => inr (mkObjectId 1 1)) ""
                           (Some "a.valid.token"%string) (sample_world true)))).
    now left.
  - apply (proj2 (proj2 (bearer_header_decides
                           (sample_env an_hour_later)
                           (fun _ => inr (mkObjectId 1700000000 1))
                           "a.valid.token" None (sample_world true)))).
    split; [discriminate | reflexivity].
Defined.

(** X21: [authenticateToken] never changes the collection, and it calls
    [next()] only for a token that verifies to the id of a stored account;
    [req.user] is then that account without its password hash. *)
Theorem authentication_is_sound (env : Env)
        (jwt_verify : string -> JsError + ObjectId) (req : AuthRequest)
        (w : World) :
  users (snd (authenticateToken env jwt_verify req w)) = users w
  /\ forall p w',
      authenticateToken env jwt_verify req w = (inr (inr p), w') ->
      w' = w
      /\ exists t u,
          request_token req = Some t
          /\ jwt_verify t = inr (_id u)
          /\ In u (users w)
          /\ p = select_without_password u.
Proof.
  split; [apply authenticate_users|].
  intros p w' H.
  destruct (authenticate_passes env jwt_verify req w w' p H)
    as (-> & t & u & Ht & _ & Hv & Hf & ->).
  split; [reflexivity|]. exists t, u. repeat split; try assumption.
  now apply find_by_id in Hf.
Qed.

Lemma authentication_is_sound_witness :
  sample_world true = sample_world true
  /\ exists t u,
      request_token
        {| authorization := Some "Bearer a.valid.token"%string;
           query_token := None |} = Some t
      /\ (inr (mkObjectId 1700000000 1) : JsError + ObjectId) = inr (_id u)
      /\ In u (users (sample_world true))
      /\ select_without_password (sample_student true)
         = select_without_password u.
Proof.
  exact (proj2 (authentication_is_sound
                  (sample_env an_hour_later)
                  (fun _ => inr (mkObjectId 1700000000 1))
                  {| authorization := Some "Bearer a.valid.token"%string;
                     query_token := None |} (sample_world true))
               (select_without_password (sample_student true))
               (sample_world true) eq_refl).
Defined.

(** X22: [authorizeRole(role)] answers 401 when no user was authenticated
    and 403 when the user's role is another one; it calls [next()] exactly
    for a user of that role, so a role other than [student] and
    [instructor] lets nobody through. *)
Theorem authorization_by_role (role : string) :
  authorizeRole role None
  = inl (failure 401 "Not authenticated" "NOT_AUTHENTICATED")
  /\ (forall p, authorizeRole role (Some p) = inr tt
                <-> role_name (pr_role p) = role)
  /\ (forall p, role_name (pr_role p) <> role ->
                authorizeRole role (Some p)
                = inl (failure 403 "Forbidden: insufficient role" "FORBIDDEN"))
  /\ (role <> "student"%string -> role <> "instructor"%string ->
      forall user, authorizeRole role user <> inr tt).
Proof.
  split; [reflexivity|].
  assert (Hiff : forall p, authorizeRole role (Some p) = inr tt
                           <-> role_name (pr_role p) = role).
  { intros p. unfold authorizeRole.
    destruct (String.eqb_spec (role_name (pr_role p)) role) as [H|H];
      cbn [negb]; split; intros; try discriminate; tauto. }
  split; [exact Hiff|]. split.
  - intros p Hne. unfold authorizeRole.
    now rewrite (proj2 (String.eqb_neq _ _) Hne).
  - intros Hs Hi [p|]; [|discriminate].
    intros H. apply Hiff in H. destruct (pr_role p); cbn in H; congruence.
Qed.

Lemma authorization_by_role_witness :
  authorizeRole "instructor"
                (Some (select_without_password (sample_student true)))
  = inl (failure 403 "Forbidden: insufficient role" "FORBIDDEN")
  /\ authorizeRole "admin"
                   (Some (select_without_password (sample_student true)))
     <> inr tt.
Proof.
  split.
  - apply (proj1 (proj2 (proj2 (authorization_by_role "instructor")))).
    discriminate.
  - apply (proj2 (proj2 (proj2 (authorization_by_role "admin"))));
      discriminate.
Defined.

(** X23: the token a login returns authenticates its owner: presented in a
    [Bearer] header to [GET /me], it is answered with the projection of
    the same account (with [studentId] and [isEmailVerified]), provided
    the verifier reads the id the signer put in and the ids of the
    collection are unique. *)
Theorem login_token_authenticates (env : Env)
        (jwt_verify : string -> JsError + ObjectId) (body : LoginBody)
        (w : World) (u : User) :
  NoDup (List.map _id (users w)) ->
  falsy (lb_email body) = false -> falsy (lb_password body) = false ->
  rejects env OpFindOne = None -> rejects env OpCompare = None ->
  rejects env OpSign = None -> rejects env OpFindById = None ->
  List.find (by_email (Str.toLowerCase (str (lb_email body)))) (users w)
  = Some u ->
  isEmailVerified u = true ->
  compare env (str (lb_password body)) (password u) = true ->
  let token := sign env (_id u) (role u) (email u) in
  header_safe token ->
  jwt_verify token = inr (_id u) ->
  post_login env body w = (inr (login_success token u), w)
  /\ get_me env jwt_verify
            {| authorization := Some ("Bearer " ++ token)%string;
               query_token := None |} w
     = (inr (me_reply u), w).
Proof.
  intros Hnd He Hp Hr Hc Hs Hr' Hf Hv Hm token [Hne Hsafe] Hjwt. split.
  - now apply login_succeeds.
  - apply (me_found env jwt_verify _ w token u Hr'); try assumption.
    + now rewrite bearer_token, (split_on_whole " " token Hsafe).
    + apply find_own_id; [exact Hnd|]. now apply find_some in Hf.
Qed.

Lemma login_token_authenticates_witness :
  get_me (sample_env two_days_later) (fun _ => inr (mkObjectId 1700000000 1))
         {| authorization :=
              Some "Bearer jwt.student.123456789@std.sci.cu.edu.eg"%string;
            query_token := None |} (sample_world true)
  = (inr (me_reply (sample_student true)), sample_world true).
Proof.
  refine (proj2 (login_token_authenticates
                   (sample_env two_days_later)
                   (fun _ => inr (mkObjectId 1700000000 1))
                   (sample_login "abc123!") (sample_world true)
                   (sample_student true) _ eq_refl eq_refl eq_refl eq_refl
                   eq_refl eq_refl eq_refl eq_refl eq_refl _ eq_refl)).
  - repeat constructor. simpl. tauto.
  - split; [discriminate | reflexivity].
Defined.

(** X24: the first version of the registration route and the resolver
    agree where the first version accepted: an address it took for a
    student or an instructor is resolved to the same role and the same
    student id, at the Faculty of Science of Cairo University; the id of a
    student is the seven digits of the address. *)
Theorem legacy_addresses_still_resolve (e : string) (r : Role)
        (sid : option string) :
  Legacy.detect_role e = Some (r, sid) ->
  extractUserDataFromEmail e
  = inr {| ed_university := "Cairo University";
           ed_faculty := FacultyName "Faculty of Science";
           ed_role := r; ed_studentId := sid |}
  /\ match sid with
     | Some d => r = student /\ String.length d = 7
                 /\ Str.forallb Str.isDigit d = true
     | None => r = instructor
     end.
Proof.
  unfold Legacy.detect_role.
  destruct (match_ true Legacy.studentEmailRegex e) as [m|] eqn:Hm.
  - intros [= <- <-].
    destruct (student_match e m Hm)
      as (d & mk & sub & dom & Hs & Hn & Hd & Hsub & ->).
    split; [|now repeat split].
    rewrite (extract_shaped _ _ _ _ _ Hs), Hsub.
    change (Obj.get (subdomains cairo_university) "sci")
      with (Obj.Own "Faculty of Science"%string).
    cbv beta iota. unfold resolve_role. now rewrite Hn, Hd.
  - destruct (test true Legacy.instructorEmailRegex e) eqn:Ht;
      [|discriminate].
    intros [= <- <-].
    destruct (instructor_match e Ht) as (local & sub & dom & Hs & Hsub).
    split; [|reflexivity].
    rewrite (extract_shaped _ _ _ _ _ Hs), Hsub. reflexivity.
Qed.

Lemma legacy_addresses_still_resolve_witness :
  extractUserDataFromEmail "1234567@STD.sci.cu.edu.eg"
  = inr {| ed_university := "Cairo University";
           ed_faculty := FacultyName "Faculty of Science";
           ed_role := student; ed_studentId := Some "1234567"%string |}
  /\ (student = student /\ String.length "1234567" = 7
      /\ Str.forallb Str.isDigit "1234567" = true).
Proof.
  exact (legacy_addresses_still_resolve
           "1234567@STD.sci.cu.edu.eg" student (Some "1234567"%string)
           eq_refl).
Defined.

(** X25: the development server signs in what it signed up: once a signup
    with a new address is accepted, a signin with the same address and
    password is answered [Login successful], whatever else the array
    holds, and the array then is the old one with the new account at its
    end.  Fields are strings or absent. *)
Theorem dev_signup_then_signin (body : DevServer.Account)
        (users : list DevServer.Account) :
  ~ In (DevServer.acc_email body) (List.map DevServer.acc_email users) ->
  DevServer.signup body users
  = (DevServer.say 200 "Account created successfully!", users ++ [body])
  /\ DevServer.signin (DevServer.acc_email body)
                      (DevServer.acc_password body) (users ++ [body])
     = (DevServer.say 200 "Login successful", users ++ [body]).
Proof.
  intros Hnew. pose proof (proj2 (find_email_none _ _) Hnew) as Hf.
  split.
  - unfold DevServer.signup. unfold has_email in Hf. rewrite Hf.
    now rewrite stored_is_body.
  - unfold DevServer.signin. rewrite find_app.
    destruct (List.find
                (fun u =>
                   DevServer.same (DevServer.acc_email u)
                                  (DevServer.acc_email body)
                   && DevServer.same (DevServer.acc_password u)
                                     (DevServer.acc_password body)) users).
    + reflexivity.
    + cbn [List.find]. now rewrite !same_refl.
Qed.

Lemma dev_signup_then_signin_witness :
  let body := {| DevServer.acc_fullName := Some "Mona"%string;
                 DevServer.acc_email := Some "mona@example.com"%string;
                 DevServer.acc_password := None |} in
  DevServer.signup body []
  = (DevServer.say 200 "Account created successfully!", [body])
  /\ DevServer.signin (Some "mona@example.com"%string) None [body]
     = (DevServer.say 200 "Login successful", [body]).
Proof.
  intros body. apply (dev_signup_then_signin body []). intros H. exact H.
Defined.

(** X26: on the development server the first signup of an address wins:
    after any sequence of signup requests on a fresh server, a signin is
    answered [Login successful] exactly when the first of the requests
    with this address carried this password. *)
Theorem dev_first_signup_wins (bodies : list DevServer.Account)
        (e p : option string) :
  fst (DevServer.signin e p (signups bodies []))
  = DevServer.say 200 "Login successful"
  <-> exists body,
        List.find (has_email e) bodies = Some body
        /\ DevServer.acc_password body = p.
Proof.
  rewrite signin_ok, find_credentials
    by (apply signups_NoDup; constructor).
  rewrite find_signups. cbn [List.find].
  destruct (List.find (has_email e) bodies) as [b|].
  - destruct (DevServer.same (DevServer.acc_password b) p) eqn:Hp.
    + apply same_eq in Hp. split; [intros _; now exists b|].
      intros _. now exists b.
    + split; [intros (u & H); discriminate|].
      intros (b' & [= <-] & H). apply same_eq in H. congruence.
  - split; [intros (u & H); discriminate | intros (b' & H & _); discriminate].
Qed.

(** X27: the array of the development server only grows at its end and
    never holds an address twice: signups keep the old accounts in place
    and the addresses distinct, every account they add is one of the
    requests, and a signin changes nothing. *)
Theorem dev_addresses_stay_unique (bodies users : list DevServer.Account)
        (e p : option string) :
  NoDup (List.map DevServer.acc_email users) ->
  NoDup (List.map DevServer.acc_email (signups bodies users))
  /\ (exists more,
        signups bodies users = users ++ more
        /\ forall u, In u more -> In u bodies)
  /\ snd (DevServer.signin e p users) = users.
Proof.
  intros Hnd. split; [now apply signups_NoDup|]. split.
  - destruct (signups_prefix bodies users) as (more & Hmore).
    exists more. split; [exact Hmore|]. intros u Hu.
    assert (Hin : In u (signups bodies users))
      by (rewrite Hmore; apply List.in_or_app; now right).
    pose proof (signups_NoDup bodies users Hnd) as Hnd'.
    rewrite Hmore, List.map_app in Hnd'.
    destruct (signups_In _ _ _ Hin) as [Hold | Hnew]; [|exact Hnew].
    exfalso. revert Hnd'. apply (NoDup_app_overlap _ (DevServer.acc_email u)).
    + now apply List.in_map.
    + now apply List.in_map.
  - apply signin_users.
Qed.

Lemma dev_addresses_stay_unique_witness :
  let a := {| DevServer.acc_fullName := Some "Mona"%string;
              DevServer.acc_email := Some "mona@example.com"%string;
              DevServer.acc_password := Some "one"%string |} in
  let b := {| DevServer.acc_fullName := Some "Mona"%string;
              DevServer.acc_email := Some "mona@example.com"%string;
              DevServer.acc_password := Some "two"%string |} in
  NoDup (List.map DevServer.acc_email (signups [b; a] [a]))
  /\ (exists more,
        signups [b; a] [a] = [a] ++ more
        /\ forall u, In u more -> In u [b; a])
  /\ snd (DevServer.signin None None [a]) = [a].
Proof.
  intros a b. apply (dev_addresses_stay_unique [b; a] [a] None None).
  repeat constructor. simpl. tauto.
Defined.

(** X28: what changed for students between the two versions: an address
    with a prefix of nine digits, which the resolver takes for a student
    with the last seven digits as the id, was refused by the first version
    as an invalid format. *)
Theorem legacy_refuses_new_student_ids (d : string) :
  String.length d = 9 -> Str.forallb Str.isDigit d = true ->
  Legacy.detect_role (d ++ "@std.sci.cu.edu.eg") = None
  /\ extractUserDataFromEmail (d ++ "@std.sci.cu.edu.eg")
     = student_of "Faculty of Science" (Str.substr d 2 7).
Proof.
  intros Hn Hd. split; [now apply legacy_nine_digits|].
  assert (Hs : shaped (d ++ "@std.sci.cu.edu.eg") d (Some "std"%string)
                      "sci" "cu.edu.eg").
  { repeat split; try reflexivity; try discriminate.
    - intros ->. discriminate Hn.
    - now apply digits_local. }
  rewrite (extract_shaped _ _ _ _ _ Hs).
  change (Obj.get (subdomains cairo_university) (Str.toLowerCase "sci"))
    with (Obj.Own "Faculty of Science"%string).
  cbv beta iota. unfold resolve_role. now rewrite Hn, Hd.
Qed.

Lemma legacy_refuses_new_student_ids_witness :
  Legacy.detect_role "123456789@std.sci.cu.edu.eg" = None
  /\ extractUserDataFromEmail "123456789@std.sci.cu.edu.eg"
     = student_of "Faculty of Science" "3456789".
Proof.
  apply (legacy_refuses_new_student_ids "123456789"); reflexivity.
Defined.
